(** * Zoom attendance reports: a shallow embedding of
      [generate-attendance-reports.py] and the properties of its
      aggregation and pivot logic.

    The script reads the rows of every [participants*.csv] file of a
    directory into the nested dictionary [emails]
    (identity key -> date -> [name, email, start, mins]) and then writes
    three tables from it.  Python integers are unbounded, hence [Z];
    Python dictionaries keep their insertion order, hence association
    lists with unique keys; an exception is a [Raise] in a small error
    monad.  Strings are byte strings: the model covers ASCII text, on
    which [str.lower], [in], [endswith] and the ordering of [sorted]
    are the functions below. *)

From stdpp Require Import gmap strings list.
From Stdlib Require Import ZArith Lia Ascii Sorting.Sorted.

Local Open Scope string_scope.
Local Open Scope list_scope.
Local Open Scope Z_scope.

(** ** Exceptions *)

Inductive exn : Type :=
| StopIteration
| IndexError
| ValueError
| NameError.

Inductive result (A : Type) : Type :=
| Ok (a : A)
| Raise (e : exn).
Arguments Ok {A} a.
Arguments Raise {A} e.

#[global] Instance result_ret : MRet result := fun A a => Ok a.
#[global] Instance result_bind : MBind result := fun A B f m =>
  match m with
  | Ok a => f a
  | Raise e => Raise e
  end.

Definition is_Ok {A} (m : result A) : bool :=
  match m with Ok _ => true | Raise _ => false end.

(** A [for] loop whose body may raise: the first exception ends it. *)
Fixpoint foldM {S A} (body : S -> A -> result S) (s : S) (l : list A) : result S :=
  match l with
  | [] => Ok s
  | a :: l' => s' ← body s a; foldM body s' l'
  end.

(** ** Strings *)

Module Str.

(** [s.endswith(suffix)] *)
Fixpoint endswith (s suffix : string) : bool :=
  if String.eqb s suffix then true
  else match s with
       | EmptyString => false
       | String _ s' => endswith s' suffix
       end.

(** [sub in s] *)
Fixpoint contains (sub s : string) : bool :=
  if String.prefix sub s then true
  else match s with
       | EmptyString => false
       | String _ s' => contains sub s'
       end.

Definition lower_ascii (c : Ascii.ascii) : Ascii.ascii :=
  let n := Ascii.N_of_ascii c in
  if ((65 <=? n) && (n <=? 90))%N then Ascii.ascii_of_N (n + 32) else c.

(** [s.lower()] *)
Fixpoint lower (s : string) : string :=
  match s with
  | EmptyString => EmptyString
  | String c s' => String (lower_ascii c) (lower s')
  end.

End Str.

(** ** [sorted] *)

Section Sorting.
Context {A : Type} (leb : A -> A -> bool).

Fixpoint insert_sorted (x : A) (l : list A) : list A :=
  match l with
  | [] => [x]
  | y :: l' => if leb x y then x :: l else y :: insert_sorted x l'
  end.

Definition sorted (l : list A) : list A := foldr insert_sorted [] l.
End Sorting.

(** ** Calendar dates ([datetime.date]) *)

Record date : Type := Date { year : Z; month : Z; day : Z }.

#[global] Instance date_eq_dec : EqDecision date.
Proof. solve_decision. Defined.

Record datetime : Type := DateTime { dt_date : date; hour : Z; minute : Z; second : Z }.

Module Cal.

Definition is_leap (y : Z) : bool :=
  (y mod 4 =? 0) && (negb (y mod 100 =? 0) || (y mod 400 =? 0)).

Definition days_before_year (y : Z) : Z :=
  let y := y - 1 in y * 365 + y / 4 - y / 100 + y / 400.

Definition DAYS_IN_MONTH : list Z :=
  [-1; 31; 28; 31; 30; 31; 30; 31; 31; 30; 31; 30; 31].

Definition DAYS_BEFORE_MONTH : list Z :=
  [-1; 0; 31; 59; 90; 120; 151; 181; 212; 243; 273; 304; 334].

Definition days_before_month (y m : Z) : Z :=
  nth (Z.to_nat m) DAYS_BEFORE_MONTH 0 + (if (2 <? m) && is_leap y then 1 else 0).

Definition ymd2ord (y m d : Z) : Z :=
  days_before_year y + days_before_month y m + d.

Definition toordinal (d : date) : Z := ymd2ord (year d) (month d) (day d).

(** [date.fromordinal] *)
Definition ord2ymd (n : Z) : date :=
  let n := n - 1 in
  let n400 := n / 146097 in
  let n := n mod 146097 in
  let y := n400 * 400 + 1 in
  let n100 := n / 36524 in
  let n := n mod 36524 in
  let n4 := n / 1461 in
  let n := n mod 1461 in
  let n1 := n / 365 in
  let n := n mod 365 in
  let y := y + n100 * 100 + n4 * 4 + n1 in
  if (n1 =? 4) || (n100 =? 4) then Date (y - 1) 12 31
  else
    let leapyear := (n1 =? 3) && (negb (n4 =? 24) || (n100 =? 3)) in
    let m := Z.shiftr (n + 50) 5 in
    let preceding :=
      nth (Z.to_nat m) DAYS_BEFORE_MONTH 0 + (if (2 <? m) && leapyear then 1 else 0) in
    if n <? preceding then
      let m := m - 1 in
      let preceding :=
        preceding - (nth (Z.to_nat m) DAYS_IN_MONTH 0
                     + (if (m =? 2) && leapyear then 1 else 0)) in
      Date y m (n - preceding + 1)
    else Date y m (n - preceding + 1).

(** Monday is 1, Sunday is 7. *)
Definition isoweekday (d : date) : Z := (toordinal d + 6) mod 7 + 1.

Definition isoweek1monday (y : Z) : Z :=
  let firstday := ymd2ord y 1 1 in
  let firstweekday := (firstday + 6) mod 7 in
  let week1monday := firstday - firstweekday in
  if 3 <? firstweekday then week1monday + 7 else week1monday.

(** [date.isocalendar()]: (ISO year, ISO week number, ISO weekday). *)
Definition isocalendar (d : date) : Z * Z * Z :=
  let y := year d in
  let week1monday := isoweek1monday y in
  let today := toordinal d in
  let week := (today - week1monday) / 7 in
  let wday := (today - week1monday) mod 7 in
  if week <? 0 then
    let y := y - 1 in
    let week1monday := isoweek1monday y in
    (y, (today - week1monday) / 7 + 1, (today - week1monday) mod 7 + 1)
  else if (52 <=? week) && (isoweek1monday (y + 1) <=? today) then
    (y + 1, 1, wday + 1)
  else (y, week + 1, wday + 1).

Definition iso_year (d : date) : Z := (isocalendar d).1.1.
Definition iso_week (d : date) : Z := (isocalendar d).1.2.

(** Dates compare as (year, month, day). *)
Definition leb (a b : date) : bool :=
  if year a =? year b then
    if month a =? month b then day a <=? day b else month a <? month b
  else year a <? year b.

Definition lt (a b : date) : Prop :=
  year a < year b \/
  (year a = year b /\ (month a < month b \/ (month a = month b /\ day a < day b))).

End Cal.

(** [date_from_isoweek]: the script formats the three numbers and parses
    them back with ['%G %V %u'], for which [strptime] takes the day of the
    year [week * 7 + weekday - (isoweekday of 4 January + 3)] of the ISO
    year and converts it with [fromordinal]. *)
Definition date_from_isoweek (iso_year iso_weeknumber iso_weekday : Z) : date :=
  let correction := Cal.isoweekday (Date iso_year 1 4) + 3 in
  let julian := iso_weeknumber * 7 + iso_weekday - correction in
  Cal.ord2ymd (julian - 1 + Cal.ymd2ord iso_year 1 1).

(** ** Identity classifier *)

Definition knownDemonstratorEmails : list string := [].

Definition StaffEmail (email : string) : bool :=
  Str.contains "@glasgow.ac.uk" email
  || Str.contains "@research.glasgow.ac.uk" email
  || Str.contains "@gla.ac.uk" email
  || Str.contains "@research.gla.ac.uk" email
  || bool_decide (email ∈ knownDemonstratorEmails).

Definition UniversityStudentEmail (email : string) : bool :=
  Str.contains "@student.gla.ac.uk" email.

(** ** Dictionaries

    A [dict] is the list of its items in insertion order.  Assigning to a
    key that is present replaces its value in place; assigning to a new
    key appends the item. *)

Abbreviation dict K V := (list (K * V)).

Section Dict.
Context {K V : Type} `{EqDecision K}.

(** [d[k]], [None] where Python raises [KeyError] *)
Fixpoint dict_get (d : dict K V) (k : K) : option V :=
  match d with
  | [] => None
  | (k', v) :: d' => if decide (k' = k) then Some v else dict_get d' k
  end.

(** [k in d] *)
Definition dict_mem (d : dict K V) (k : K) : bool :=
  match dict_get d k with Some _ => true | None => false end.

(** [d[k] = v] *)
Fixpoint dict_set (d : dict K V) (k : K) (v : V) : dict K V :=
  match d with
  | [] => [(k, v)]
  | (k', v') :: d' =>
      if decide (k' = k) then (k', v) :: d' else (k', v') :: dict_set d' k v
  end.

Definition keys (d : dict K V) : list K := d.*1.
Definition values (d : dict K V) : list V := d.*2.

(** [for k in sorted(d): v = d[k]]: the keys in ascending order, each
    with the value stored under it. *)
Definition items_sorted (leb : K -> K -> bool) (d : dict K V) : dict K V :=
  omap (fun k => pair k <$> dict_get d k) (sorted leb (keys d)).

(** [next(iter(d.values()))] *)
Definition first_value (d : dict K V) : result V :=
  match values d with
  | [] => Raise StopIteration
  | v :: _ => Ok v
  end.
End Dict.

(** ** Data model *)

(** The value stored per (identity key, date): the Python list
    [[name, email, start, mins]], whose last item is updated in place. *)
Record DailyAttendance : Type := Entry {
  e_name : string;
  e_email : string;
  e_start : string;
  e_mins : Z
}.

(** [emails]: identity key -> date -> entry. *)
Abbreviation emails_t := (dict string (dict date DailyAttendance)).

(** What the loop body holds of a data row once it is parsed. *)
Record parsed_row : Type := Parsed {
  p_name : string;
  p_email : string;
  p_emailKey : string;
  p_start : string;
  p_mins : Z;
  p_date : date
}.

(** A cell handed to [csv.writer]: a string, an integer or a date. *)
Inductive cell : Type :=
| CStr (s : string)
| CInt (n : Z)
| CDate (d : date).

(** The text of a low-attendance warning: name, email, number of sessions. *)
Record warning : Type := Warning {
  w_name : string;
  w_email : string;
  w_sessions : nat
}.

(** The three tables written for a directory, and the warnings printed. *)
Record reports : Type := Reports {
  meeting_report : list (list cell);
  low_attendance : list warning;
  meeting_report_by_date : list (list cell);
  meeting_report_by_week : list (list cell)
}.

(** A row of [csv.reader] is a list of fields, a file the list of its
    rows, a directory the list of its [participants*.csv] files in the
    order [glob] returns them. *)
Abbreviation row_t := (list string).
Abbreviation file_t := (list (list string)).

(** [row[i]] *)
Definition index (row : row_t) (i : nat) : result string :=
  match row !! i with
  | Some x => Ok x
  | None => Raise IndexError
  end.

Definition of_option {A} (o : option A) (e : exn) : result A :=
  match o with
  | Some a => Ok a
  | None => Raise e
  end.

(** ** The script *)

Section Script.

(** The curated alias table (alternate email -> canonical email) and
    the [-m] threshold; the script ships with [emailMapping = { }] and
    [warningThreshold = 0]. *)
Variable emailMapping : gmap string string.
Variable warningThreshold : Z.

(** The two library parsers the loop calls without a guard:
    [int(_)] and [datetime.datetime.strptime(_, '%d/%m/%Y %H:%M:%S %p')].
    [None] stands for the [ValueError] they raise. *)
Variable py_int : string -> option Z.
Variable strptime : string -> option datetime.

(** *** Loading *)

(** The identity key of a lowercased email. *)
Definition emailKey_of (email : string) : string :=
  match emailMapping !! email with
  | Some canonical => canonical
  | None => email
  end.

(** The first half of the loop body: [None] for the header row. *)
Definition parse_row (row : row_t) : result (option parsed_row) :=
  c0 ← index row 0;
  if Str.endswith c0 "Name (Original Name)" then Ok None
  else
    let name := c0 in
    c1 ← index row 1;
    let email := Str.lower c1 in
    let emailKey := emailKey_of email in
    start ← index row 2;
    c4 ← index row 4;
    mins ← of_option (py_int c4) ValueError;
    date_time_obj ← of_option (strptime start) ValueError;
    let date := dt_date date_time_obj in
    Ok (Some (Parsed name email emailKey start mins date)).

(** The second half: fold the parsed row into [emails]. *)
Definition fold_in (emails : emails_t) (r : parsed_row) : emails_t :=
  let emails :=
    if dict_mem emails (p_emailKey r) then emails
    else dict_set emails (p_emailKey r) [] in
  let studentRecord := default [] (dict_get emails (p_emailKey r)) in
  match dict_get studentRecord (p_date r) with
  | Some e =>
      dict_set emails (p_emailKey r)
        (dict_set studentRecord (p_date r)
           (Entry (e_name e) (e_email e) (e_start e) (e_mins e + p_mins r)))
  | None =>
      dict_set emails (p_emailKey r)
        (dict_set studentRecord (p_date r)
           (Entry (p_name r) (p_email r) (p_start r) (p_mins r)))
  end.

Definition process_row (emails : emails_t) (row : row_t) : result emails_t :=
  r ← parse_row row;
  match r with
  | None => Ok emails
  | Some r => Ok (fold_in emails r)
  end.

(** The quick peek at the date of a file: two [next(csvreader)], then
    [row2[2]] for the progress message. *)
Definition peek (f : file_t) : result string :=
  match f with
  | row1 :: row2 :: _ => index row2 2
  | _ => Raise StopIteration
  end.

Definition process_file (emails : emails_t) (f : file_t) : result emails_t :=
  _ ← peek f;
  foldM process_row emails f.

Definition load_directory (files : list file_t) : result emails_t :=
  foldM process_file [] files.

(** *** Table 1: the chronological report and the warnings *)

Definition outputStudentAttendanceOnly : bool := true.

Definition entry_row (e : DailyAttendance) : list cell :=
  [CStr (e_name e); CStr (e_email e); CStr (e_start e); CInt (e_mins e)].

(** One participant.  [row] at the warning is the variable the loop
    over the dates assigned last; no record of [emails] is empty, and
    the model raises [NameError] should the loop not have run. *)
Definition chrono_participant (email : string) (entry : dict date DailyAttendance)
  : result (list (list cell) * list warning) :=
  let rows := (items_sorted Cal.leb entry).*2 in
  if negb (StaffEmail email) && (Z.of_nat (length entry) <=? warningThreshold) then
    row ← of_option (last rows) NameError;
    Ok (entry_row <$> rows, [Warning (e_name row) (e_email row) (length entry)])
  else Ok (entry_row <$> rows, []).

Definition chronological (emails : emails_t)
  : result (list (list cell) * list warning) :=
  foldM (fun out '(email, entry) =>
           if outputStudentAttendanceOnly && StaffEmail email then Ok out
           else
             r ← chrono_participant email entry;
             Ok (out.1 ++ r.1, out.2 ++ r.2))
        ([], []) (items_sorted String.leb emails).

(** *** Table 2: participants against dates *)

Definition dateCatalogue (emails : emails_t) : dict date date :=
  foldl (fun cat '(email, entry) =>
           foldl (fun cat date =>
                    if dict_mem cat date then cat else dict_set cat date date)
                 cat (keys entry))
        [] (items_sorted String.leb emails).

Definition date_cell (studentRecord : dict date DailyAttendance) (date : date) : cell :=
  match dict_get studentRecord date with
  | Some row => CInt (e_mins row)
  | None => CStr ""
  end.

Definition date_pivot (emails : emails_t) : result (list (list cell)) :=
  let dateCatalogue := dateCatalogue emails in
  let header :=
    [CStr "Name"; CStr "Email"] ++ (CDate <$> sorted Cal.leb (keys dateCatalogue)) in
  foldM (fun out '(email, studentRecord) =>
           if outputStudentAttendanceOnly && StaffEmail email then Ok out
           else
             firstEntry ← first_value studentRecord;
             let name := e_name firstEntry in
             Ok (out ++ [[CStr name; CStr email]
                           ++ (date_cell studentRecord
                                 <$> sorted Cal.leb (keys dateCatalogue))]))
        [header] (items_sorted String.leb emails).

(** *** Table 3: participants against weeks *)

Definition weekCatalogue (emails : emails_t) : dict Z date :=
  foldl (fun cat '(email, entry) =>
           foldl (fun cat date =>
                    let week := (Cal.isocalendar date).1.2 in
                    if dict_mem cat week then cat
                    else
                      let weekStart :=
                        date_from_isoweek (Cal.isocalendar date).1.1
                                          (Cal.isocalendar date).1.2 1 in
                      dict_set cat week weekStart)
                 cat (keys entry))
        [] (items_sorted String.leb emails).

Definition attendanceSum (studentRecord : dict date DailyAttendance) (week : Z) : Z :=
  foldl (fun attendanceSum '(date, row) =>
           let studentEntryWeek := (Cal.isocalendar date).1.2 in
           if studentEntryWeek =? week then attendanceSum + e_mins row
           else attendanceSum)
        0 studentRecord.

Definition week_cell (studentRecord : dict date DailyAttendance) (week : Z) : cell :=
  let attendanceSum := attendanceSum studentRecord week in
  if 0 <? attendanceSum then CInt attendanceSum else CStr "".

Definition week_pivot (emails : emails_t) : result (list (list cell)) :=
  let weekCatalogue := weekCatalogue emails in
  let header :=
    [CStr "Name"; CStr "Email"]
      ++ (CDate <$> (items_sorted Z.leb weekCatalogue).*2) in
  foldM (fun out '(email, studentRecord) =>
           if outputStudentAttendanceOnly && StaffEmail email then Ok out
           else
             firstEntry ← first_value studentRecord;
             let name := e_name firstEntry in
             Ok (out ++ [[CStr name; CStr email]
                           ++ (week_cell studentRecord
                                 <$> sorted Z.leb (keys weekCatalogue))]))
        [header] (items_sorted String.leb emails).

(** *** One directory, and the run over all of them *)

(** The files are read first; the three reports are opened and written
    only after the last row of the last file is folded in.  In between the
    script prints, for the addresses that are neither staff nor student
    addresses, the student records whose name holds the same surname;
    that pass only reads [emails] and prints, and is not part of the
    reports. *)
Definition process_directory (files : list file_t) : result reports :=
  emails ← load_directory files;
  t1 ← chronological emails;
  t2 ← date_pivot emails;
  t3 ← week_pivot emails;
  Ok (Reports t1.1 t1.2 t2 t3).

(** [for sourcePath in directoriesToProcess]: nothing catches an
    exception, so the first one ends the whole run.  The result is the
    reports written so far and the exception, if any. *)
Fixpoint run (directoriesToProcess : list (list file_t))
  : list reports * option exn :=
  match directoriesToProcess with
  | [] => ([], None)
  | files :: rest =>
      match process_directory files with
      | Ok r => let '(rs, e) := run rest in (r :: rs, e)
      | Raise e => ([], Some e)
      end
  end.

End Script.

(** ** The parsers on the text Zoom writes

    [Zoom.int] and [Zoom.strptime] read an optionally signed run of ASCII
    digits and the fixed-width stamp [DD/MM/YYYY HH:MM:SS AM] (or [PM]).
    On what they accept they return what CPython's [int] and [strptime]
    return (with [%H] the hour is taken as written, the AM/PM mark is only
    matched); CPython accepts more spellings (blanks around a number,
    one-digit fields), which the examples below do not use. *)

Module Zoom.

Definition digit (c : Ascii.ascii) : option Z :=
  let n := Ascii.N_of_ascii c in
  if ((48 <=? n) && (n <=? 57))%N then Some (Z.of_N n - 48) else None.

Fixpoint digits (acc : Z) (s : string) : option Z :=
  match s with
  | EmptyString => Some acc
  | String c s' =>
      match digit c with
      | Some v => digits (10 * acc + v) s'
      | None => None
      end
  end.

Definition natural (s : string) : option Z :=
  match s with
  | EmptyString => None
  | _ => digits 0 s
  end.

Definition int (s : string) : option Z :=
  match s with
  | String "-"%char s' => Z.opp <$> natural s'
  | String "+"%char s' => natural s'
  | _ => natural s
  end.

Definition within (lo hi : Z) (o : option Z) : option Z :=
  match o with
  | Some v => if (lo <=? v) && (v <=? hi) then Some v else None
  | None => None
  end.

Definition days_in_month (y m : Z) : Z :=
  if (m =? 2) && Cal.is_leap y then 29 else nth (Z.to_nat m) Cal.DAYS_IN_MONTH 0.

Definition strptime (s : string) : option datetime :=
  if bool_decide (String.length s = 22%nat)
     && String.eqb (String.substring 2 1 s) "/" && String.eqb (String.substring 5 1 s) "/"
     && String.eqb (String.substring 10 1 s) " " && String.eqb (String.substring 13 1 s) ":"
     && String.eqb (String.substring 16 1 s) ":" && String.eqb (String.substring 19 1 s) " "
     && bool_decide (String.substring 20 2 s ∈ ["AM"; "PM"; "am"; "pm"])
  then
    d ← within 1 31 (natural (String.substring 0 2 s));
    m ← within 1 12 (natural (String.substring 3 2 s));
    y ← within 1 9999 (natural (String.substring 6 4 s));
    H ← within 0 23 (natural (String.substring 11 2 s));
    M ← within 0 59 (natural (String.substring 14 2 s));
    S ← within 0 59 (natural (String.substring 17 2 s));
    if d <=? days_in_month y m then Some (DateTime (Date y m d) H M S) else None
  else None.

End Zoom.

(** ** Views of the input and of [emails] used in the statements *)

Section Views.
Variable emailMapping : gmap string string.
Variable py_int : string -> option Z.
Variable strptime : string -> option datetime.

(** A row that the loop folds in, as parsed; [None] for the header row
    and for a row on which parsing raises. *)
Definition data_row (row : row_t) : option parsed_row :=
  match parse_row emailMapping py_int strptime row with
  | Ok (Some r) => Some r
  | _ => None
  end.

(** The data rows of a directory in reading order. *)
Definition data_rows (files : list file_t) : list parsed_row :=
  omap data_row (concat files).

(** A file the loader gets through: the peek and every row parse. *)
Definition file_ok (f : file_t) : bool :=
  is_Ok (peek f)
  && forallb (fun row => is_Ok (parse_row emailMapping py_int strptime row)) f.

(** A data row with an unparseable timestamp or a non-integer duration. *)
Definition malformed (row : row_t) : Prop :=
  ∃ c0 c2 c4,
    row !! 0%nat = Some c0 ∧ Str.endswith c0 "Name (Original Name)" = false ∧
    row !! 2%nat = Some c2 ∧ row !! 4%nat = Some c4 ∧
    (py_int c4 = None ∨ strptime c2 = None).
End Views.

(** The rows that resolve to identity key [k] and calendar date [d]. *)
Definition resolving (k : string) (d : date) (rs : list parsed_row) : list parsed_row :=
  filter (λ r, p_emailKey r = k ∧ p_date r = d) rs.

Definition total_mins (rs : list parsed_row) : Z :=
  foldr (λ r s, p_mins r + s) 0 rs.

(** [emails[k][d]] *)
Definition lookup2 (emails : emails_t) (k : string) (d : date) : option DailyAttendance :=
  studentRecord ← dict_get emails k; dict_get studentRecord d.

(** Every entry held under key [k] and date [d], should there be several. *)
Definition entries_at (emails : emails_t) (k : string) (d : date) : list DailyAttendance :=
  (filter (λ q, q.1 = d) (concat (filter (λ p, p.1 = k) emails).*2)).*2.

(** What holds of [emails] while a directory is loaded: keys are unique
    at both levels, no record is empty, and an entry sits under the key
    its email resolves to. *)
Definition wf_record (emailMapping : gmap string string)
    (p : string * dict date DailyAttendance) : Prop :=
  NoDup (keys p.2) ∧ p.2 ≠ [] ∧
  Forall (λ q, emailKey_of emailMapping (e_email q.2) = p.1) p.2.

Definition wf_emails (emailMapping : gmap string string) (emails : emails_t) : Prop :=
  NoDup (keys emails) ∧ Forall (wf_record emailMapping) emails.

(** The entry written for row [r] at its date in record [studentRecord]. *)
Definition folded_entry (studentRecord : dict date DailyAttendance) (r : parsed_row)
  : DailyAttendance :=
  match dict_get studentRecord (p_date r) with
  | Some e => Entry (e_name e) (e_email e) (e_start e) (e_mins e + p_mins r)
  | None => Entry (p_name r) (p_email r) (p_start r) (p_mins r)
  end.

Definition add_mins (e : DailyAttendance) (m : Z) : DailyAttendance :=
  Entry (e_name e) (e_email e) (e_start e) (e_mins e + m).

(** ** The tables in closed form *)

(** The participants that the report loops do not skip, in the order of
    [sorted(emails)]. *)
Definition included (emails : emails_t) : emails_t :=
  filter (λ p, StaffEmail p.1 = false) (items_sorted String.leb emails).

(** The name column of the pivot tables: the name of the first entry of
    the record. *)
Definition name_of (studentRecord : dict date DailyAttendance) : string :=
  match studentRecord with
  | (_, e) :: _ => e_name e
  | [] => ""
  end.

(** The rows of Table 1 for one participant. *)
Definition chrono_rows (p : string * dict date DailyAttendance) : list (list cell) :=
  entry_row <$> (items_sorted Cal.leb p.2).*2.

(** The warning for one participant that is not skipped, if any. *)
Definition warnings_of (warningThreshold : Z) (p : string * dict date DailyAttendance)
  : list warning :=
  if Z.of_nat (length p.2) <=? warningThreshold then
    match last (items_sorted Cal.leb p.2).*2 with
    | Some row => [Warning (e_name row) (e_email row) (length p.2)]
    | None => []
    end
  else [].

(** A row of a pivot table. *)
Definition pivot_row (cells : dict date DailyAttendance → list cell)
    (p : string * dict date DailyAttendance) : list cell :=
  [CStr (name_of p.2); CStr p.1] ++ cells p.2.

Definition date_header (emails : emails_t) : list cell :=
  [CStr "Name"; CStr "Email"] ++ (CDate <$> sorted Cal.leb (keys (dateCatalogue emails))).

Definition date_cells (emails : emails_t) (studentRecord : dict date DailyAttendance)
  : list cell :=
  date_cell studentRecord <$> sorted Cal.leb (keys (dateCatalogue emails)).

Definition week_header (emails : emails_t) : list cell :=
  [CStr "Name"; CStr "Email"]
    ++ (CDate <$> (items_sorted Z.leb (weekCatalogue emails)).*2).

Definition week_cells (emails : emails_t) (studentRecord : dict date DailyAttendance)
  : list cell :=
  week_cell studentRecord <$> sorted Z.leb (keys (weekCatalogue emails)).

Definition reports_of (warningThreshold : Z) (emails : emails_t) : reports :=
  Reports (concat (chrono_rows <$> included emails))
          (concat (warnings_of warningThreshold <$> included emails))
          (date_header emails :: (pivot_row (date_cells emails) <$> included emails))
          (week_header emails :: (pivot_row (week_cells emails) <$> included emails)).

(** ** Week sums used in the statements *)

(** The minutes of the dates of a record that fall in ISO week number
    [week], whatever their ISO year. *)
Definition week_minutes (studentRecord : dict date DailyAttendance) (week : Z) : Z :=
  foldr Z.add 0
    ((λ q, e_mins q.2) <$> filter (λ q, Cal.iso_week q.1 = week) studentRecord).

(** The minutes of the dates of a record that fall in week [week] of ISO
    year [iso_year]: the sum the week-pivot report is specified to show. *)
Definition week_minutes_in_year (studentRecord : dict date DailyAttendance)
    (iso_year week : Z) : Z :=
  foldr Z.add 0
    ((λ q, e_mins q.2)
       <$> filter (λ q, Cal.iso_year q.1 = iso_year ∧ Cal.iso_week q.1 = week)
                  studentRecord).

(** A sum as a cell: the number when it is positive, else the empty cell. *)
Definition minutes_cell (s : Z) : cell := if 0 <? s then CInt s else CStr "".

(** ** Sample directories *)

Module Ex.

Definition header : row_t :=
  ["Name (Original Name)"; "User Email"; "Join Time"; "Leave Time";
   "Duration (Minutes)"].

(** Two exports of the same meeting: one student, 10 and 15 minutes. *)
Definition file_a : file_t :=
  [header;
   ["A Student"; "X@student.gla.ac.uk"; "01/10/2020 09:00:00 AM";
    "01/10/2020 09:10:00 AM"; "10"]].

Definition file_b : file_t :=
  [header;
   ["Student, A"; "x@student.gla.ac.uk"; "01/10/2020 09:40:00 AM";
    "01/10/2020 09:55:00 AM"; "15"]].

(** A demonstrator alone on 1 October, a student on 8 October. *)
Definition file_staff : file_t :=
  [header;
   ["Demo"; "demo@glasgow.ac.uk"; "01/10/2020 09:00:00 AM";
    "01/10/2020 09:50:00 AM"; "50"];
   ["B Student"; "b@student.gla.ac.uk"; "08/10/2020 09:00:00 AM";
    "08/10/2020 09:30:00 AM"; "30"]].

(** A duration that is not an integer, a stamp that is not a date. *)
Definition bad_row : row_t :=
  ["B Student"; "b@student.gla.ac.uk"; "yesterday"; "today"; "abc"].

Definition file_bad : file_t := [header; bad_row].

(** Monday and Wednesday of ISO week 10 of 2020. *)
Definition file_week10 : file_t :=
  [header;
   ["A Student"; "x@student.gla.ac.uk"; "02/03/2020 09:00:00 AM";
    "02/03/2020 09:30:00 AM"; "30"];
   ["A Student"; "x@student.gla.ac.uk"; "04/03/2020 09:00:00 AM";
    "04/03/2020 09:45:00 AM"; "45"]].

(** Monday of week 1 of ISO year 2020 and Monday of week 1 of ISO year
    2021. *)
Definition file_two_years : file_t :=
  [header;
   ["A Student"; "x@student.gla.ac.uk"; "30/12/2019 09:00:00 AM";
    "30/12/2019 09:30:00 AM"; "30"];
   ["A Student"; "x@student.gla.ac.uk"; "04/01/2021 09:00:00 AM";
    "04/01/2021 09:45:00 AM"; "45"]].

(** One student on two dates, another on three. *)
Definition file_sessions : file_t :=
  [header;
   ["P Student"; "p@student.gla.ac.uk"; "01/10/2020 09:00:00 AM";
    "01/10/2020 09:30:00 AM"; "30"];
   ["P Student"; "p@student.gla.ac.uk"; "08/10/2020 09:00:00 AM";
    "08/10/2020 09:30:00 AM"; "30"];
   ["Q Student"; "q@student.gla.ac.uk"; "01/10/2020 09:00:00 AM";
    "01/10/2020 09:30:00 AM"; "30"];
   ["Q Student"; "q@student.gla.ac.uk"; "08/10/2020 09:00:00 AM";
    "08/10/2020 09:30:00 AM"; "30"];
   ["Q Student"; "q@student.gla.ac.uk"; "15/10/2020 09:00:00 AM";
    "15/10/2020 09:30:00 AM"; "30"]].

(** A student who signs in with the university address first and with a
    personal address later the same day. *)
Definition aliases : gmap string string :=
  <["a@personal.com" := "1a@student.gla.ac.uk"]> ∅.

Definition file_alias : file_t :=
  [header;
   ["A Student"; "1a@student.gla.ac.uk"; "01/10/2020 09:00:00 AM";
    "01/10/2020 09:10:00 AM"; "10"];
   ["A Student"; "a@personal.com"; "01/10/2020 09:40:00 AM";
    "01/10/2020 09:55:00 AM"; "15"]].

(** A file that holds its header row only. *)
Definition file_header_only : file_t := [header].

End Ex.

(** ** What the script computes on the sample directories *)

Module Out.

Definition reports_a : reports :=
  Reports
    [[CStr "A Student"; CStr "x@student.gla.ac.uk";
      CStr "01/10/2020 09:00:00 AM"; CInt 10]]
    []
    [[CStr "Name"; CStr "Email"; CDate (Date 2020 10 1)];
     [CStr "A Student"; CStr "x@student.gla.ac.uk"; CInt 10]]
    [[CStr "Name"; CStr "Email"; CDate (Date 2020 9 28)];
     [CStr "A Student"; CStr "x@student.gla.ac.uk"; CInt 10]].

Definition emails_staff : emails_t :=
  [("demo@glasgow.ac.uk",
    [(Date 2020 10 1,
      Entry "Demo" "demo@glasgow.ac.uk" "01/10/2020 09:00:00 AM" 50)]);
   ("b@student.gla.ac.uk",
    [(Date 2020 10 8,
      Entry "B Student" "b@student.gla.ac.uk" "08/10/2020 09:00:00 AM" 30)])].

Definition reports_staff : reports :=
  Reports
    [[CStr "B Student"; CStr "b@student.gla.ac.uk";
      CStr "08/10/2020 09:00:00 AM"; CInt 30]]
    []
    [[CStr "Name"; CStr "Email"; CDate (Date 2020 10 1); CDate (Date 2020 10 8)];
     [CStr "B Student"; CStr "b@student.gla.ac.uk"; CStr ""; CInt 30]]
    [[CStr "Name"; CStr "Email"; CDate (Date 2020 9 28); CDate (Date 2020 10 5)];
     [CStr "B Student"; CStr "b@student.gla.ac.uk"; CStr ""; CInt 30]].

Definition record_week10 : dict date DailyAttendance :=
  [(Date 2020 3 2,
    Entry "A Student" "x@student.gla.ac.uk" "02/03/2020 09:00:00 AM" 30);
   (Date 2020 3 4,
    Entry "A Student" "x@student.gla.ac.uk" "04/03/2020 09:00:00 AM" 45)].

Definition reports_week10 : reports :=
  Reports
    [[CStr "A Student"; CStr "x@student.gla.ac.uk";
      CStr "02/03/2020 09:00:00 AM"; CInt 30];
     [CStr "A Student"; CStr "x@student.gla.ac.uk";
      CStr "04/03/2020 09:00:00 AM"; CInt 45]]
    []
    [[CStr "Name"; CStr "Email"; CDate (Date 2020 3 2); CDate (Date 2020 3 4)];
     [CStr "A Student"; CStr "x@student.gla.ac.uk"; CInt 30; CInt 45]]
    [[CStr "Name"; CStr "Email"; CDate (Date 2020 3 2)];
     [CStr "A Student"; CStr "x@student.gla.ac.uk"; CInt 75]].

Definition record_two_years : dict date DailyAttendance :=
  [(Date 2019 12 30,
    Entry "A Student" "x@student.gla.ac.uk" "30/12/2019 09:00:00 AM" 30);
   (Date 2021 1 4,
    Entry "A Student" "x@student.gla.ac.uk" "04/01/2021 09:00:00 AM" 45)].

Definition reports_two_years : reports :=
  Reports
    [[CStr "A Student"; CStr "x@student.gla.ac.uk";
      CStr "30/12/2019 09:00:00 AM"; CInt 30];
     [CStr "A Student"; CStr "x@student.gla.ac.uk";
      CStr "04/01/2021 09:00:00 AM"; CInt 45]]
    []
    [[CStr "Name"; CStr "Email"; CDate (Date 2019 12 30); CDate (Date 2021 1 4)];
     [CStr "A Student"; CStr "x@student.gla.ac.uk"; CInt 30; CInt 45]]
    [[CStr "Name"; CStr "Email"; CDate (Date 2019 12 30)];
     [CStr "A Student"; CStr "x@student.gla.ac.uk"; CInt 75]].

Definition record_p : dict date DailyAttendance :=
  [(Date 2020 10 1,
    Entry "P Student" "p@student.gla.ac.uk" "01/10/2020 09:00:00 AM" 30);
   (Date 2020 10 8,
    Entry "P Student" "p@student.gla.ac.uk" "08/10/2020 09:00:00 AM" 30)].

Definition record_q : dict date DailyAttendance :=
  [(Date 2020 10 1,
    Entry "Q Student" "q@student.gla.ac.uk" "01/10/2020 09:00:00 AM" 30);
   (Date 2020 10 8,
    Entry "Q Student" "q@student.gla.ac.uk" "08/10/2020 09:00:00 AM" 30);
   (Date 2020 10 15,
    Entry "Q Student" "q@student.gla.ac.uk" "15/10/2020 09:00:00 AM" 30)].

Definition reports_sessions : reports :=
  Reports
    (entry_row <$> (record_p.*2 ++ record_q.*2))
    [Warning "P Student" "p@student.gla.ac.uk" 2]
    [[CStr "Name"; CStr "Email";
      CDate (Date 2020 10 1); CDate (Date 2020 10 8); CDate (Date 2020 10 15)];
     [CStr "P Student"; CStr "p@student.gla.ac.uk"; CInt 30; CInt 30; CStr ""];
     [CStr "Q Student"; CStr "q@student.gla.ac.uk"; CInt 30; CInt 30; CInt 30]]
    [[CStr "Name"; CStr "Email";
      CDate (Date 2020 9 28); CDate (Date 2020 10 5); CDate (Date 2020 10 12)];
     [CStr "P Student"; CStr "p@student.gla.ac.uk"; CInt 30; CInt 30; CStr ""];
     [CStr "Q Student"; CStr "q@student.gla.ac.uk"; CInt 30; CInt 30; CInt 30]].

Definition emails_alias : emails_t :=
  [("1a@student.gla.ac.uk",
    [(Date 2020 10 1,
      Entry "A Student" "1a@student.gla.ac.uk" "01/10/2020 09:00:00 AM" 25)])].

Definition reports_alias : reports :=
  Reports
    [[CStr "A Student"; CStr "1a@student.gla.ac.uk";
      CStr "01/10/2020 09:00:00 AM"; CInt 25]]
    []
    [[CStr "Name"; CStr "Email"; CDate (Date 2020 10 1)];
     [CStr "A Student"; CStr "1a@student.gla.ac.uk"; CInt 25]]
    [[CStr "Name"; CStr "Email"; CDate (Date 2020 9 28)];
     [CStr "A Student"; CStr "1a@student.gla.ac.uk"; CInt 25]].

End Out.

(** ** The command line *)

Module Args.

(** [s[n:]] *)
Definition drop (n : nat) (s : string) : string :=
  String.substring n (String.length s - n) s.

(** The three variables the loop over [sys.argv[1:]] updates. *)
Record state : Type := State {
  directoriesToProcess : list string;
  warningThreshold : Z;
  processDefaultDirectory : bool
}.

Definition initial : state := State [] 0 true.

Section Parse.
Variable py_int : string -> option Z.

(** One argument.  The usage line and the two wildcard warnings are
    printed and change nothing. *)
Definition parse_arg (st : state) (arg : string) : result state :=
  if String.prefix "-m" arg then
    if bool_decide (String.length arg = 2%nat) then Ok st
    else
      n ← of_option (py_int (drop 2 arg)) ValueError;
      Ok (State (directoriesToProcess st) n (processDefaultDirectory st))
  else
    if Str.contains "*" arg then
      Ok (State (directoriesToProcess st) (warningThreshold st) false)
    else
      Ok (State (directoriesToProcess st ++ [arg]) (warningThreshold st) false).

(** The directories to process and the threshold, from [sys.argv[1:]]. *)
Definition parse_args (argv : list string) : result (list string * Z) :=
  st ← foldM parse_arg initial argv;
  if processDefaultDirectory st then Ok (["."], warningThreshold st)
  else Ok (directoriesToProcess st, warningThreshold st).
End Parse.

(** An argument that sets the threshold: [-m] followed by something. *)
Definition is_threshold (arg : string) : bool :=
  String.prefix "-m" arg && negb (bool_decide (String.length arg = 2%nat)).

(** An argument that names a directory to process. *)
Definition is_directory (arg : string) : bool :=
  negb (String.prefix "-m" arg) && negb (Str.contains "*" arg).

End Args.

(** ** The hints about unmatched addresses (lines 176 to 192) *)

Module Hints.

(** [s.split(sep)] for a separator of one character. *)
Fixpoint split (sep : ascii) (s : string) : list string :=
  match s with
  | EmptyString => [EmptyString]
  | String c s' =>
      if Ascii.eqb c sep then EmptyString :: split sep s'
      else match split sep s' with
           | part :: parts => String c part :: parts
           | [] => [String c EmptyString]
           end
  end.

(** [name.split(' ')[-1]] *)
Definition possibleSurname (name : string) : string :=
  default EmptyString (last (split " "%char name)).

(** The lines printed. *)
Inductive message : Type :=
| NotMatched (name email : string)
| MightMatch (name email : string)
| AddTableRow (alternate canonical : string).

(** The inner loop over the dates of one university record, left at the
    first entry whose name holds the surname. *)
Definition matches (firstEntry : DailyAttendance)
    (studentRecord : dict date DailyAttendance) : list message :=
  let possibleSurname := possibleSurname (e_name firstEntry) in
  match List.find (fun q => Str.contains possibleSurname (e_name q.2)) studentRecord with
  | Some (_, thisEntry) =>
      [MightMatch (e_name thisEntry) (e_email thisEntry);
       AddTableRow (e_email firstEntry) (e_email thisEntry)]
  | None => []
  end.

(** The loop over [email2]. *)
Definition candidates (emails : emails_t) (firstEntry : DailyAttendance) : list message :=
  concat ((fun '(email2, studentRecord) =>
             if UniversityStudentEmail email2 then matches firstEntry studentRecord
             else [])
            <$> items_sorted String.leb emails).

(** The whole pass. *)
Definition hints (emails : emails_t) : result (list message) :=
  foldM (fun out '(email, entry) =>
           if negb (StaffEmail email) && negb (UniversityStudentEmail email) then
             firstEntry ← first_value entry;
             Ok (out ++ NotMatched (e_name firstEntry) (e_email firstEntry)
                          :: candidates emails firstEntry)
           else Ok out)
        [] (items_sorted String.leb emails).

End Hints.

(** ** Views used in the further properties *)

(** The threshold an argument sets, if it sets one. *)
Definition threshold_of (py_int : string -> option Z) (arg : string) : option Z :=
  if Args.is_threshold arg then py_int (Args.drop 2 arg) else None.

(** An argument on which the loop over the arguments raises. *)
Definition bad_threshold (py_int : string -> option Z) (arg : string) : bool :=
  Args.is_threshold arg && negb (bool_decide (is_Some (py_int (Args.drop 2 arg)))).

(** A row the loop skips as a header row. *)
Definition is_header (row : row_t) : bool :=
  match row !! 0%nat with
  | Some c0 => Str.endswith c0 "Name (Original Name)"
  | None => false
  end.

(** A row with a duration and a start stamp that both parse. *)
Definition parses (py_int : string -> option Z) (strptime : string -> option datetime)
    (row : row_t) : bool :=
  match row !! 2%nat, row !! 4%nat with
  | Some c2, Some c4 =>
      bool_decide (is_Some (py_int c4)) && bool_decide (is_Some (strptime c2))
  | _, _ => false
  end.

(** A file with two rows or more whose second row has a third field, and
    whose rows are header rows or rows that parse. *)
Definition file_loads (py_int : string -> option Z)
    (strptime : string -> option datetime) (f : file_t) : bool :=
  match f with
  | _ :: row2 :: _ => bool_decide (3 ≤ length row2)%nat
  | _ => false
  end
  && forallb (fun row => is_header row || parses py_int strptime row) f.

(** The sum of [w] over the values of a dictionary. *)
Definition weight {K V : Type} (w : V -> Z) (d : dict K V) : Z :=
  foldr (fun q s => w q.2 + s) 0 d.

(** The minutes held in [emails], all entries together. *)
Definition total_attendance (emails : emails_t) : Z :=
  weight (weight e_mins) emails.

(** An ASCII capital letter occurs in the string. *)
Fixpoint has_upper (s : string) : bool :=
  match s with
  | EmptyString => false
  | String c s' =>
      ((65 <=? Ascii.N_of_ascii c) && (Ascii.N_of_ascii c <=? 90))%N || has_upper s'
  end.

(** A date of the calendar: [datetime.date] accepts no other. *)
Definition valid_date (d : date) : Prop :=
  1 ≤ year d ≤ 9999 ∧ 1 ≤ month d ≤ 12 ∧ 1 ≤ day d ≤ Zoom.days_in_month (year d) (month d).

(** The participants the hints are about: neither staff nor registered
    under a university student address. *)
Definition unmatched (emails : emails_t) : emails_t :=
  filter (λ p, StaffEmail p.1 = false ∧ UniversityStudentEmail p.1 = false)
         (items_sorted String.leb emails).

(** The lines printed for one of them. *)
Definition hint_block (emails : emails_t) (p : string * dict date DailyAttendance)
  : list Hints.message :=
  match p.2 with
  | (_, firstEntry) :: _ =>
      Hints.NotMatched (e_name firstEntry) (e_email firstEntry)
        :: Hints.candidates emails firstEntry
  | [] => []
  end.

(** ** A sample directory for the hints *)

Module Ex2.

(** A participant under a personal address whose display name ends with
    a space, two students, a demonstrator. *)
Definition file_hints : file_t :=
  [Ex.header;
   ["Ann Lee "; "ann@hotmail.com"; "01/10/2020 09:00:00 AM";
    "01/10/2020 09:30:00 AM"; "30"];
   ["Lee, Ann"; "1a@student.gla.ac.uk"; "08/10/2020 09:00:00 AM";
    "08/10/2020 09:30:00 AM"; "30"];
   ["Bob Ray"; "2b@student.gla.ac.uk"; "08/10/2020 09:00:00 AM";
    "08/10/2020 09:30:00 AM"; "30"];
   ["Demo"; "demo@glasgow.ac.uk"; "08/10/2020 09:00:00 AM";
    "08/10/2020 09:30:00 AM"; "30"]].

Definition entry_ann : DailyAttendance :=
  Entry "Ann Lee " "ann@hotmail.com" "01/10/2020 09:00:00 AM" 30.

Definition entry_1a : DailyAttendance :=
  Entry "Lee, Ann" "1a@student.gla.ac.uk" "08/10/2020 09:00:00 AM" 30.

Definition entry_2b : DailyAttendance :=
  Entry "Bob Ray" "2b@student.gla.ac.uk" "08/10/2020 09:00:00 AM" 30.

Definition emails_hints : emails_t :=
  [("ann@hotmail.com", [(Date 2020 10 1, entry_ann)]);
   ("1a@student.gla.ac.uk", [(Date 2020 10 8, entry_1a)]);
   ("2b@student.gla.ac.uk", [(Date 2020 10 8, entry_2b)]);
   ("demo@glasgow.ac.uk",
    [(Date 2020 10 8, Entry "Demo" "demo@glasgow.ac.uk" "08/10/2020 09:00:00 AM" 30)])].

Definition messages : list Hints.message :=
  [Hints.NotMatched "Ann Lee " "ann@hotmail.com";
   Hints.MightMatch "Lee, Ann" "1a@student.gla.ac.uk";
   Hints.AddTableRow "ann@hotmail.com" "1a@student.gla.ac.uk";
   Hints.MightMatch "Bob Ray" "2b@student.gla.ac.uk";
   Hints.AddTableRow "ann@hotmail.com" "2b@student.gla.ac.uk"].

Definition emails_sessions : emails_t :=
  [("p@student.gla.ac.uk", Out.record_p); ("q@student.gla.ac.uk", Out.record_q)].

End Ex2.

(** ** Raw rows *)

(** A row the loop folds in: it is no header row, and its duration and
    its start stamp parse. *)
Definition folded_in (py_int : string -> option Z)
    (strptime : string -> option datetime) (row : row_t) : bool :=
  negb (is_header row) && parses py_int strptime row.

Module Ex3.

(** A student who signs in under the university address on 1 October and
    under a personal address on 8 October, both typed with capitals. *)
Definition file_caps : file_t :=
  [Ex.header;
   ["A Student"; "1A@Student.gla.ac.uk"; "01/10/2020 09:00:00 AM";
    "01/10/2020 09:10:00 AM"; "10"];
   ["Ann"; "A@Personal.com"; "08/10/2020 09:40:00 AM";
    "08/10/2020 09:55:00 AM"; "15"]].

Definition emails_caps : emails_t :=
  [("1a@student.gla.ac.uk",
    [(Date 2020 10 1,
      Entry "A Student" "1a@student.gla.ac.uk" "01/10/2020 09:00:00 AM" 10);
     (Date 2020 10 8,
      Entry "Ann" "a@personal.com" "08/10/2020 09:40:00 AM" 15)])].

End Ex3.

(** * Properties *)

(** ** Dictionaries and [sorted] *)

Section DictFacts.
Context {K V : Type} `{EqDecision K}.
Implicit Types (d : dict K V) (k : K) (v : V).

Lemma dict_get_set d k v k' :
  dict_get (dict_set d k v) k' = if decide (k = k') then Some v else dict_get d k'.
Proof.
  induction d as [|[k0 v0] d IH]; simpl.
  - repeat case_decide; congruence.
  - destruct (decide (k0 = k)) as [->|Hne]; simpl.
    + repeat case_decide; congruence.
    + rewrite IH. repeat case_decide; congruence.
Qed.

Lemma dict_get_set_eq d k v : dict_get (dict_set d k v) k = Some v.
Proof. rewrite dict_get_set. by rewrite decide_True. Qed.

Lemma dict_get_Some_elem d k v : dict_get d k = Some v → (k, v) ∈ d.
Proof.
  induction d as [|[k0 v0] d IH]; simpl; [done|].
  case_decide; intros Hg.
  - simplify_eq. apply list_elem_of_here.
  - apply list_elem_of_further. auto.
Qed.

Lemma dict_get_None d k : dict_get d k = None ↔ k ∉ keys d.
Proof.
  unfold keys. induction d as [|[k0 v0] d IH]; simpl.
  - split; [intros _; apply not_elem_of_nil | done].
  - rewrite not_elem_of_cons. case_decide; split; intros Hx; try done.
    + destruct Hx as [Hx _]. congruence.
    + split; [congruence | by apply IH].
    + apply IH. tauto.
Qed.

Lemma dict_get_is_Some d k : is_Some (dict_get d k) ↔ k ∈ keys d.
Proof.
  destruct (dict_get d k) as [v|] eqn:Hg.
  - split; [intros _|by eauto].
    apply dict_get_Some_elem in Hg.
    unfold keys. apply list_elem_of_fmap. by exists (k, v).
  - apply dict_get_None in Hg. split; [intros [? ?]; done | done].
Qed.

Lemma dict_mem_true d k : dict_mem d k = true ↔ k ∈ keys d.
Proof.
  unfold dict_mem. rewrite <- dict_get_is_Some.
  destruct (dict_get d k); split; try done; try by eauto.
Qed.

Lemma dict_mem_false d k : dict_mem d k = false ↔ k ∉ keys d.
Proof.
  rewrite <- dict_mem_true. destruct (dict_mem d k); split; congruence.
Qed.

Lemma elem_dict_get d k v : NoDup (keys d) → (k, v) ∈ d → dict_get d k = Some v.
Proof.
  unfold keys. induction d as [|[k0 v0] d IH]; simpl; intros Hnd Hin.
  - by apply elem_of_nil in Hin.
  - apply NoDup_cons in Hnd as [Hnotin Hnd].
    apply elem_of_cons in Hin as [Heq|Hin].
    + simplify_eq. by rewrite decide_True.
    + case_decide as Hk; [|by apply IH].
      subst. exfalso. apply Hnotin.
      apply list_elem_of_fmap. by exists (k, v).
Qed.

Lemma keys_set d k v :
  keys (dict_set d k v) = if dict_mem d k then keys d else keys d ++ [k].
Proof.
  unfold keys, dict_mem. induction d as [|[k0 v0] d IH]; csimpl; [done|].
  case_decide; csimpl; [done|].
  rewrite IH. by destruct (dict_get d k).
Qed.

Lemma NoDup_keys_set d k v : NoDup (keys d) → NoDup (keys (dict_set d k v)).
Proof.
  intros Hnd. rewrite keys_set.
  destruct (dict_mem d k) eqn:Hm; [done|].
  apply dict_mem_false in Hm.
  apply NoDup_app. split_and!; [done | | apply NoDup_singleton].
  intros x Hx Hx'. apply list_elem_of_singleton in Hx'. by subst.
Qed.

Lemma elem_of_keys_set d k v k' :
  k' ∈ keys (dict_set d k v) ↔ k' = k ∨ k' ∈ keys d.
Proof.
  rewrite <- !dict_get_is_Some, dict_get_set.
  case_decide; subst; split; intros Hx; eauto.
  - destruct Hx as [?|?]; [congruence|done].
Qed.

Lemma Forall_dict_set (P : K * V → Prop) d k v :
  (∀ k0, k0 = k → P (k0, v)) → Forall P d → Forall P (dict_set d k v).
Proof.
  intros Hv. induction 1 as [|[k0 v0] d Hx Hd IH]; simpl.
  - by repeat constructor; apply Hv.
  - case_decide; constructor; auto.
Qed.

Lemma dict_set_nonempty d k v : dict_set d k v ≠ [].
Proof. destruct d as [|[k0 v0] d]; simpl; [done|]. by case_decide. Qed.

(** The items stored under [k]; there is one when the keys are unique. *)
Lemma filter_key_unique d k :
  NoDup (keys d) →
  filter (λ p, p.1 = k) d =
    match dict_get d k with Some v => [(k, v)] | None => [] end.
Proof.
  unfold keys. induction d as [|[k0 v0] d IH]; simpl; intros Hnd; [done|].
  apply NoDup_cons in Hnd as [Hnotin Hnd].
  rewrite filter_cons. simpl. case_decide as Hk.
  - subst. f_equal. rewrite IH by done.
    assert (dict_get d k = None) as -> by by apply dict_get_None.
    done.
  - by apply IH.
Qed.
End DictFacts.

Section SortedFacts.
Context {A : Type} (leb : A → A → bool).

Lemma insert_sorted_perm x (l : list A) : insert_sorted leb x l ≡ₚ x :: l.
Proof.
  induction l as [|y l IH]; simpl; [done|].
  destruct (leb x y); [done|]. rewrite IH. apply Permutation_swap.
Qed.

Lemma sorted_perm (l : list A) : sorted leb l ≡ₚ l.
Proof.
  induction l as [|x l IH]; simpl; [done|].
  by rewrite insert_sorted_perm, IH.
Qed.

Lemma elem_of_sorted x (l : list A) : x ∈ sorted leb l ↔ x ∈ l.
Proof. by rewrite sorted_perm. Qed.

Lemma NoDup_sorted (l : list A) : NoDup (sorted leb l) ↔ NoDup l.
Proof. by rewrite sorted_perm. Qed.

Lemma length_sorted (l : list A) : length (sorted leb l) = length l.
Proof. by rewrite sorted_perm. Qed.

Hypothesis leb_total : ∀ a b, leb a b = true ∨ leb b a = true.
Hypothesis leb_trans : ∀ a b c, leb a b = true → leb b c = true → leb a c = true.

Lemma insert_sorted_ascending x (l : list A) :
  StronglySorted (λ a b, leb a b = true) l →
  StronglySorted (λ a b, leb a b = true) (insert_sorted leb x l).
Proof.
  induction 1 as [|y l Hl IH Hy]; simpl.
  - repeat constructor.
  - destruct (leb x y) eqn:Hxy.
    + constructor; [by constructor|].
      constructor; [done|].
      eapply Forall_impl; [exact Hy|]. simpl. eauto.
    + constructor; [done|].
      rewrite insert_sorted_perm. constructor; [|done].
      destruct (leb_total x y); congruence.
Qed.

Lemma sorted_ascending (l : list A) :
  StronglySorted (λ a b, leb a b = true) (sorted leb l).
Proof.
  induction l as [|x l IH]; simpl; [constructor|].
  by apply insert_sorted_ascending.
Qed.
End SortedFacts.

Section ItemsSorted.
Context {K V : Type} `{EqDecision K} (leb : K → K → bool).
Implicit Types (d : dict K V) (k : K) (v : V).

Lemma elem_of_items_sorted d k v :
  (k, v) ∈ items_sorted leb d ↔ dict_get d k = Some v.
Proof.
  unfold items_sorted. rewrite list_elem_of_omap. split.
  - intros (k' & _ & Hk). destruct (dict_get d k') eqn:Hg; by simplify_eq/=.
  - intros Hg. exists k. rewrite Hg. split; [|done].
    apply elem_of_sorted, dict_get_is_Some. eauto.
Qed.

Lemma keys_items_sorted d : keys (items_sorted leb d) = sorted leb (keys d).
Proof.
  unfold items_sorted.
  assert (∀ l : list K, (∀ k, k ∈ l → k ∈ keys d) →
            keys (omap (λ k, pair k <$> dict_get d k) l) = l) as Hl.
  { unfold keys at 2. induction l as [|k l IH]; intros Hin; csimpl; [done|].
    destruct (proj2 (dict_get_is_Some d k)) as [v Hv].
    { apply Hin, list_elem_of_here. }
    rewrite Hv. csimpl. f_equal. apply IH.
    intros k' Hk'. by apply Hin, list_elem_of_further. }
  apply Hl. intros k. by rewrite elem_of_sorted.
Qed.

Lemma length_items_sorted d : length (items_sorted leb d) = length d.
Proof.
  rewrite <- (length_fmap fst (items_sorted leb d)).
  fold (keys (items_sorted leb d)).
  rewrite keys_items_sorted, length_sorted. unfold keys. by rewrite length_fmap.
Qed.

Lemma items_sorted_nonempty d : d ≠ [] → items_sorted leb d ≠ [].
Proof.
  intros Hd Hnil. apply (f_equal length) in Hnil.
  rewrite length_items_sorted in Hnil. by destruct d.
Qed.
End ItemsSorted.

(** ** Loops in the error monad *)

Section FoldM.
Context {S A : Type} (body : S → A → result S).

Lemma foldM_cons s a l :
  foldM body s (a :: l) = s' ← body s a; foldM body s' l.
Proof. done. Qed.

(** A loop in which one step raises does not complete. *)
Lemma foldM_raise_elem l s a :
  a ∈ l → (∀ s0, is_Ok (body s0 a) = false) → is_Ok (foldM body s l) = false.
Proof.
  intros Ha Hraise. revert s.
  induction l as [|a0 l IH]; intros s; simpl.
  - by apply elem_of_nil in Ha.
  - destruct (body s a0) as [s1|] eqn:Hb; simpl; [|done].
    apply elem_of_cons in Ha as [->|Ha]; [|by apply IH].
    specialize (Hraise s). by rewrite Hb in Hraise.
Qed.
End FoldM.

Lemma is_Ok_true {A} (m : result A) : is_Ok m = true ↔ ∃ a, m = Ok a.
Proof. destruct m; simpl; split; eauto; try done; intros [? ?]; done. Qed.

Lemma is_Ok_false {A} (m : result A) : is_Ok m = false ↔ ∃ e, m = Raise e.
Proof. destruct m; simpl; split; eauto; try done; intros [? ?]; done. Qed.

(** ** The aggregator *)

Lemma dict_set_set {K V} `{EqDecision K} (d : dict K V) k v1 v2 :
  dict_set (dict_set d k v1) k v2 = dict_set d k v2.
Proof.
  induction d as [|[k0 v0] d IH]; simpl.
  - by rewrite decide_True.
  - case_decide; simpl.
    + by rewrite decide_True.
    + rewrite decide_False by done. by rewrite IH.
Qed.

Lemma Forall_dict_get {K V} `{EqDecision K} (P : K * V → Prop) (d : dict K V) k v :
  Forall P d → dict_get d k = Some v → P (k, v).
Proof.
  intros Hall Hg. apply dict_get_Some_elem in Hg.
  by eapply (proj1 (Forall_forall P d)) in Hall.
Qed.

Lemma fold_in_eq (emails : emails_t) (r : parsed_row) :
  let studentRecord := default [] (dict_get emails (p_emailKey r)) in
  fold_in emails r =
    dict_set emails (p_emailKey r)
      (dict_set studentRecord (p_date r) (folded_entry studentRecord r)).
Proof.
  unfold fold_in, folded_entry, dict_mem.
  destruct (dict_get emails (p_emailKey r)) as [rec|] eqn:Hg; simpl.
  - rewrite Hg. simpl. by destruct (dict_get rec (p_date r)).
  - rewrite dict_get_set_eq. simpl. by rewrite dict_set_set.
Qed.

Lemma lookup2_fold_in (emails : emails_t) (r : parsed_row) k d :
  lookup2 (fold_in emails r) k d =
    if decide (p_emailKey r = k ∧ p_date r = d)
    then Some (match lookup2 emails k d with
               | Some e => Entry (e_name e) (e_email e) (e_start e) (e_mins e + p_mins r)
               | None => Entry (p_name r) (p_email r) (p_start r) (p_mins r)
               end)
    else lookup2 emails k d.
Proof.
  rewrite fold_in_eq. unfold lookup2, folded_entry. simpl.
  rewrite dict_get_set.
  destruct (decide (p_emailKey r = k)) as [<-|Hk]; simpl.
  - rewrite dict_get_set.
    destruct (decide (p_date r = d)) as [<-|Hd].
    + rewrite decide_True by done.
      by destruct (dict_get emails (p_emailKey r)).
    + rewrite decide_False by tauto.
      by destruct (dict_get emails (p_emailKey r)).
  - by rewrite decide_False by tauto.
Qed.

(** The entry of (k, d) after a run of rows: the first row that resolves
    to (k, d) creates it, every later one only adds its minutes. *)
Lemma lookup2_foldl (rs : list parsed_row) (emails : emails_t) k d :
  lookup2 (foldl fold_in emails rs) k d =
    match lookup2 emails k d, resolving k d rs with
    | Some e, ms => Some (add_mins e (total_mins ms))
    | None, [] => None
    | None, r :: ms =>
        Some (Entry (p_name r) (p_email r) (p_start r) (p_mins r + total_mins ms))
    end.
Proof.
  revert emails. unfold resolving.
  induction rs as [|r rs IH]; intros emails; simpl.
  - destruct (lookup2 emails k d) as [[n e s m]|]; [|done].
    unfold add_mins. simpl. do 2 f_equal. lia.
  - rewrite IH, lookup2_fold_in, filter_cons.
    destruct (decide (p_emailKey r = k ∧ p_date r = d)) as [Hm|Hm]; [|done].
    destruct (lookup2 emails k d) as [[n e s m]|]; unfold add_mins; simpl.
    + do 2 f_equal. lia.
    + done.
Qed.

Lemma total_mins_perm (rs rs' : list parsed_row) :
  rs ≡ₚ rs' → total_mins rs = total_mins rs'.
Proof.
  unfold total_mins. induction 1; simpl; try lia.
Qed.

Lemma entries_at_lookup2 (emails : emails_t) k d :
  NoDup (keys emails) →
  (∀ studentRecord, dict_get emails k = Some studentRecord → NoDup (keys studentRecord)) →
  entries_at emails k d =
    match lookup2 emails k d with Some e => [e] | None => [] end.
Proof.
  intros Hnd Hrec. unfold entries_at, lookup2.
  rewrite (filter_key_unique emails k Hnd).
  destruct (dict_get emails k) as [rec|] eqn:Hg; csimpl; [|done].
  rewrite app_nil_r, (filter_key_unique rec d) by auto.
  by destruct (dict_get rec d).
Qed.

Section Aggregator.
Variable emailMapping : gmap string string.
Variable py_int : string → option Z.
Variable strptime : string → option datetime.

Local Abbreviation parse_row := (parse_row emailMapping py_int strptime).
Local Abbreviation process_row := (process_row emailMapping py_int strptime).
Local Abbreviation process_file := (process_file emailMapping py_int strptime).
Local Abbreviation load_directory := (load_directory emailMapping py_int strptime).
Local Abbreviation data_row := (data_row emailMapping py_int strptime).
Local Abbreviation data_rows := (data_rows emailMapping py_int strptime).
Local Abbreviation file_ok := (file_ok emailMapping py_int strptime).
Local Abbreviation emailKey_of := (emailKey_of emailMapping).
Local Abbreviation wf_emails := (wf_emails emailMapping).
Local Abbreviation wf_record := (wf_record emailMapping).

(** What a parsed row holds of the raw row it comes from. *)
Lemma parse_row_Some row r :
  parse_row row = Ok (Some r) →
  ∃ c0 c1 c2 c4 dt,
    row !! 0%nat = Some c0 ∧ row !! 1%nat = Some c1 ∧
    row !! 2%nat = Some c2 ∧ row !! 4%nat = Some c4 ∧
    Str.endswith c0 "Name (Original Name)" = false ∧
    py_int c4 = Some (p_mins r) ∧ strptime c2 = Some dt ∧
    r = Parsed c0 (Str.lower c1) (emailKey_of (Str.lower c1)) c2 (p_mins r) (dt_date dt).
Proof.
  unfold parse_row, index, of_option.
  destruct (row !! 0%nat) as [c0|]; simpl; [|done].
  destruct (Str.endswith c0 _) eqn:Hh; [done|].
  destruct (row !! 1%nat) as [c1|]; simpl; [|done].
  destruct (row !! 2%nat) as [c2|]; simpl; [|done].
  destruct (row !! 4%nat) as [c4|]; simpl; [|done].
  destruct (py_int c4) as [m|] eqn:Hm; simpl; [|done].
  destruct (strptime c2) as [dt|] eqn:Hdt; simpl; [|done].
  intros [= <-]. exists c0, c1, c2, c4, dt. simpl. by rewrite Hm.
Qed.

Lemma data_row_Some row r : data_row row = Some r ↔ parse_row row = Ok (Some r).
Proof.
  unfold data_row. destruct (parse_row row) as [[r'|]|]; split; congruence.
Qed.

Lemma data_row_key row r : data_row row = Some r → p_emailKey r = emailKey_of (p_email r).
Proof.
  intros Hr. apply data_row_Some, parse_row_Some in Hr.
  destruct Hr as (c0 & c1 & c2 & c4 & dt & _ & _ & _ & _ & _ & _ & _ & ->). done.
Qed.

Lemma data_rows_key files r :
  r ∈ data_rows files → p_emailKey r = emailKey_of (p_email r).
Proof.
  unfold data_rows. rewrite list_elem_of_omap. intros (row & _ & Hr).
  by eapply data_row_key.
Qed.

(** *** The loader is the fold of [fold_in] over the data rows *)

Lemma process_row_eq emails row :
  process_row emails row =
    match parse_row row with
    | Ok (Some r) => Ok (fold_in emails r)
    | Ok None => Ok emails
    | Raise e => Raise e
    end.
Proof. unfold process_row. by destruct (parse_row row) as [[r|]|]. Qed.

Lemma process_rows_Ok f emails :
  forallb (λ row, is_Ok (parse_row row)) f = true →
  foldM process_row emails f = Ok (foldl fold_in emails (omap data_row f)).
Proof.
  revert emails. induction f as [|row f IH]; intros emails; [done|].
  rewrite foldM_cons, process_row_eq. cbn [forallb omap list_omap].
  intros [Hrow Hf]%andb_prop. unfold data_row at 1.
  destruct (parse_row row) as [[r|]|]; [by apply IH .. | done].
Qed.

Lemma process_rows_inv f emails emails' :
  foldM process_row emails f = Ok emails' →
  forallb (λ row, is_Ok (parse_row row)) f = true.
Proof.
  revert emails. induction f as [|row f IH]; intros emails; [done|].
  rewrite foldM_cons, process_row_eq. cbn [forallb].
  destruct (parse_row row) as [[r|]|]; [by eauto .. | done].
Qed.

Lemma process_file_eq emails f :
  process_file emails f =
    match peek f with
    | Ok _ => foldM process_row emails f
    | Raise e => Raise e
    end.
Proof. unfold process_file. by destruct (peek f). Qed.

Lemma load_from_Ok files emails :
  forallb file_ok files = true →
  foldM process_file emails files = Ok (foldl fold_in emails (data_rows files)).
Proof.
  revert emails. unfold data_rows.
  induction files as [|f files IH]; intros emails; [done|].
  rewrite foldM_cons, process_file_eq. cbn [forallb concat].
  intros [Hf Hfiles]%andb_prop.
  unfold file_ok in Hf. apply andb_prop in Hf as [Hpeek Hrows].
  apply is_Ok_true in Hpeek as [s ->].
  rewrite process_rows_Ok by done.
  rewrite omap_app, foldl_app. by apply IH.
Qed.

Lemma load_from_inv files emails emails' :
  foldM process_file emails files = Ok emails' → forallb file_ok files = true.
Proof.
  revert emails. induction files as [|f files IH]; intros emails; [done|].
  rewrite foldM_cons, process_file_eq. cbn [forallb].
  unfold file_ok at 1.
  destruct (peek f) as [s|]; [|done].
  destruct (foldM process_row emails f) as [e1|] eqn:Hf; [|done].
  apply process_rows_inv in Hf. rewrite Hf. simpl. eauto.
Qed.

Lemma load_directory_Ok files emails :
  load_directory files = Ok emails ↔
  forallb file_ok files = true ∧ emails = foldl fold_in [] (data_rows files).
Proof.
  unfold load_directory. split.
  - intros Hl. pose proof (load_from_inv _ _ _ Hl) as Hok.
    rewrite load_from_Ok in Hl by done. split; congruence.
  - intros [Hok ->]. by apply load_from_Ok.
Qed.

(** *** Shape of [emails] *)

Lemma wf_fold_in emails r :
  p_emailKey r = emailKey_of (p_email r) →
  wf_emails emails → wf_emails (fold_in emails r).
Proof.
  intros Hkey [Hnd Hall]. rewrite fold_in_eq. simpl.
  split; [by apply NoDup_keys_set|].
  apply Forall_dict_set; [|done].
  intros k0 ->. unfold wf_record, folded_entry. simpl.
  assert (wf_record (p_emailKey r, default [] (dict_get emails (p_emailKey r)))
          ∨ dict_get emails (p_emailKey r) = None) as Hrec.
  { destruct (dict_get emails (p_emailKey r)) as [rec|] eqn:Hg; [left|by right].
    simpl. by eapply Forall_dict_get in Hg. }
  split_and!.
  - apply NoDup_keys_set.
    destruct Hrec as [(? & _)| ->]; [done | constructor].
  - apply dict_set_nonempty.
  - apply Forall_dict_set.
    + intros d0 _. simpl.
      destruct (dict_get (default [] _) (p_date r)) as [e|] eqn:He; simpl; [|done].
      destruct Hrec as [(_ & _ & Hin)|Hnone].
      * exact (Forall_dict_get _ _ _ _ Hin He).
      * by rewrite Hnone in He.
    + destruct Hrec as [(_ & _ & Hin)| ->]; [done | constructor].
Qed.

Lemma wf_foldl rs emails :
  Forall (λ r, p_emailKey r = emailKey_of (p_email r)) rs →
  wf_emails emails → wf_emails (foldl fold_in emails rs).
Proof.
  intros Hrs. revert emails.
  induction Hrs as [|r rs Hr Hrs IH]; intros emails Hwf; simpl; [done|].
  apply IH. by apply wf_fold_in.
Qed.

Lemma wf_load_directory files emails :
  load_directory files = Ok emails → wf_emails emails.
Proof.
  intros [_ ->]%load_directory_Ok. apply wf_foldl.
  - apply Forall_forall. intros r. apply data_rows_key.
  - split; [constructor | constructor].
Qed.

Lemma wf_lookup emails k studentRecord :
  wf_emails emails → dict_get emails k = Some studentRecord →
  NoDup (keys studentRecord) ∧ studentRecord ≠ [] ∧
  Forall (λ q, emailKey_of (e_email q.2) = k) studentRecord.
Proof. intros [_ Hall] Hg. exact (Forall_dict_get _ _ _ _ Hall Hg). Qed.
End Aggregator.

Lemma resolving_nonempty k d (rs : list parsed_row) :
  resolving k d rs ≠ [] ↔ ∃ r, r ∈ rs ∧ p_emailKey r = k ∧ p_date r = d.
Proof.
  unfold resolving. split.
  - destruct (filter _ rs) as [|r ms] eqn:Hf; [done|]. intros _.
    assert (r ∈ filter (λ r, p_emailKey r = k ∧ p_date r = d) rs) as Hr
      by (rewrite Hf; apply list_elem_of_here).
    apply list_elem_of_filter in Hr as [[? ?] ?]. eauto.
  - intros (r & Hr & Hk & Hd) Hnil.
    assert (r ∈ filter (λ r, p_emailKey r = k ∧ p_date r = d) rs) as Hin
      by (apply list_elem_of_filter; eauto).
    rewrite Hnil in Hin. by apply elem_of_nil in Hin.
Qed.

Lemma concat_perm {A} (l l' : list (list A)) : l ≡ₚ l' → concat l ≡ₚ concat l'.
Proof.
  induction 1 as [|x l l' _ IH|x y l|l1 l2 l3 _ IH1 _ IH2]; simpl.
  - done.
  - by rewrite IH.
  - rewrite !(assoc app). f_equiv. apply Permutation_app_comm.
  - by etrans.
Qed.

Lemma elem_of_concat {A} (x : A) (ls : list (list A)) :
  x ∈ concat ls ↔ ∃ l, x ∈ l ∧ l ∈ ls.
Proof.
  induction ls as [|l0 ls IH]; simpl.
  - split; [by intros ?%elem_of_nil | by intros (? & _ & ?%elem_of_nil)].
  - rewrite elem_of_app, IH. split.
    + intros [Hx|(l & Hx & Hl)].
      * exists l0. split; [done | apply list_elem_of_here].
      * exists l. split; [done | by apply list_elem_of_further].
    + intros (l & Hx & [->|Hl]%elem_of_cons); [by left | right; eauto].
Qed.

Lemma forallb_perm {A} (f : A → bool) (l l' : list A) :
  l ≡ₚ l' → forallb f l = forallb f l'.
Proof.
  induction 1 as [|x l l' _ IH|x y l|l1 l2 l3 _ IH1 _ IH2]; simpl.
  - done.
  - by rewrite IH.
  - by destruct (f x), (f y).
  - congruence.
Qed.

Section AggregatorClaims.
Variable emailMapping : gmap string string.
Variable py_int : string → option Z.
Variable strptime : string → option datetime.

Local Abbreviation parse_row := (parse_row emailMapping py_int strptime).
Local Abbreviation load_directory := (load_directory emailMapping py_int strptime).
Local Abbreviation data_rows := (data_rows emailMapping py_int strptime).
Local Abbreviation file_ok := (file_ok emailMapping py_int strptime).
Local Abbreviation emailKey_of := (emailKey_of emailMapping).

(** The entry of (k, d) once a directory is loaded. *)
Lemma lookup2_load files emails k d :
  load_directory files = Ok emails →
  lookup2 emails k d =
    match resolving k d (data_rows files) with
    | [] => None
    | r :: ms => Some (Entry (p_name r) (p_email r) (p_start r) (total_mins (r :: ms)))
    end.
Proof.
  intros [_ ->]%load_directory_Ok. by rewrite lookup2_foldl.
Qed.

Lemma is_Some_lookup2_load files emails k d :
  load_directory files = Ok emails →
  is_Some (lookup2 emails k d) ↔
  ∃ r, r ∈ data_rows files ∧ p_emailKey r = k ∧ p_date r = d.
Proof.
  intros Hl. rewrite (lookup2_load _ _ k d Hl), <- resolving_nonempty.
  destruct (resolving k d (data_rows files)); split; try done; by eauto.
Qed.

Lemma data_rows_perm files files' :
  files ≡ₚ files' → data_rows files ≡ₚ data_rows files'.
Proof.
  intros Hp. unfold data_rows. by rewrite (concat_perm _ _ Hp).
Qed.

(** C1: rows that resolve to the same identity key and calendar date are
    fused into exactly one entry for that key and date; its minutes are
    the sum of the minutes of all those rows, and its name, email and
    start stamp are those of the first of them. *)
Theorem same_day_rows_fuse files emails k d r ms :
  load_directory files = Ok emails →
  resolving k d (data_rows files) = r :: ms →
  entries_at emails k d =
    [Entry (p_name r) (p_email r) (p_start r) (total_mins (r :: ms))].
Proof.
  intros Hl Hres.
  pose proof (wf_load_directory _ _ _ _ _ Hl) as Hwf.
  rewrite entries_at_lookup2.
  - by rewrite (lookup2_load _ _ k d Hl), Hres.
  - apply Hwf.
  - intros rec Hrec. by eapply wf_lookup.
Qed.

(** The participants of a loaded directory, in terms of its parsed rows:
    the identity key of an email is its image in the alias table when it
    has one and the email itself otherwise; the keys of [emails] are the
    keys of the data rows, each once, and a record holds the dates of the
    rows with its key. *)
Lemma participants_of_data_rows :
  (∀ email canonical,
      emailMapping !! email = Some canonical → emailKey_of email = canonical) ∧
  (∀ email, emailMapping !! email = None → emailKey_of email = email) ∧
  (∀ row r, parse_row row = Ok (Some r) →
      ∃ c1, row !! 1%nat = Some c1 ∧ p_email r = Str.lower c1 ∧
            p_emailKey r = emailKey_of (Str.lower c1)) ∧
  (∀ files emails, load_directory files = Ok emails →
      NoDup (keys emails) ∧
      (∀ k, k ∈ keys emails ↔ ∃ r, r ∈ data_rows files ∧ p_emailKey r = k) ∧
      (∀ k studentRecord d, dict_get emails k = Some studentRecord →
          d ∈ keys studentRecord ↔
          ∃ r, r ∈ data_rows files ∧ p_emailKey r = k ∧ p_date r = d)).
Proof.
  split_and!.
  - intros email canonical Hm. unfold emailKey_of. by rewrite Hm.
  - intros email Hm. unfold emailKey_of. by rewrite Hm.
  - intros row r Hr. apply parse_row_Some in Hr.
    destruct Hr as (c0 & c1 & c2 & c4 & dt & _ & H1 & _ & _ & _ & _ & _ & ->).
    by exists c1.
  - intros files emails Hl.
    pose proof (wf_load_directory _ _ _ _ _ Hl) as Hwf.
    assert (∀ k rec d, dict_get emails k = Some rec →
              d ∈ keys rec ↔
              ∃ r, r ∈ data_rows files ∧ p_emailKey r = k ∧ p_date r = d) as Hdates.
    { intros k rec d Hrec.
      rewrite <- (is_Some_lookup2_load files emails k d Hl).
      unfold lookup2. rewrite Hrec. simpl. by rewrite dict_get_is_Some. }
    split_and!; [apply Hwf | | exact Hdates].
    intros k. rewrite <- dict_get_is_Some. split.
    + intros [rec Hrec].
      destruct (wf_lookup _ _ _ _ Hwf Hrec) as (_ & Hne & _).
      destruct rec as [|[d e] rec]; [done|].
      destruct (proj1 (Hdates k _ d Hrec)) as (r & ? & ? & ?); [|by eauto].
      apply list_elem_of_here.
    + intros (r & Hr & Hk).
      destruct (proj2 (is_Some_lookup2_load files emails k (p_date r) Hl)) as [e He];
        [by eauto|].
      unfold lookup2 in He. destruct (dict_get emails k); [by eauto | done].
Qed.

(** C8: loading the same files again gives the same [emails], and
    loading them in another file order gives every (identity key, date)
    the same cumulative minutes. *)
Theorem load_directory_order files files' emails :
  load_directory files = Ok emails →
  (∀ emails2, load_directory files = Ok emails2 → emails2 = emails) ∧
  (files ≡ₚ files' →
   ∃ emails', load_directory files' = Ok emails' ∧
     ∀ k d, e_mins <$> lookup2 emails k d = e_mins <$> lookup2 emails' k d).
Proof.
  intros Hl. split; [congruence|]. intros Hp.
  pose proof Hl as [Hok _]%load_directory_Ok.
  rewrite (forallb_perm _ _ _ Hp) in Hok.
  exists (foldl fold_in [] (data_rows files')).
  assert (load_directory files' = Ok (foldl fold_in [] (data_rows files'))) as Hl'
    by by apply load_directory_Ok.
  split; [done|]. intros k d.
  rewrite (lookup2_load _ _ k d Hl), (lookup2_load _ _ k d Hl').
  assert (resolving k d (data_rows files) ≡ₚ resolving k d (data_rows files')) as Hres.
  { unfold resolving. by rewrite (data_rows_perm _ _ Hp). }
  destruct (resolving k d (data_rows files)) as [|r ms] eqn:E1,
           (resolving k d (data_rows files')) as [|r' ms'] eqn:E2.
  - done.
  - by apply Permutation_nil_cons in Hres.
  - symmetry in Hres. by apply Permutation_nil_cons in Hres.
  - cbn [fmap option_fmap option_map e_mins]. f_equal. by apply total_mins_perm.
Qed.
End AggregatorClaims.

(** ** The report loops *)

Lemma elem_of_included (emails : emails_t) k studentRecord :
  (k, studentRecord) ∈ included emails ↔
  StaffEmail k = false ∧ dict_get emails k = Some studentRecord.
Proof.
  unfold included. by rewrite list_elem_of_filter, elem_of_items_sorted.
Qed.

Lemma first_value_nonempty (studentRecord : dict date DailyAttendance) :
  studentRecord ≠ [] →
  ∃ e, first_value studentRecord = Ok e ∧ e_name e = name_of studentRecord.
Proof.
  destruct studentRecord as [|[d e] rec]; [done|]. intros _. by exists e.
Qed.

Lemma pivot_loop (cells : dict date DailyAttendance → list cell)
    (items : emails_t) (out : list (list cell)) :
  Forall (λ p, p.2 ≠ []) items →
  foldM (fun out '(email, studentRecord) =>
           if outputStudentAttendanceOnly && StaffEmail email then Ok out
           else
             firstEntry ← first_value studentRecord;
             let name := e_name firstEntry in
             Ok (out ++ [[CStr name; CStr email] ++ cells studentRecord]))
        out items
  = Ok (out ++ (pivot_row cells <$> filter (λ p, StaffEmail p.1 = false) items)).
Proof.
  intros Hne. revert out.
  induction Hne as [|[k rec] items Hrec _ IH]; intros out.
  - simpl. by rewrite app_nil_r.
  - rewrite foldM_cons, filter_cons. simpl in *.
    destruct (StaffEmail k) eqn:Hk; simpl.
    + apply IH.
    + destruct (first_value_nonempty rec Hrec) as (e & -> & Hname). simpl.
      rewrite IH, Hname. csimpl. by rewrite <- (assoc app).
Qed.

Lemma chrono_participant_eq warningThreshold k studentRecord :
  StaffEmail k = false → studentRecord ≠ [] →
  chrono_participant warningThreshold k studentRecord =
    Ok (chrono_rows (k, studentRecord), warnings_of warningThreshold (k, studentRecord)).
Proof.
  intros Hk Hne. unfold chrono_participant, chrono_rows, warnings_of.
  rewrite Hk. simpl.
  destruct (Z.of_nat (length studentRecord) <=? warningThreshold); [|done].
  destruct (last (items_sorted Cal.leb studentRecord).*2) as [row|] eqn:Hlast; [done|].
  apply last_None, fmap_nil_inv in Hlast.
  by apply items_sorted_nonempty in Hlast.
Qed.

Lemma chrono_loop warningThreshold (items : emails_t)
    (out : list (list cell) * list warning) :
  Forall (λ p, p.2 ≠ []) items →
  foldM (fun out '(email, entry) =>
           if outputStudentAttendanceOnly && StaffEmail email then Ok out
           else
             r ← chrono_participant warningThreshold email entry;
             Ok (out.1 ++ r.1, out.2 ++ r.2))
        out items
  = Ok (out.1 ++ concat (chrono_rows <$> filter (λ p, StaffEmail p.1 = false) items),
        out.2 ++ concat (warnings_of warningThreshold
                           <$> filter (λ p, StaffEmail p.1 = false) items)).
Proof.
  intros Hne. revert out.
  induction Hne as [|[k rec] items Hrec _ IH]; intros [rows ws].
  - simpl. by rewrite !app_nil_r.
  - rewrite foldM_cons, filter_cons. simpl in *.
    destruct (StaffEmail k) eqn:Hk; simpl.
    + apply IH.
    + rewrite chrono_participant_eq by done. simpl.
      rewrite IH. csimpl. by rewrite <- !(assoc app).
Qed.

Section Reports.
Variable emailMapping : gmap string string.
Variable warningThreshold : Z.
Variable py_int : string → option Z.
Variable strptime : string → option datetime.

Local Abbreviation load_directory := (load_directory emailMapping py_int strptime).
Local Abbreviation process_directory :=
  (process_directory emailMapping warningThreshold py_int strptime).
Local Abbreviation wf_emails := (wf_emails emailMapping).

Lemma wf_items_nonempty emails :
  wf_emails emails → Forall (λ p, p.2 ≠ []) (items_sorted String.leb emails).
Proof.
  intros Hwf. apply Forall_forall. intros [k rec] Hin.
  apply elem_of_items_sorted in Hin.
  by destruct (wf_lookup _ _ _ _ Hwf Hin) as (_ & ? & _).
Qed.

(** The three report loops complete on a loaded directory, with the
    tables of [reports_of]. *)
Lemma reports_eq emails :
  wf_emails emails →
  chronological warningThreshold emails =
    Ok (meeting_report (reports_of warningThreshold emails),
        low_attendance (reports_of warningThreshold emails)) ∧
  date_pivot emails = Ok (meeting_report_by_date (reports_of warningThreshold emails)) ∧
  week_pivot emails = Ok (meeting_report_by_week (reports_of warningThreshold emails)).
Proof.
  intros Hwf. pose proof (wf_items_nonempty _ Hwf) as Hne. split_and!.
  - unfold chronological. by rewrite chrono_loop.
  - unfold date_pivot. by rewrite (pivot_loop (date_cells emails)).
  - unfold week_pivot. by rewrite (pivot_loop (week_cells emails)).
Qed.

Lemma process_directory_eq files :
  process_directory files =
    match load_directory files with
    | Ok emails => Ok (reports_of warningThreshold emails)
    | Raise e => Raise e
    end.
Proof.
  unfold process_directory.
  destruct (load_directory files) as [emails|e] eqn:Hl; [|done].
  destruct (reports_eq emails) as (H1 & H2 & H3); [by eapply wf_load_directory|].
  cbn [mbind result_bind]. rewrite H1. cbn [mbind result_bind]. rewrite H2.
  cbn [mbind result_bind]. by rewrite H3.
Qed.

Lemma process_directory_Ok files out :
  process_directory files = Ok out ↔
  ∃ emails, load_directory files = Ok emails ∧ out = reports_of warningThreshold emails.
Proof.
  rewrite process_directory_eq.
  destruct (load_directory files) as [emails|e]; split.
  - intros [= <-]. eauto.
  - intros (emails' & [= <-] & ->). done.
  - done.
  - intros (? & ? & _). done.
Qed.

Lemma elem_of_meeting_report emails row :
  row ∈ meeting_report (reports_of warningThreshold emails) ↔
  ∃ k d e, StaffEmail k = false ∧ lookup2 emails k d = Some e ∧ row = entry_row e.
Proof.
  simpl. rewrite elem_of_concat. split.
  - intros (rows & Hrow & Hrows).
    apply list_elem_of_fmap in Hrows as ([k rec] & -> & Hin).
    apply elem_of_included in Hin as [Hk Hrec].
    unfold chrono_rows in Hrow. simpl in Hrow.
    apply list_elem_of_fmap in Hrow as (e & -> & He).
    apply list_elem_of_fmap in He as ([d e'] & -> & He).
    apply elem_of_items_sorted in He.
    exists k, d, e'. unfold lookup2. rewrite Hrec. done.
  - intros (k & d & e & Hk & He & ->).
    unfold lookup2 in He.
    destruct (dict_get emails k) as [rec|] eqn:Hrec; [simpl in He|done].
    exists (chrono_rows (k, rec)). split.
    + unfold chrono_rows. simpl. apply list_elem_of_fmap. exists e. split; [done|].
      apply list_elem_of_fmap. exists (d, e). split; [done|].
      by apply elem_of_items_sorted.
    + apply list_elem_of_fmap. exists (k, rec). split; [done|].
      by apply elem_of_included.
Qed.

Lemma elem_of_pivot_rows cells emails row :
  row ∈ pivot_row cells <$> included emails ↔
  ∃ k studentRecord,
    StaffEmail k = false ∧ dict_get emails k = Some studentRecord ∧
    row = pivot_row cells (k, studentRecord).
Proof.
  rewrite list_elem_of_fmap. split.
  - intros ([k rec] & -> & Hin). apply elem_of_included in Hin as [? ?]. eauto.
  - intros (k & rec & Hk & Hrec & ->). exists (k, rec).
    split; [done|]. by apply elem_of_included.
Qed.
End Reports.

Section RunClaims.
Variable emailMapping : gmap string string.
Variable warningThreshold : Z.
Variable py_int : string → option Z.
Variable strptime : string → option datetime.

Local Abbreviation parse_row := (parse_row emailMapping py_int strptime).
Local Abbreviation process_row := (process_row emailMapping py_int strptime).
Local Abbreviation process_file := (process_file emailMapping py_int strptime).
Local Abbreviation load_directory := (load_directory emailMapping py_int strptime).
Local Abbreviation process_directory :=
  (process_directory emailMapping warningThreshold py_int strptime).
Local Abbreviation run := (run emailMapping warningThreshold py_int strptime).
Local Abbreviation malformed := (malformed py_int strptime).
Local Abbreviation emailKey_of := (emailKey_of emailMapping).

(** C3: an identity key classified as staff has no row in any of the three
    tables: no row of the chronological report carries an email that
    resolves to it, and no row of the two pivot tables has it in the
    Email column. *)
Theorem staff_rows_excluded files out k :
  process_directory files = Ok out → StaffEmail k = true →
  (∀ row e, row ∈ meeting_report out → row !! 1%nat = Some (CStr e) →
      emailKey_of e ≠ k) ∧
  (∀ row, row ∈ meeting_report_by_date out → row !! 1%nat ≠ Some (CStr k)) ∧
  (∀ row, row ∈ meeting_report_by_week out → row !! 1%nat ≠ Some (CStr k)).
Proof.
  intros (emails & Hl & ->)%process_directory_Ok Hk.
  pose proof (wf_load_directory _ _ _ _ _ Hl) as Hwf.
  assert (∀ cells hdr row,
            hdr !! 1%nat = Some (CStr "Email") →
            row ∈ hdr :: (pivot_row cells <$> included emails) →
            row !! 1%nat ≠ Some (CStr k)) as Hpivot.
  { intros cells hdr row Hhdr [->|Hrow]%elem_of_cons.
    - rewrite Hhdr. intros [= <-]. done.
    - apply elem_of_pivot_rows in Hrow as (k' & rec & Hk' & _ & ->).
      simpl. intros [= ->]. congruence. }
  split_and!.
  - intros row e (k' & d & e' & Hk' & He' & ->)%elem_of_meeting_report [= <-].
    unfold lookup2 in He'.
    destruct (dict_get emails k') as [rec|] eqn:Hrec; [simpl in He'|done].
    destruct (wf_lookup _ _ _ _ Hwf Hrec) as (_ & _ & Hkeys).
    pose proof (Forall_dict_get _ _ _ _ Hkeys He') as Hkey. simpl in Hkey.
    congruence.
  - intros row. by apply Hpivot.
  - intros row. by apply Hpivot.
Qed.

Lemma malformed_parse_row row : malformed row → parse_row row = Raise ValueError.
Proof.
  intros (c0 & c2 & c4 & H0 & Hh & H2 & H4 & Hbad).
  unfold parse_row, index, of_option.
  rewrite H0. simpl. rewrite Hh.
  destruct (row !! 1%nat) as [c1|] eqn:H1.
  - simpl. rewrite H2. simpl. rewrite H4. simpl.
    destruct (py_int c4); simpl; [|done].
    destruct Hbad as [?| ->]; done.
  - apply lookup_ge_None in H1. apply lookup_lt_Some in H2. lia.
Qed.

Lemma load_raises_row files f row :
  f ∈ files → row ∈ f → is_Ok (parse_row row) = false →
  is_Ok (load_directory files) = false.
Proof.
  intros Hf Hrow Hbad. unfold load_directory.
  apply (foldM_raise_elem _ _ _ f Hf). intros emails.
  rewrite process_file_eq. destruct (peek f); [|done].
  apply (foldM_raise_elem _ _ _ row Hrow). intros emails'.
  rewrite process_row_eq. by destruct (parse_row row) as [[r|]|].
Qed.

Lemma load_raises_peek files f :
  f ∈ files → is_Ok (peek f) = false → is_Ok (load_directory files) = false.
Proof.
  intros Hf Hpeek. unfold load_directory.
  apply (foldM_raise_elem _ _ _ f Hf). intros emails.
  rewrite process_file_eq. by destruct (peek f).
Qed.

Lemma process_directory_raises files :
  is_Ok (load_directory files) = false → ∃ e, process_directory files = Raise e.
Proof.
  intros [e He]%is_Ok_false. exists e. by rewrite process_directory_eq, He.
Qed.

Lemma run_cons_raise files rest e :
  process_directory files = Raise e → run (files :: rest) = ([], Some e).
Proof. intros He. simpl. by rewrite He. Qed.

Lemma run_app_completed before rs l :
  run before = (rs, None) → run (before ++ l) = (rs ++ (run l).1, (run l).2).
Proof.
  revert rs. induction before as [|files before IH]; intros rs; simpl.
  - intros [= <-]. by destruct (run l).
  - destruct (process_directory files) as [r|e]; [|done].
    destruct (run before) as [rs0 e0] eqn:Hb. intros [= <- ->].
    by rewrite (IH rs0 eq_refl).
Qed.

(** C4, as the script has it: a row with an unparseable timestamp or a
    non-integer duration aborts the directory that contains it before any
    of its reports is written, the directories processed before it keep
    theirs, and the run ends there: no later directory is processed. *)
Theorem malformed_row_aborts_run before files rest rs f row :
  run before = (rs, None) → f ∈ files → row ∈ f → malformed row →
  ∃ e, process_directory files = Raise e ∧
       run (before ++ files :: rest) = (rs, Some e).
Proof.
  intros Hbefore Hf Hrow Hbad.
  destruct (process_directory_raises files) as [e He].
  { apply (load_raises_row files f row Hf Hrow).
    by rewrite (malformed_parse_row row Hbad). }
  exists e. split; [done|].
  rewrite (run_app_completed _ _ _ Hbefore), (run_cons_raise _ _ _ He).
  simpl. by rewrite app_nil_r.
Qed.

(** C10: a file with fewer than two rows makes the peek raise
    [StopIteration], which nothing catches: the directory that holds it
    gets no report, and the run ends with that directory. *)
Theorem short_file_aborts_directory files f :
  f ∈ files → (length f < 2)%nat →
  peek f = Raise StopIteration ∧
  (∃ e, process_directory files = Raise e) ∧
  (∀ rest, ∃ e, run (files :: rest) = ([], Some e)).
Proof.
  intros Hf Hlen.
  assert (peek f = Raise StopIteration) as Hpeek.
  { destruct f as [|row1 [|row2 f]]; simpl in *; [done | done | lia]. }
  destruct (process_directory_raises files) as [e He].
  { apply (load_raises_peek files f Hf). by rewrite Hpeek. }
  split_and!; [done | by eauto |].
  intros rest. exists e. by apply run_cons_raise.
Qed.
End RunClaims.

(** ** The order of dates *)

Module CalFacts.

Ltac cases :=
  repeat match goal with
    | |- context [?a =? ?b] => destruct (Z.eqb_spec a b)
    | |- context [?a <? ?b] => destruct (Z.ltb_spec a b)
    | |- context [?a <=? ?b] => destruct (Z.leb_spec a b)
    | H : context [?a =? ?b] |- _ => destruct (Z.eqb_spec a b)
    | H : context [?a <? ?b] |- _ => destruct (Z.ltb_spec a b)
    | H : context [?a <=? ?b] |- _ => destruct (Z.leb_spec a b)
    end.

Lemma leb_total a b : Cal.leb a b = true ∨ Cal.leb b a = true.
Proof.
  destruct a as [y m d], b as [y' m' d']. unfold Cal.leb. simpl.
  cases; (by left) || (by right) || lia.
Qed.

Lemma leb_trans a b c :
  Cal.leb a b = true → Cal.leb b c = true → Cal.leb a c = true.
Proof.
  destruct a as [y m d], b as [y' m' d'], c as [y'' m'' d''].
  unfold Cal.leb. simpl. intros H1 H2. cases; done || lia.
Qed.

Lemma leb_ne_lt a b : Cal.leb a b = true → a ≠ b → Cal.lt a b.
Proof.
  destruct a as [y m d], b as [y' m' d']. unfold Cal.leb, Cal.lt. simpl.
  intros H1 Hne.
  assert (¬ (y = y' ∧ m = m' ∧ d = d')) by (intros (-> & -> & ->); done).
  cases; try done; lia.
Qed.

(** [sorted] puts distinct dates in strictly ascending order. *)
Lemma sorted_strict (l : list date) :
  NoDup l → StronglySorted Cal.lt (sorted Cal.leb l).
Proof.
  intros Hnd%(NoDup_sorted Cal.leb).
  pose proof (sorted_ascending Cal.leb leb_total leb_trans l) as Hs.
  induction Hs as [|a l' Hs IH Ha]; [constructor|].
  apply NoDup_cons in Hnd as [Hnotin Hnd].
  constructor; [by apply IH|].
  apply Forall_forall. intros b Hb.
  apply leb_ne_lt.
  - by eapply (proj1 (Forall_forall _ _)) in Ha.
  - intros ->. done.
Qed.

End CalFacts.

(** ** The date catalogue *)

Section Catalogue.
Context {K V : Type} `{EqDecision K}.

(** A loop that enters each key it has not seen yet. *)
Lemma catalogue_keys (value : K → V) (ks : list K) (cat : dict K V) :
  NoDup (keys cat) →
  let cat' := foldl (λ cat k, if dict_mem cat k then cat
                              else dict_set cat k (value k)) cat ks in
  NoDup (keys cat') ∧ ∀ k, k ∈ keys cat' ↔ k ∈ keys cat ∨ k ∈ ks.
Proof.
  revert cat. induction ks as [|k0 ks IH]; intros cat Hnd; simpl.
  - split; [done|]. intros k. rewrite elem_of_nil. tauto.
  - destruct (dict_mem cat k0) eqn:Hm.
    + destruct (IH cat Hnd) as [Hnd' Hin]. split; [done|].
      intros k. rewrite Hin, elem_of_cons.
      apply dict_mem_true in Hm. split; [tauto|].
      intros [?|[->|?]]; tauto.
    + destruct (IH (dict_set cat k0 (value k0))) as [Hnd' Hin];
        [by apply NoDup_keys_set|].
      split; [done|].
      intros k. rewrite Hin, elem_of_keys_set, elem_of_cons. tauto.
Qed.
End Catalogue.

Lemma dateCatalogue_keys (emails : emails_t) :
  NoDup (keys (dateCatalogue emails)) ∧
  ∀ d, d ∈ keys (dateCatalogue emails) ↔
       ∃ k studentRecord, dict_get emails k = Some studentRecord ∧ d ∈ keys studentRecord.
Proof.
  unfold dateCatalogue.
  assert (∀ (items : emails_t) (cat : dict date date),
            NoDup (keys cat) →
            let cat' :=
              foldl (fun cat '(email, entry) =>
                       foldl (fun cat date =>
                                if dict_mem cat date then cat else dict_set cat date date)
                             cat (keys entry)) cat items in
            NoDup (keys cat') ∧
            ∀ d, d ∈ keys cat' ↔ d ∈ keys cat ∨ ∃ p, p ∈ items ∧ d ∈ keys p.2) as Hloop.
  { induction items as [|[k rec] items IH]; intros cat Hnd; simpl.
    - split; [done|]. intros d. split; [tauto|].
      intros [?|(p & ?%elem_of_nil & _)]; done.
    - destruct (catalogue_keys (λ d : date, d) (keys rec) cat Hnd) as [Hnd1 Hin1].
      destruct (IH _ Hnd1) as [Hnd2 Hin2]. split; [done|].
      intros d. rewrite Hin2, Hin1. split.
      + intros [[?|?]|(p & ? & ?)]; [by left | right | right].
        * exists (k, rec). split; [apply list_elem_of_here | done].
        * exists p. split; [by apply list_elem_of_further | done].
      + intros [?|(p & [->|?]%elem_of_cons & ?)]; [tauto | tauto | right; eauto]. }
  destruct (Hloop (items_sorted String.leb emails) []) as [Hnd Hin]; [constructor|].
  split; [done|]. intros d. rewrite Hin. split.
  - intros [?%elem_of_nil|([k rec] & Hp & Hd)]; [done|].
    apply elem_of_items_sorted in Hp. eauto.
  - intros (k & rec & Hrec & Hd). right. exists (k, rec).
    split; [by apply elem_of_items_sorted | done].
Qed.

Section DatePivotClaims.
Variable emailMapping : gmap string string.
Variable warningThreshold : Z.
Variable py_int : string → option Z.
Variable strptime : string → option datetime.

Local Abbreviation load_directory := (load_directory emailMapping py_int strptime).
Local Abbreviation process_directory :=
  (process_directory emailMapping warningThreshold py_int strptime).

(** C6, as the script has it: after "Name" and "Email" the header of the
    date-pivot report has one column per distinct calendar date found
    across all participants of [emails], staff included, in strictly
    ascending date order. *)
Theorem date_pivot_columns files emails out :
  load_directory files = Ok emails → process_directory files = Ok out →
  ∃ cols,
    meeting_report_by_date out !! 0%nat
      = Some ([CStr "Name"; CStr "Email"] ++ (CDate <$> cols)) ∧
    StronglySorted Cal.lt cols ∧
    ∀ d, d ∈ cols ↔
         ∃ k studentRecord,
           dict_get emails k = Some studentRecord ∧ d ∈ keys studentRecord.
Proof.
  intros Hl (emails' & Hl' & ->)%process_directory_Ok.
  assert (emails' = emails) as -> by congruence.
  destruct (dateCatalogue_keys emails) as [Hnd Hin].
  exists (sorted Cal.leb (keys (dateCatalogue emails))). split_and!.
  - done.
  - by apply CalFacts.sorted_strict.
  - intros d. by rewrite elem_of_sorted, Hin.
Qed.
End DatePivotClaims.

(** ** The week-pivot report *)

Lemma attendanceSum_week_minutes (studentRecord : dict date DailyAttendance) week :
  attendanceSum studentRecord week = week_minutes studentRecord week.
Proof.
  unfold attendanceSum, week_minutes.
  assert (∀ (rec : dict date DailyAttendance) acc,
            foldl (fun attendanceSum '(date, row) =>
                     let studentEntryWeek := (Cal.isocalendar date).1.2 in
                     if studentEntryWeek =? week then attendanceSum + e_mins row
                     else attendanceSum) acc rec
            = acc + foldr Z.add 0
                      ((λ q, e_mins q.2) <$> filter (λ q, Cal.iso_week q.1 = week) rec))
    as Hloop.
  { induction rec as [|[d e] rec IH]; intros acc; [simpl; lia|].
    cbn [foldl]. rewrite IH, filter_cons. cbn [fst snd].
    unfold Cal.iso_week at 2.
    destruct (Z.eqb_spec (Cal.isocalendar d).1.2 week) as [Hw|Hw].
    - rewrite decide_True by done. rewrite fmap_cons. cbn [foldr snd].
      symmetry. apply Z.add_assoc.
    - by rewrite decide_False by done. }
  by rewrite Hloop.
Qed.

Lemma week_cell_minutes (studentRecord : dict date DailyAttendance) week :
  week_cell studentRecord week = minutes_cell (week_minutes studentRecord week).
Proof. unfold week_cell, minutes_cell. by rewrite attendanceSum_week_minutes. Qed.

Lemma week_minutes_nonneg (studentRecord : dict date DailyAttendance) week :
  NoDup (keys studentRecord) →
  (∀ d e, dict_get studentRecord d = Some e → 0 ≤ e_mins e) →
  0 ≤ week_minutes studentRecord week.
Proof.
  intros Hnd Hpos. unfold week_minutes.
  assert (Forall (λ q : date * DailyAttendance, 0 ≤ e_mins q.2) studentRecord) as Hall.
  { apply Forall_forall. intros [d e] Hin. simpl. apply (Hpos d).
    by apply elem_dict_get. }
  clear Hnd Hpos. induction Hall as [|[d e] rec He _ IH]; simpl; [done|].
  rewrite filter_cons. simpl in He. case_decide; csimpl; lia.
Qed.


(** ** Warnings and the Email columns *)

Section EmailClaims.
Variable emailMapping : gmap string string.
Variable warningThreshold : Z.
Variable py_int : string → option Z.
Variable strptime : string → option datetime.

Local Abbreviation load_directory := (load_directory emailMapping py_int strptime).
Local Abbreviation process_directory :=
  (process_directory emailMapping warningThreshold py_int strptime).
Local Abbreviation data_rows := (data_rows emailMapping py_int strptime).
Local Abbreviation emailKey_of := (emailKey_of emailMapping).

Lemma warnings_of_elem emails k studentRecord w :
  wf_emails emailMapping emails → dict_get emails k = Some studentRecord →
  w ∈ warnings_of warningThreshold (k, studentRecord) →
  Z.of_nat (length studentRecord) ≤ warningThreshold ∧
  emailKey_of (w_email w) = k ∧ w_sessions w = length studentRecord.
Proof.
  intros Hwf Hrec. unfold warnings_of. simpl.
  destruct (Z.leb_spec (Z.of_nat (length studentRecord)) warningThreshold);
    [|by intros ?%elem_of_nil].
  destruct (last _) as [row|] eqn:Hlast; [|by intros ?%elem_of_nil].
  intros ->%list_elem_of_singleton. simpl. split_and!; [done | | done].
  apply last_Some_elem_of, list_elem_of_fmap in Hlast as ([d e] & -> & Hin).
  apply elem_of_items_sorted in Hin.
  destruct (wf_lookup _ _ _ _ Hwf Hrec) as (_ & _ & Hkeys).
  exact (Forall_dict_get _ _ _ _ Hkeys Hin).
Qed.

Lemma warnings_of_low emails k studentRecord :
  wf_emails emailMapping emails → dict_get emails k = Some studentRecord →
  Z.of_nat (length studentRecord) ≤ warningThreshold →
  ∃ w, warnings_of warningThreshold (k, studentRecord) = [w].
Proof.
  intros Hwf Hrec Hlow. unfold warnings_of. simpl.
  destruct (Z.leb_spec (Z.of_nat (length studentRecord)) warningThreshold); [|lia].
  destruct (last _) as [row|] eqn:Hlast; [by eauto|].
  apply last_None, fmap_nil_inv, items_sorted_nonempty in Hlast; [done|].
  by destruct (wf_lookup _ _ _ _ Hwf Hrec) as (_ & ? & _).
Qed.


(** C9, as the script has it: every row of the chronological report
    carries the lowercased email of the first row that was folded in for
    its (identity key, date), while the two pivot tables carry the
    identity key itself in their Email column; the two differ exactly
    when that first email is an alias that the table maps to another
    address. *)
Theorem table_emails files emails out :
  load_directory files = Ok emails → process_directory files = Ok out →
  ∀ row, row ∈ meeting_report out →
    ∃ k d r ms,
      resolving k d (data_rows files) = r :: ms ∧
      row = [CStr (p_name r); CStr (p_email r); CStr (p_start r);
             CInt (total_mins (r :: ms))] ∧
      k = emailKey_of (p_email r) ∧ StaffEmail k = false ∧
      (∃ row2, row2 ∈ meeting_report_by_date out ∧ row2 !! 1%nat = Some (CStr k)) ∧
      (∃ row3, row3 ∈ meeting_report_by_week out ∧ row3 !! 1%nat = Some (CStr k)) ∧
      (p_email r ≠ k ↔
       ∃ canonical, emailMapping !! p_email r = Some canonical ∧
                    canonical = k ∧ canonical ≠ p_email r).
Proof.
  intros Hl (emails' & Hl' & ->)%process_directory_Ok.
  assert (emails' = emails) as -> by congruence.
  intros row (k & d & e & Hk & He & ->)%elem_of_meeting_report.
  pose proof He as He'. rewrite (lookup2_load _ _ _ _ _ k d Hl) in He'.
  destruct (resolving k d (data_rows files)) as [|r ms] eqn:Hres; [done|].
  injection He' as <-.
  assert (r ∈ data_rows files ∧ p_emailKey r = k) as [Hr Hrk].
  { assert (r ∈ resolving k d (data_rows files)) as Hin
      by (rewrite Hres; apply list_elem_of_here).
    unfold resolving in Hin. apply list_elem_of_filter in Hin. tauto. }
  assert (k = emailKey_of (p_email r)) as Hkey.
  { rewrite <- Hrk. by eapply data_rows_key. }
  assert (∃ rec, dict_get emails k = Some rec) as [rec Hrec].
  { unfold lookup2 in He. destruct (dict_get emails k); [by eauto | done]. }
  exists k, d, r, ms. split_and!; [done | done | done | done | | |].
  - exists (pivot_row (date_cells emails) (k, rec)). split; [|done].
    simpl. apply list_elem_of_further, elem_of_pivot_rows. by exists k, rec.
  - exists (pivot_row (week_cells emails) (k, rec)). split; [|done].
    simpl. apply list_elem_of_further, elem_of_pivot_rows. by exists k, rec.
  - rewrite Hkey. unfold emailKey_of.
    destruct (emailMapping !! p_email r) as [c|]; split.
    + intros Hne. by exists c.
    + intros (c' & [= <-] & _ & Hne). done.
    + done.
    + intros (c' & ? & _). done.
Qed.
End EmailClaims.

(** ** The properties on the sample directories *)

Example alias_resolution :
  emailKey_of Ex.aliases "a@personal.com" = "1a@student.gla.ac.uk" ∧
  emailKey_of Ex.aliases "1a@student.gla.ac.uk" = "1a@student.gla.ac.uk" ∧
  load_directory Ex.aliases Zoom.int Zoom.strptime [Ex.file_alias]
    = Ok [("1a@student.gla.ac.uk",
           [(Date 2020 10 1,
             Entry "A Student" "1a@student.gla.ac.uk" "01/10/2020 09:00:00 AM" 25)])].
Proof. by vm_compute. Qed.

Example end_to_end_fusion :
  (meeting_report <$>
     match process_directory ∅ 0 Zoom.int Zoom.strptime [Ex.file_a; Ex.file_b] with
     | Ok out => Some out
     | Raise _ => None
     end)
  = Some [[CStr "A Student"; CStr "x@student.gla.ac.uk";
           CStr "01/10/2020 09:00:00 AM"; CInt 25]].
Proof. by vm_compute. Qed.

Lemma same_day_rows_fuse_witness :
  entries_at
    [("x@student.gla.ac.uk",
      [(Date 2020 10 1,
        Entry "A Student" "x@student.gla.ac.uk" "01/10/2020 09:00:00 AM" 25)])]
    "x@student.gla.ac.uk" (Date 2020 10 1)
  = [Entry "A Student" "x@student.gla.ac.uk" "01/10/2020 09:00:00 AM" 25].
Proof.
  apply (same_day_rows_fuse ∅ Zoom.int Zoom.strptime [Ex.file_a; Ex.file_b] _ _ _
           (Parsed "A Student" "x@student.gla.ac.uk" "x@student.gla.ac.uk"
                   "01/10/2020 09:00:00 AM" 10 (Date 2020 10 1))
           [Parsed "Student, A" "x@student.gla.ac.uk" "x@student.gla.ac.uk"
                   "01/10/2020 09:40:00 AM" 15 (Date 2020 10 1)]);
    vm_compute; reflexivity.
Defined.

Lemma staff_rows_excluded_witness :
  (∀ row e, row ∈ meeting_report Out.reports_staff → row !! 1%nat = Some (CStr e) →
      emailKey_of ∅ e ≠ "demo@glasgow.ac.uk") ∧
  (∀ row, row ∈ meeting_report_by_date Out.reports_staff →
      row !! 1%nat ≠ Some (CStr "demo@glasgow.ac.uk")) ∧
  (∀ row, row ∈ meeting_report_by_week Out.reports_staff →
      row !! 1%nat ≠ Some (CStr "demo@glasgow.ac.uk")).
Proof.
  apply (staff_rows_excluded ∅ 0 Zoom.int Zoom.strptime [Ex.file_staff]);
    vm_compute; reflexivity.
Defined.

Lemma malformed_row_aborts_run_witness :
  ∃ e, process_directory ∅ 0 Zoom.int Zoom.strptime [Ex.file_bad] = Raise e ∧
       run ∅ 0 Zoom.int Zoom.strptime ([[Ex.file_a]] ++ [Ex.file_bad] :: [[Ex.file_b]])
         = ([Out.reports_a], Some e).
Proof.
  apply (malformed_row_aborts_run ∅ 0 Zoom.int Zoom.strptime
           [[Ex.file_a]] [Ex.file_bad] [[Ex.file_b]] [Out.reports_a]
           Ex.file_bad Ex.bad_row).
  - vm_compute; reflexivity.
  - apply list_elem_of_here.
  - apply list_elem_of_further, list_elem_of_here.
  - exists "B Student", "yesterday", "abc".
    split_and!; [reflexivity | vm_compute; reflexivity | reflexivity | reflexivity |].
    left. vm_compute; reflexivity.
Defined.

(** C4 as stated fails: with a malformed row in the first directory the
    run ends with [ValueError] and writes nothing for the second
    directory, which on its own is processed without error. *)
Lemma later_directory_not_processed :
  run ∅ 0 Zoom.int Zoom.strptime [[Ex.file_bad]; [Ex.file_a]] = ([], Some ValueError) ∧
  process_directory ∅ 0 Zoom.int Zoom.strptime [Ex.file_a] = Ok Out.reports_a.
Proof. split; vm_compute; reflexivity. Qed.

Example week10_sum :
  week_minutes Out.record_week10 10 = 75 ∧
  Cal.isocalendar (Date 2020 3 2) = (2020, 10, 1) ∧
  Cal.isocalendar (Date 2020 3 4) = (2020, 10, 3).
Proof. by vm_compute. Qed.

(** C5 as stated fails: 30 December 2019 is in week 1 of ISO year 2020 and
    4 January 2021 in week 1 of ISO year 2021; the report has one week
    column, headed 30 December 2019, and its cell is 75, while the minutes
    of the dates in week 1 of ISO year 2020 are 30. *)
Lemma week_number_merges_iso_years :
  load_directory ∅ Zoom.int Zoom.strptime [Ex.file_two_years]
    = Ok [("x@student.gla.ac.uk", Out.record_two_years)] ∧
  process_directory ∅ 0 Zoom.int Zoom.strptime [Ex.file_two_years]
    = Ok Out.reports_two_years ∧
  meeting_report_by_week Out.reports_two_years
    = [[CStr "Name"; CStr "Email"; CDate (Date 2019 12 30)];
       [CStr "A Student"; CStr "x@student.gla.ac.uk"; CInt 75]] ∧
  Cal.isocalendar (Date 2019 12 30) = (2020, 1, 1) ∧
  Cal.isocalendar (Date 2021 1 4) = (2021, 1, 1) ∧
  minutes_cell (week_minutes_in_year Out.record_two_years 2020 1) = CInt 30 ∧
  CInt 75 ≠ minutes_cell (week_minutes_in_year Out.record_two_years 2020 1).
Proof. split_and!; try (vm_compute; reflexivity). by vm_compute. Qed.

Lemma date_pivot_columns_witness :
  ∃ cols,
    meeting_report_by_date Out.reports_staff !! 0%nat
      = Some ([CStr "Name"; CStr "Email"] ++ (CDate <$> cols)) ∧
    StronglySorted Cal.lt cols ∧
    ∀ d, d ∈ cols ↔
         ∃ k studentRecord,
           dict_get Out.emails_staff k = Some studentRecord ∧ d ∈ keys studentRecord.
Proof.
  apply (date_pivot_columns ∅ 0 Zoom.int Zoom.strptime [Ex.file_staff]);
    vm_compute; reflexivity.
Defined.

(** C6 as stated fails: only the demonstrator attended on 1 October 2020,
    and the date-pivot report has a column for that date. *)
Lemma staff_only_date_has_column :
  load_directory ∅ Zoom.int Zoom.strptime [Ex.file_staff] = Ok Out.emails_staff ∧
  process_directory ∅ 0 Zoom.int Zoom.strptime [Ex.file_staff] = Ok Out.reports_staff ∧
  StaffEmail "demo@glasgow.ac.uk" = true ∧
  StaffEmail "b@student.gla.ac.uk" = false ∧
  (∀ k studentRecord,
      dict_get Out.emails_staff k = Some studentRecord →
      Date 2020 10 1 ∈ keys studentRecord → k = "demo@glasgow.ac.uk") ∧
  meeting_report_by_date Out.reports_staff !! 0%nat
    = Some [CStr "Name"; CStr "Email"; CDate (Date 2020 10 1); CDate (Date 2020 10 8)].
Proof.
  split_and!; try (vm_compute; reflexivity).
  intros k rec. unfold Out.emails_staff. simpl.
  repeat case_decide; try done.
  intros [= <-]. unfold keys. simpl.
  intros [=]%list_elem_of_singleton.
Qed.


Example warning_at_threshold_2 :
  low_attendance Out.reports_sessions = [Warning "P Student" "p@student.gla.ac.uk" 2] ∧
  length (keys Out.record_p) = 2%nat ∧ length (keys Out.record_q) = 3%nat ∧
  process_directory ∅ 2 Zoom.int Zoom.strptime [Ex.file_sessions]
    = Ok Out.reports_sessions ∧
  match process_directory ∅ 0 Zoom.int Zoom.strptime [Ex.file_sessions] with
  | Ok out => low_attendance out = []
  | Raise _ => False
  end.
Proof. split_and!; vm_compute; reflexivity. Qed.

Lemma load_directory_order_witness :
  ∃ emails',
    load_directory ∅ Zoom.int Zoom.strptime [Ex.file_b; Ex.file_a] = Ok emails' ∧
    ∀ k d,
      e_mins <$> lookup2 [("x@student.gla.ac.uk",
                           [(Date 2020 10 1,
                             Entry "A Student" "x@student.gla.ac.uk"
                                   "01/10/2020 09:00:00 AM" 25)])] k d
      = e_mins <$> lookup2 emails' k d.
Proof.
  apply (load_directory_order ∅ Zoom.int Zoom.strptime
           [Ex.file_a; Ex.file_b] [Ex.file_b; Ex.file_a]).
  - vm_compute; reflexivity.
  - apply Permutation_swap.
Defined.

Example other_file_order :
  load_directory ∅ Zoom.int Zoom.strptime [Ex.file_b; Ex.file_a]
    = Ok [("x@student.gla.ac.uk",
           [(Date 2020 10 1,
             Entry "Student, A" "x@student.gla.ac.uk" "01/10/2020 09:40:00 AM" 25)])].
Proof. by vm_compute. Qed.

Lemma table_emails_witness :
  ∃ k d r ms,
    resolving k d (data_rows Ex.aliases Zoom.int Zoom.strptime [Ex.file_alias]) = r :: ms ∧
    [CStr "A Student"; CStr "1a@student.gla.ac.uk"; CStr "01/10/2020 09:00:00 AM"; CInt 25]
      = [CStr (p_name r); CStr (p_email r); CStr (p_start r);
         CInt (total_mins (r :: ms))] ∧
    k = emailKey_of Ex.aliases (p_email r) ∧ StaffEmail k = false ∧
    (∃ row2, row2 ∈ meeting_report_by_date Out.reports_alias ∧
             row2 !! 1%nat = Some (CStr k)) ∧
    (∃ row3, row3 ∈ meeting_report_by_week Out.reports_alias ∧
             row3 !! 1%nat = Some (CStr k)) ∧
    (p_email r ≠ k ↔
     ∃ canonical, Ex.aliases !! p_email r = Some canonical ∧
                  canonical = k ∧ canonical ≠ p_email r).
Proof.
  apply (table_emails Ex.aliases 0 Zoom.int Zoom.strptime [Ex.file_alias]
           Out.emails_alias Out.reports_alias).
  - vm_compute; reflexivity.
  - vm_compute; reflexivity.
  - apply list_elem_of_here.
Defined.

(** C9 as stated fails: the student of [Ex.file_alias] signs in under the
    alias "a@personal.com", which the table maps to the university
    address, yet the chronological report shows the university address,
    as the two pivot tables do: the first row folded in for that day
    carried it. *)
Lemma canonical_first_hides_alias :
  Ex.aliases !! "a@personal.com" = Some "1a@student.gla.ac.uk" ∧
  Ex.file_alias !! 2%nat
    = Some ["A Student"; "a@personal.com"; "01/10/2020 09:40:00 AM";
            "01/10/2020 09:55:00 AM"; "15"] ∧
  process_directory Ex.aliases 0 Zoom.int Zoom.strptime [Ex.file_alias]
    = Ok Out.reports_alias ∧
  (λ row, row !! 1%nat) <$> meeting_report Out.reports_alias
    = [Some (CStr "1a@student.gla.ac.uk")] ∧
  (λ row, row !! 1%nat) <$> meeting_report_by_date Out.reports_alias
    = [Some (CStr "Email"); Some (CStr "1a@student.gla.ac.uk")] ∧
  (λ row, row !! 1%nat) <$> meeting_report_by_week Out.reports_alias
    = [Some (CStr "Email"); Some (CStr "1a@student.gla.ac.uk")].
Proof. split_and!; vm_compute; reflexivity. Qed.

Lemma short_file_aborts_directory_witness :
  peek Ex.file_header_only = Raise StopIteration ∧
  (∃ e, process_directory ∅ 0 Zoom.int Zoom.strptime [Ex.file_a; Ex.file_header_only]
        = Raise e) ∧
  (∀ rest, ∃ e, run ∅ 0 Zoom.int Zoom.strptime
                    ([Ex.file_a; Ex.file_header_only] :: rest) = ([], Some e)).
Proof.
  apply (short_file_aborts_directory ∅ 0 Zoom.int Zoom.strptime
           [Ex.file_a; Ex.file_header_only] Ex.file_header_only).
  - apply list_elem_of_further, list_elem_of_here.
  - simpl. lia.
Defined.

(** * Further properties of the script *)

(** ** The command line *)

Section ArgsFacts.
Variable py_int : string → option Z.

Lemma parse_arg_eq st arg :
  Args.parse_arg py_int st arg =
    if bad_threshold py_int arg then Raise ValueError
    else Ok (Args.State
               (Args.directoriesToProcess st
                  ++ (if Args.is_directory arg then [arg] else []))
               (default (Args.warningThreshold st) (threshold_of py_int arg))
               (Args.processDefaultDirectory st && String.prefix "-m" arg)).
Proof.
  unfold Args.parse_arg, bad_threshold, threshold_of, Args.is_threshold,
    Args.is_directory.
  destruct st as [dirs thr dflt].
  destruct (String.prefix "-m" arg); simpl.
  - rewrite app_nil_r, andb_true_r.
    case_bool_decide; simpl; [done|].
    by destruct (py_int (Args.drop 2 arg)) as [n|].
  - rewrite andb_false_r.
    destruct (Str.contains "*" arg); simpl; [by rewrite app_nil_r | done].
Qed.

Lemma parse_loop argv st :
  foldM (Args.parse_arg py_int) st argv =
    if existsb (bad_threshold py_int) argv then Raise ValueError
    else Ok (Args.State
               (Args.directoriesToProcess st
                  ++ filter (λ arg, Args.is_directory arg = true) argv)
               (default (Args.warningThreshold st)
                        (last (omap (threshold_of py_int) argv)))
               (Args.processDefaultDirectory st
                  && forallb (String.prefix "-m") argv)).
Proof.
  revert st. induction argv as [|arg argv IH]; intros st.
  - destruct st. simpl. by rewrite app_nil_r, andb_true_r.
  - rewrite foldM_cons, parse_arg_eq. cbn [existsb forallb].
    destruct (bad_threshold py_int arg) eqn:Hbad; [done|].
    cbn [mbind result_bind orb]. rewrite IH.
    destruct (existsb (bad_threshold py_int) argv); [done|].
    cbn [Args.directoriesToProcess Args.warningThreshold Args.processDefaultDirectory].
    rewrite filter_cons, <- (assoc app), andb_assoc. f_equal. f_equal.
    + by destruct (Args.is_directory arg).
    + cbn [omap list_omap].
      destruct (threshold_of py_int arg) as [n|]; [|done].
      cbn [default from_option].
      destruct (omap (threshold_of py_int) argv) as [|m ms]; [done|].
      change (last (n :: m :: ms)) with (last (m :: ms)).
      destruct (last (m :: ms)) eqn:Hlast; [done|].
      by apply last_None in Hlast.
Qed.

(** X1: when the argument loop completes, the directories processed are
    the current directory if every argument starts with "-m" (in
    particular if there is none), and otherwise the arguments that neither
    start with "-m" nor contain "*", in the order given: an argument with
    a "*" cancels the default and adds nothing. *)
Theorem directories_from_arguments argv dirs threshold :
  Args.parse_args py_int argv = Ok (dirs, threshold) →
  dirs = if forallb (String.prefix "-m") argv then ["."]
         else filter (λ arg, Args.is_directory arg = true) argv.
Proof.
  unfold Args.parse_args. rewrite parse_loop.
  destruct (existsb (bad_threshold py_int) argv); [done|].
  cbn [mbind result_bind Args.processDefaultDirectory Args.initial
       Args.directoriesToProcess Args.warningThreshold andb app].
  by destruct (forallb (String.prefix "-m") argv); intros [= <- <-].
Qed.

(** X2: the argument loop raises [ValueError] exactly when some argument
    starts with "-m", is longer than that, and the rest of it is not an
    integer; otherwise the threshold is the one of the last such argument,
    and 0 when there is none (a bare "-m" sets nothing). *)
Theorem threshold_from_arguments argv :
  (existsb (bad_threshold py_int) argv = true →
     Args.parse_args py_int argv = Raise ValueError) ∧
  (existsb (bad_threshold py_int) argv = false →
     ∃ dirs,
       Args.parse_args py_int argv
         = Ok (dirs, default 0 (last (omap (threshold_of py_int) argv)))).
Proof.
  unfold Args.parse_args. rewrite parse_loop.
  destruct (existsb (bad_threshold py_int) argv); split; try done.
  intros _.
  cbn [mbind result_bind Args.processDefaultDirectory Args.initial
       Args.directoriesToProcess Args.warningThreshold andb app].
  destruct (forallb (String.prefix "-m") argv); eauto.
Qed.
End ArgsFacts.

Lemma directories_from_arguments_witness :
  ["dirA"; "dirB"]
  = if forallb (String.prefix "-m") ["-m2"; "dirA"; "dir*"; "dirB"; "-m"] then ["."]
    else filter (λ arg, Args.is_directory arg = true)
                ["-m2"; "dirA"; "dir*"; "dirB"; "-m"].
Proof.
  apply (directories_from_arguments Zoom.int _ _ 2). vm_compute; reflexivity.
Defined.

Example arguments_in_use :
  Args.parse_args Zoom.int [] = Ok (["."], 0) ∧
  Args.parse_args Zoom.int ["-m3"] = Ok (["."], 3) ∧
  Args.parse_args Zoom.int ["dir*"] = Ok ([], 0) ∧
  Args.parse_args Zoom.int ["-m"; "4"] = Ok (["4"], 0) ∧
  Args.parse_args Zoom.int ["-m2"; "dirA"; "-m5"] = Ok (["dirA"], 5) ∧
  Args.parse_args Zoom.int ["dirA"; "-mx"] = Raise ValueError.
Proof. split_and!; vm_compute; reflexivity. Qed.

(** ** What the loader accepts *)

Section LoaderFacts.
Variable emailMapping : gmap string string.
Variable py_int : string → option Z.
Variable strptime : string → option datetime.

Local Abbreviation parse_row := (parse_row emailMapping py_int strptime).
Local Abbreviation load_directory := (load_directory emailMapping py_int strptime).
Local Abbreviation data_rows := (data_rows emailMapping py_int strptime).
Local Abbreviation file_ok := (file_ok emailMapping py_int strptime).
Local Abbreviation parses := (parses py_int strptime).
Local Abbreviation file_loads := (file_loads py_int strptime).

Lemma parse_row_header row : is_header row = true → parse_row row = Ok None.
Proof.
  unfold is_header, parse_row, index.
  destruct (row !! 0%nat) as [c0|]; [|done]. simpl. by intros ->.
Qed.

Lemma parse_row_short row :
  is_header row = false → (length row < 5)%nat → parse_row row = Raise IndexError.
Proof.
  unfold is_header, parse_row, index. intros Hh Hlen.
  destruct (row !! 0%nat) as [c0|]; [|done]. simpl. rewrite Hh.
  destruct (row !! 1%nat) as [c1|]; [|done]. simpl.
  destruct (row !! 2%nat) as [c2|]; [|done]. simpl.
  destruct (row !! 4%nat) as [c4|] eqn:H4; [|done].
  apply lookup_lt_Some in H4. lia.
Qed.

Lemma parse_row_long row :
  is_header row = false → (5 ≤ length row)%nat →
  ∃ c0 c1 c2 c4,
    row !! 0%nat = Some c0 ∧ row !! 1%nat = Some c1 ∧
    row !! 2%nat = Some c2 ∧ row !! 4%nat = Some c4 ∧
    parse_row row =
      match py_int c4, strptime c2 with
      | Some mins, Some dt =>
          Ok (Some (Parsed c0 (Str.lower c1)
                           (emailKey_of emailMapping (Str.lower c1)) c2 mins
                           (dt_date dt)))
      | _, _ => Raise ValueError
      end.
Proof.
  unfold is_header, parse_row, index. intros Hh Hlen.
  destruct (lookup_lt_is_Some_2 row 0) as [c0 H0]; [lia|].
  destruct (lookup_lt_is_Some_2 row 1) as [c1 H1]; [lia|].
  destruct (lookup_lt_is_Some_2 row 2) as [c2 H2]; [lia|].
  destruct (lookup_lt_is_Some_2 row 4) as [c4 H4]; [lia|].
  exists c0, c1, c2, c4. rewrite H0 in *. simpl. rewrite Hh, H1. simpl.
  rewrite H2. simpl. rewrite H4. simpl.
  split_and!; [done..|].
  destruct (py_int c4); simpl; [|done]. by destruct (strptime c2).
Qed.

(** X3: what one row does to the loader.  A row whose first field ends
    with the header marker is skipped whatever else it holds; any other
    row with fewer than five fields (an empty row too) raises
    [IndexError], whatever its fields; a row with five fields or more
    raises [ValueError] when its duration or its start stamp does not
    parse, and is folded in otherwise. *)
Theorem parse_row_outcomes row :
  (is_header row = true → parse_row row = Ok None) ∧
  (is_header row = false → (length row < 5)%nat → parse_row row = Raise IndexError) ∧
  (is_header row = false → (5 ≤ length row)%nat → parses row = false →
     parse_row row = Raise ValueError) ∧
  (is_header row = false → (5 ≤ length row)%nat → parses row = true →
     ∃ r, parse_row row = Ok (Some r)).
Proof.
  split_and!.
  - apply parse_row_header.
  - apply parse_row_short.
  - intros Hh Hlen Hp.
    destruct (parse_row_long row Hh Hlen) as (c0 & c1 & c2 & c4 & _ & _ & H2 & H4 & ->).
    unfold parses in Hp. rewrite H2, H4 in Hp.
    by destruct (py_int c4), (strptime c2).
  - intros Hh Hlen Hp.
    destruct (parse_row_long row Hh Hlen) as (c0 & c1 & c2 & c4 & _ & _ & H2 & H4 & ->).
    unfold parses in Hp. rewrite H2, H4 in Hp.
    destruct (py_int c4), (strptime c2); try by eauto.
    all: exfalso; apply andb_prop in Hp as [Hp1 Hp2];
      apply bool_decide_eq_true in Hp1, Hp2;
      (by destruct Hp1) || (by destruct Hp2).
Qed.

Lemma parse_row_is_Ok row :
  is_Ok (parse_row row) = is_header row || parses row.
Proof.
  destruct (is_header row) eqn:Hh.
  - by rewrite parse_row_header.
  - simpl. destruct (decide (5 ≤ length row)%nat) as [Hlen|Hlen].
    + destruct (parse_row_long row Hh Hlen) as (c0 & c1 & c2 & c4 & _ & _ & H2 & H4 & ->).
      unfold parses. rewrite H2, H4.
      destruct (py_int c4), (strptime c2); simpl; try done.
      all: symmetry; apply andb_false_iff;
        (left; apply bool_decide_eq_false; by intros [? ?])
        || (right; apply bool_decide_eq_false; by intros [? ?]).
    + rewrite parse_row_short by (done || lia). simpl.
      unfold parses. destruct (row !! 2%nat); [|done].
      destruct (row !! 4%nat) eqn:H4; [|done].
      apply lookup_lt_Some in H4. lia.
Qed.

Lemma file_ok_loads f : file_ok f = file_loads f.
Proof.
  unfold file_ok, file_loads. f_equal.
  - destruct f as [|row1 [|row2 f]]; simpl; [done..|].
    unfold index. destruct (row2 !! 2%nat) eqn:H2; simpl; symmetry.
    + apply bool_decide_eq_true. apply lookup_lt_Some in H2. lia.
    + apply bool_decide_eq_false. apply lookup_ge_None in H2. lia.
  - induction f as [|row f IH]; [done|]. simpl.
    by rewrite IH, parse_row_is_Ok.
Qed.

End LoaderFacts.

(** ** Minutes are conserved *)

Lemma weight_dict_set {K V} `{EqDecision K} (w : V → Z) (d : dict K V) k v :
  weight w (dict_set d k v) = weight w d - from_option w 0 (dict_get d k) + w v.
Proof.
  unfold weight. induction d as [|[k0 v0] d IH]; simpl; [lia|].
  case_decide; simpl; [lia|]. rewrite IH. lia.
Qed.

Lemma total_attendance_fold_in (emails : emails_t) (r : parsed_row) :
  total_attendance (fold_in emails r) = total_attendance emails + p_mins r.
Proof.
  rewrite fold_in_eq. unfold total_attendance. simpl.
  rewrite !weight_dict_set. unfold folded_entry.
  destruct (dict_get emails (p_emailKey r)) as [rec|]; simpl.
  - destruct (dict_get rec (p_date r)) as [e|]; simpl; lia.
  - lia.
Qed.

Lemma total_attendance_foldl (rs : list parsed_row) (emails : emails_t) :
  total_attendance (foldl fold_in emails rs) = total_attendance emails + total_mins rs.
Proof.
  revert emails. induction rs as [|r rs IH]; intros emails; simpl; [lia|].
  rewrite IH, total_attendance_fold_in. lia.
Qed.

Lemma foldM_ext {S A} (f g : S → A → result S) s l :
  (∀ s a, f s a = g s a) → foldM f s l = foldM g s l.
Proof.
  intros Hfg. revert s. induction l as [|a l IH]; intros s; [done|].
  rewrite !foldM_cons, Hfg. destruct (g s a); simpl; [apply IH | done].
Qed.

Lemma lower_ascii_not_upper c :
  ((65 <=? Ascii.N_of_ascii (Str.lower_ascii c))
   && (Ascii.N_of_ascii (Str.lower_ascii c) <=? 90))%N = false.
Proof. by destruct c as [[] [] [] [] [] [] [] []]. Qed.

Lemma has_upper_lower s : has_upper (Str.lower s) = false.
Proof.
  induction s as [|c s IH]; [done|]. simpl.
  by rewrite lower_ascii_not_upper, IH.
Qed.

Section AggregatorFacts.
Variable emailMapping : gmap string string.
Variable warningThreshold : Z.
Variable py_int : string → option Z.
Variable strptime : string → option datetime.

Local Abbreviation load := (load_directory emailMapping py_int strptime).
Local Abbreviation data_rows := (data_rows emailMapping py_int strptime).

(** X5: no minute is lost or counted twice: the minutes of all entries of
    a loaded directory add up to the minutes of all data rows of its
    files. *)
Theorem minutes_conserved files emails :
  load files = Ok emails →
  total_attendance emails = total_mins (data_rows files).
Proof.
  intros [_ ->]%load_directory_Ok. by rewrite total_attendance_foldl.
Qed.

(** X6: the alias table is looked up with the lowercased email only, so
    an entry whose key holds a capital letter never applies: the script
    computes the same [emails] and the same reports without it. *)
Theorem capital_alias_is_dead alias files :
  has_upper alias = true →
  load files
    = load_directory (delete alias emailMapping) py_int strptime files ∧
  process_directory emailMapping warningThreshold py_int strptime files
    = process_directory (delete alias emailMapping) warningThreshold py_int strptime
        files.
Proof.
  intros Hup.
  assert (∀ row, parse_row emailMapping py_int strptime row
                 = parse_row (delete alias emailMapping) py_int strptime row) as Hrow.
  { intros row. unfold parse_row.
    destruct (index row 0) as [c0|]; simpl; [|done].
    destruct (Str.endswith c0 _); [done|].
    destruct (index row 1) as [c1|]; simpl; [|done].
    assert (emailKey_of emailMapping (Str.lower c1)
            = emailKey_of (delete alias emailMapping) (Str.lower c1)) as ->; [|done].
    unfold emailKey_of. rewrite lookup_delete_ne; [done|].
    intros ->. by rewrite has_upper_lower in Hup. }
  assert (load_directory emailMapping py_int strptime files
          = load_directory (delete alias emailMapping) py_int strptime files) as Hload.
  { unfold load_directory. apply foldM_ext. intros emails f.
    unfold process_file. destruct (peek f); simpl; [|done].
    apply foldM_ext. intros emails' row. unfold process_row. by rewrite Hrow. }
  split; [done|]. unfold process_directory. by rewrite Hload.
Qed.

(** X7: files added to a directory never take an entry away nor change
    its name, email or start stamp: an entry of the directory without
    them is still there, with the minutes of the added rows that resolve
    to its key and date added to it. *)
Theorem more_files_only_add files more emails :
  load (files ++ more) = Ok emails →
  ∃ emails1,
    load files = Ok emails1 ∧
    ∀ k d e, lookup2 emails1 k d = Some e →
      lookup2 emails k d
        = Some (add_mins e (total_mins (resolving k d (data_rows more)))).
Proof.
  intros [Hok ->]%load_directory_Ok.
  rewrite forallb_app in Hok. apply andb_prop in Hok as [Hok1 Hok2].
  exists (foldl fold_in [] (data_rows files)). split.
  - by apply load_directory_Ok.
  - intros k d e He. unfold data_rows.
    rewrite concat_app, omap_app, foldl_app, lookup2_foldl.
    fold (data_rows files). by rewrite He.
Qed.
End AggregatorFacts.

Lemma minutes_conserved_witness :
  total_attendance
    [("x@student.gla.ac.uk",
      [(Date 2020 10 1,
        Entry "A Student" "x@student.gla.ac.uk" "01/10/2020 09:00:00 AM" 25)])]
  = total_mins (data_rows ∅ Zoom.int Zoom.strptime [Ex.file_a; Ex.file_b]).
Proof.
  apply (minutes_conserved ∅ Zoom.int Zoom.strptime [Ex.file_a; Ex.file_b]).
  vm_compute; reflexivity.
Defined.

Lemma capital_alias_is_dead_witness :
  load_directory (<["A@personal.com" := "1a@student.gla.ac.uk"]> ∅)
                 Zoom.int Zoom.strptime [Ex.file_alias]
    = load_directory (delete "A@personal.com"
                        (<["A@personal.com" := "1a@student.gla.ac.uk"]> ∅))
                     Zoom.int Zoom.strptime [Ex.file_alias] ∧
  process_directory (<["A@personal.com" := "1a@student.gla.ac.uk"]> ∅)
                    0 Zoom.int Zoom.strptime [Ex.file_alias]
    = process_directory (delete "A@personal.com"
                           (<["A@personal.com" := "1a@student.gla.ac.uk"]> ∅))
                        0 Zoom.int Zoom.strptime [Ex.file_alias].
Proof.
  apply (capital_alias_is_dead (<["A@personal.com" := "1a@student.gla.ac.uk"]> ∅)
           0 Zoom.int Zoom.strptime "A@personal.com" [Ex.file_alias]).
  vm_compute; reflexivity.
Defined.

Lemma more_files_only_add_witness :
  ∃ emails1,
    load_directory ∅ Zoom.int Zoom.strptime [Ex.file_a] = Ok emails1 ∧
    ∀ k d e, lookup2 emails1 k d = Some e →
      lookup2 [("x@student.gla.ac.uk",
                [(Date 2020 10 1,
                  Entry "A Student" "x@student.gla.ac.uk"
                        "01/10/2020 09:00:00 AM" 25)])] k d
        = Some (add_mins e
                  (total_mins
                     (resolving k d (data_rows ∅ Zoom.int Zoom.strptime [Ex.file_b])))).
Proof.
  apply (more_files_only_add ∅ Zoom.int Zoom.strptime [Ex.file_a] [Ex.file_b]).
  vm_compute; reflexivity.
Defined.

(** ** Order of the rows *)

Lemma string_compare_trans a b c :
  String.compare a b ≠ Gt → String.compare b c ≠ Gt → String.compare a c ≠ Gt.
Proof.
  revert b c. induction a as [|x a IH]; intros [|y b] [|z c]; simpl; try done.
  unfold Ascii.compare.
  destruct (N.compare_spec (N_of_ascii x) (N_of_ascii y)) as [Hxy|Hxy|Hxy];
    destruct (N.compare_spec (N_of_ascii y) (N_of_ascii z)) as [Hyz|Hyz|Hyz];
    destruct (N.compare_spec (N_of_ascii x) (N_of_ascii z)) as [Hxz|Hxz|Hxz];
    try done; try lia.
  apply IH.
Qed.

Lemma string_leb_trans a b c :
  String.leb a b = true → String.leb b c = true → String.leb a c = true.
Proof.
  unfold String.leb. intros Hab Hbc.
  pose proof (string_compare_trans a b c) as Htrans.
  destruct (String.compare a b), (String.compare b c), (String.compare a c);
    try done; exfalso; by apply Htrans.
Qed.

Lemma string_leb_ne_ltb a b : String.leb a b = true → a ≠ b → String.ltb a b = true.
Proof.
  unfold String.leb, String.ltb. intros Hab Hne.
  destruct (String.compare a b) eqn:Hc; try done.
  by apply String.compare_eq_iff in Hc.
Qed.

Section StrictOrder.
Context {A : Type} (leb : A → A → bool) (lt : A → A → Prop).
Hypothesis leb_total : ∀ a b, leb a b = true ∨ leb b a = true.
Hypothesis leb_trans : ∀ a b c, leb a b = true → leb b c = true → leb a c = true.
Hypothesis leb_ne_lt : ∀ a b, leb a b = true → a ≠ b → lt a b.

(** [sorted] puts a list without repetition in strictly ascending order. *)
Lemma sorted_strictly (l : list A) : NoDup l → StronglySorted lt (sorted leb l).
Proof.
  intros Hnd%(NoDup_sorted leb).
  pose proof (sorted_ascending leb leb_total leb_trans l) as Hs.
  induction Hs as [|a l' Hs IH Ha]; [constructor|].
  apply NoDup_cons in Hnd as [Hnotin Hnd].
  constructor; [by apply IH|].
  apply Forall_forall. intros b Hb. apply leb_ne_lt.
  - by apply (proj1 (Forall_forall _ _) Ha).
  - by intros ->.
Qed.
End StrictOrder.

Lemma StronglySorted_filter_keep {A} (R : A → A → Prop) (P : A → Prop)
    `{∀ x, Decision (P x)} (l : list A) :
  StronglySorted R l → StronglySorted R (filter P l).
Proof.
  induction 1 as [|a l Hl IH Ha]; [constructor|].
  rewrite filter_cons. case_decide; [|done].
  constructor; [done|].
  apply Forall_forall. intros b [_ Hb]%list_elem_of_filter.
  by apply (proj1 (Forall_forall _ _) Ha).
Qed.

Lemma keys_filter_fst {K V} (P : K → Prop) `{Hdec : ∀ k, Decision (P k)}
    (d : dict K V) :
  keys (filter (λ p, P p.1) d) = filter P (keys d).
Proof.
  unfold keys. induction d as [|[k v] d IH]; [done|].
  rewrite filter_cons. csimpl. rewrite filter_cons. simpl.
  case_decide; csimpl; by rewrite IH.
Qed.

(** The keys of the participants that the reports show: the keys that are
    not staff, in strictly ascending order. *)
Lemma keys_included (emails : emails_t) :
  NoDup (keys emails) →
  StronglySorted (λ a b, String.ltb a b = true) (keys (included emails)) ∧
  ∀ k, k ∈ keys (included emails) ↔ k ∈ keys emails ∧ StaffEmail k = false.
Proof.
  intros Hnd.
  assert (keys (included emails)
          = filter (λ k, StaffEmail k = false) (sorted String.leb (keys emails))) as ->.
  { rewrite <- keys_items_sorted.
    exact (keys_filter_fst (λ k, StaffEmail k = false)
             (Hdec := λ k, decide (StaffEmail k = false)) _). }
  split.
  - apply StronglySorted_filter_keep.
    apply (sorted_strictly String.leb _ String.leb_total string_leb_trans
             string_leb_ne_ltb). done.
  - intros k. by rewrite list_elem_of_filter, elem_of_sorted, (comm and).
Qed.

Section ReportShape.
Variable emailMapping : gmap string string.
Variable warningThreshold : Z.
Variable py_int : string → option Z.
Variable strptime : string → option datetime.

Local Abbreviation load := (load_directory emailMapping py_int strptime).
Local Abbreviation process :=
  (process_directory emailMapping warningThreshold py_int strptime).

(** X8: the report loops cannot raise: a directory that loads gets its
    three reports, and a directory that does not load ends with the
    exception of the loader. *)
Theorem reports_never_raise files :
  (∀ e, load files = Raise e → process files = Raise e) ∧
  (∀ emails, load files = Ok emails →
     ∃ out, process files = Ok out ∧
            chronological warningThreshold emails
              = Ok (meeting_report out, low_attendance out) ∧
            date_pivot emails = Ok (meeting_report_by_date out) ∧
            week_pivot emails = Ok (meeting_report_by_week out)).
Proof.
  rewrite process_directory_eq. split.
  - by intros e ->.
  - intros emails Hl. rewrite Hl. eexists. split; [done|].
    apply (reports_eq emailMapping). by eapply wf_load_directory.
Qed.

(** X9: each pivot table has, after its header, one row per participant
    that is not staff, in strictly ascending order of the identity key,
    which is the second cell of the row; both tables list the same
    participants. *)
Theorem pivot_rows_by_key files emails out :
  load files = Ok emails → process files = Ok out →
  ∃ ks,
    (λ row, row !! 1%nat) <$> tail (meeting_report_by_date out)
      = (λ k, Some (CStr k)) <$> ks ∧
    (λ row, row !! 1%nat) <$> tail (meeting_report_by_week out)
      = (λ k, Some (CStr k)) <$> ks ∧
    StronglySorted (λ a b, String.ltb a b = true) ks ∧
    ∀ k, k ∈ ks ↔ k ∈ keys emails ∧ StaffEmail k = false.
Proof.
  intros Hl (emails' & Hl' & ->)%process_directory_Ok.
  assert (emails' = emails) as -> by congruence.
  pose proof (wf_load_directory _ _ _ _ _ Hl) as [Hnd _].
  destruct (keys_included emails Hnd) as [Hsorted Hin].
  exists (keys (included emails)). split_and!; [| |done..].
  - simpl. unfold keys. rewrite <- !list_fmap_compose. by apply list_fmap_ext.
  - simpl. unfold keys. rewrite <- !list_fmap_compose. by apply list_fmap_ext.
Qed.

(** X10: the chronological report lists the participants that are not
    staff in strictly ascending order of the identity key and, for each,
    one row per attended date in strictly ascending date order, the row
    being the entry of that key and date. *)
Theorem chronological_order files emails out :
  load files = Ok emails → process files = Ok out →
  ∃ plan : list (string * list date),
    meeting_report out
      = concat ((λ p : string * list date,
                   omap (λ d, entry_row <$> lookup2 emails p.1 d) p.2) <$> plan) ∧
    StronglySorted (λ a b, String.ltb a b = true) plan.*1 ∧
    (∀ k, k ∈ plan.*1 ↔ k ∈ keys emails ∧ StaffEmail k = false) ∧
    ∀ k ds, (k, ds) ∈ plan →
      StronglySorted Cal.lt ds ∧ ∀ d, d ∈ ds ↔ is_Some (lookup2 emails k d).
Proof.
  intros Hl (emails' & Hl' & ->)%process_directory_Ok.
  assert (emails' = emails) as -> by congruence.
  pose proof (wf_load_directory _ _ _ _ _ Hl) as Hwf.
  destruct (keys_included emails (proj1 Hwf)) as [Hsorted Hin].
  exists ((λ p, (p.1, sorted Cal.leb (keys p.2))) <$> included emails).
  assert (((λ p : string * dict date DailyAttendance,
              (p.1, sorted Cal.leb (keys p.2))) <$> included emails).*1
          = keys (included emails)) as Hkeys.
  { unfold keys. rewrite <- list_fmap_compose. by apply list_fmap_ext. }
  rewrite Hkeys. split_and!; [|done|done|].
  - simpl. f_equal. rewrite <- list_fmap_compose.
    apply list_fmap_ext. intros _ [k rec] Hp%list_elem_of_lookup_2.
    apply elem_of_included in Hp as [_ Hrec].
    unfold chrono_rows, items_sorted. simpl.
    rewrite <- list_fmap_compose, list_fmap_omap.
    apply list_omap_ext, Forall2_same_length_lookup_2; [done|].
    intros i d d' Hd Hd'. assert (d' = d) as -> by congruence.
    unfold lookup2. rewrite Hrec. simpl. by destruct (dict_get rec d).
  - intros k ds ([k' rec] & [= -> ->] & Hp)%list_elem_of_fmap.
    apply elem_of_included in Hp as [_ Hrec]. simpl.
    destruct (wf_lookup _ _ _ _ Hwf Hrec) as (Hnd & _ & _). split.
    + by apply CalFacts.sorted_strict.
    + intros d. rewrite elem_of_sorted, <- dict_get_is_Some.
      unfold lookup2. by rewrite Hrec.
Qed.
End ReportShape.

(** ** Cells and columns of the pivot tables *)

Section PivotShape.
Variable emailMapping : gmap string string.
Variable warningThreshold : Z.
Variable py_int : string → option Z.
Variable strptime : string → option datetime.

Local Abbreviation load := (load_directory emailMapping py_int strptime).
Local Abbreviation process :=
  (process_directory emailMapping warningThreshold py_int strptime).

(** X11: the tables are rectangular: every row of the chronological
    report has four cells, and every row of a pivot table has as many
    cells as the header of that table. *)
Theorem tables_rectangular files out :
  process files = Ok out →
  Forall (λ row, length row = 4%nat) (meeting_report out) ∧
  (∃ header, meeting_report_by_date out !! 0%nat = Some header ∧
     Forall (λ row, length row = length header) (meeting_report_by_date out)) ∧
  (∃ header, meeting_report_by_week out !! 0%nat = Some header ∧
     Forall (λ row, length row = length header) (meeting_report_by_week out)).
Proof.
  intros (emails & Hl & ->)%process_directory_Ok. split_and!.
  - apply Forall_forall.
    by intros row (k & d & e & _ & _ & ->)%elem_of_meeting_report.
  - eexists. split; [done|]. simpl. constructor; [done|].
    apply Forall_forall. intros row ([k rec] & -> & _)%list_elem_of_fmap.
    unfold pivot_row, date_header, date_cells. cbn [length app].
    by rewrite !length_fmap.
  - eexists. split; [done|]. simpl. constructor; [done|].
    apply Forall_forall. intros row ([k rec] & -> & _)%list_elem_of_fmap.
    unfold pivot_row, week_header, week_cells. cbn [length app].
    rewrite !length_fmap, length_items_sorted, length_sorted.
    unfold keys. by rewrite length_fmap.
Qed.

(** X12: in the date-pivot report the row of a participant that is not
    staff holds, under each date column, the minutes of the
    participant's entry for that date, also when they are 0, and the
    empty string when there is no entry; every date the participant
    attended has a column. *)
Theorem date_pivot_cells files emails out :
  load files = Ok emails → process files = Ok out →
  ∃ cols,
    meeting_report_by_date out !! 0%nat
      = Some ([CStr "Name"; CStr "Email"] ++ (CDate <$> cols)) ∧
    ∀ k studentRecord,
      dict_get emails k = Some studentRecord → StaffEmail k = false →
      [CStr (name_of studentRecord); CStr k]
        ++ ((λ d, match dict_get studentRecord d with
                  | Some e => CInt (e_mins e)
                  | None => CStr ""
                  end) <$> cols)
        ∈ meeting_report_by_date out ∧
      ∀ d, d ∈ keys studentRecord → d ∈ cols.
Proof.
  intros Hl (emails' & Hl' & ->)%process_directory_Ok.
  assert (emails' = emails) as -> by congruence.
  destruct (dateCatalogue_keys emails) as [_ Hin].
  exists (sorted Cal.leb (keys (dateCatalogue emails))). split; [done|].
  intros k rec Hrec Hk. split.
  - simpl. apply list_elem_of_further, elem_of_pivot_rows. by exists k, rec.
  - intros d Hd. rewrite elem_of_sorted, Hin. eauto.
Qed.
End PivotShape.

(** ** The week catalogue *)

Section Catalogue2.
Context {D K V : Type} `{EqDecision K} (key : D → K) (value : D → V).

(** A loop that enters, for each item, its key with its value unless the
    key is there already. *)
Lemma catalogue_first_seen (xs : list D) (cat : dict K V) :
  NoDup (keys cat) →
  let cat' := foldl (λ cat x, if dict_mem cat (key x) then cat
                              else dict_set cat (key x) (value x)) cat xs in
  NoDup (keys cat') ∧
  (∀ k, k ∈ keys cat' ↔ k ∈ keys cat ∨ ∃ x, x ∈ xs ∧ key x = k) ∧
  (∀ k v, dict_get cat' k = Some v →
     dict_get cat k = Some v ∨ ∃ x, x ∈ xs ∧ key x = k ∧ value x = v).
Proof.
  revert cat. induction xs as [|x xs IH]; intros cat Hnd; simpl.
  - split_and!; [done| |by eauto].
    intros k. split; [by eauto|]. by intros [?|(x & ?%elem_of_nil & _)].
  - destruct (dict_mem cat (key x)) eqn:Hm.
    + destruct (IH cat Hnd) as (Hnd' & Hin & Hval). split_and!; [done| |].
      * intros k. rewrite Hin. apply dict_mem_true in Hm. split.
        -- intros [?|(x' & ? & ?)]; [by left|right].
           exists x'. split; [by apply list_elem_of_further|done].
        -- intros [?|(x' & [->|?]%elem_of_cons & ?)];
             [by left | left; by subst | right; eauto].
      * intros k v [?|(x' & ? & ? & ?)]%Hval; [by left|right].
        exists x'. split; [by apply list_elem_of_further|done].
    + destruct (IH (dict_set cat (key x) (value x))) as (Hnd' & Hin & Hval);
        [by apply NoDup_keys_set|].
      split_and!; [done| |].
      * intros k. rewrite Hin, elem_of_keys_set. split.
        -- intros [[->|?]|(x' & ? & ?)];
             [right; exists x; split; [apply list_elem_of_here|done]
             | by left
             | right; exists x'; split; [by apply list_elem_of_further|done]].
        -- intros [?|(x' & [->|?]%elem_of_cons & ?)];
             [left; by right | left; left; by subst | right; eauto].
      * intros k v [Hg|(x' & ? & ? & ?)]%Hval.
        -- rewrite dict_get_set in Hg. case_decide; [|by left].
           simplify_eq. right. exists x. split; [apply list_elem_of_here|done].
        -- right. exists x'. split; [by apply list_elem_of_further|done].
Qed.
End Catalogue2.

Lemma weekCatalogue_spec (emails : emails_t) :
  NoDup (keys (weekCatalogue emails)) ∧
  (∀ w, w ∈ keys (weekCatalogue emails) ↔
        ∃ k studentRecord d,
          dict_get emails k = Some studentRecord ∧ d ∈ keys studentRecord ∧
          Cal.iso_week d = w) ∧
  (∀ w monday, dict_get (weekCatalogue emails) w = Some monday →
        ∃ k studentRecord d,
          dict_get emails k = Some studentRecord ∧ d ∈ keys studentRecord ∧
          Cal.iso_week d = w ∧
          monday = date_from_isoweek (Cal.iso_year d) (Cal.iso_week d) 1).
Proof.
  unfold weekCatalogue.
  assert (∀ (items : emails_t) (cat : dict Z date),
            NoDup (keys cat) →
            let cat' :=
              foldl (fun cat '(email, entry) =>
                       foldl (fun cat date =>
                                let week := (Cal.isocalendar date).1.2 in
                                if dict_mem cat week then cat
                                else
                                  let weekStart :=
                                    date_from_isoweek (Cal.isocalendar date).1.1
                                                      (Cal.isocalendar date).1.2 1 in
                                  dict_set cat week weekStart)
                             cat (keys entry)) cat items in
            NoDup (keys cat') ∧
            (∀ w, w ∈ keys cat' ↔
                  w ∈ keys cat ∨ ∃ p d, p ∈ items ∧ d ∈ keys p.2 ∧ Cal.iso_week d = w) ∧
            (∀ w v, dict_get cat' w = Some v →
                  dict_get cat w = Some v ∨
                  ∃ p d, p ∈ items ∧ d ∈ keys p.2 ∧ Cal.iso_week d = w ∧
                         v = date_from_isoweek (Cal.iso_year d) (Cal.iso_week d) 1))
    as Hloop.
  { induction items as [|[k rec] items IH]; intros cat Hnd; simpl.
    - split_and!; [done| |by eauto].
      intros w. split; [by eauto|]. by intros [?|(p & d & ?%elem_of_nil & _)].
    - destruct (catalogue_first_seen Cal.iso_week
                  (λ d, date_from_isoweek (Cal.iso_year d) (Cal.iso_week d) 1)
                  (keys rec) cat Hnd) as (Hnd1 & Hin1 & Hval1).
      destruct (IH _ Hnd1) as (Hnd2 & Hin2 & Hval2). split_and!; [done| |].
      + intros w. rewrite Hin2, Hin1. split.
        * intros [[?|(d & ? & ?)]|(p & d & ? & ? & ?)]; [by left|right..].
          -- exists (k, rec), d. split_and!; [apply list_elem_of_here|done..].
          -- exists p, d. split_and!; [by apply list_elem_of_further|done..].
        * intros [?|(p & d & [->|?]%elem_of_cons & ? & ?)];
            [left; by left | left; right; eauto | right; eauto].
      + intros w v [[?|(d & ? & ? & ?)]%Hval1|(p & d & ? & ? & ? & ?)]%Hval2;
          [by left|right..].
        * exists (k, rec), d. split_and!; [apply list_elem_of_here|done..].
        * exists p, d. split_and!; [by apply list_elem_of_further|done..]. }
  destruct (Hloop (items_sorted String.leb emails) []) as (Hnd & Hin & Hval);
    [constructor|].
  split_and!; [done| |].
  - intros w. rewrite Hin. split.
    + intros [?%elem_of_nil|([k rec] & d & Hp%elem_of_items_sorted & ? & ?)];
        [done|eauto 10].
    + intros (k & rec & d & Hrec & ? & ?). right. exists (k, rec), d.
      split_and!; [by apply elem_of_items_sorted|done..].
  - intros w v [?|([k rec] & d & Hp%elem_of_items_sorted & ? & ? & ?)]%Hval;
      [done|eauto 10].
Qed.

(** ** The Monday of an ISO week *)

Module IsoFacts.

Ltac zlia := Z.div_mod_to_equations; lia.

Lemma days_before_next_year y :
  Cal.days_before_year (y + 1)
    = Cal.days_before_year y + 365 + (if Cal.is_leap y then 1 else 0).
Proof.
  unfold Cal.days_before_year, Cal.is_leap.
  replace (y + 1 - 1) with y by lia.
  destruct (Z.eqb_spec (y mod 4) 0), (Z.eqb_spec (y mod 100) 0),
    (Z.eqb_spec (y mod 400) 0); simpl; zlia.
Qed.

(** The first Monday of an ISO year is a Monday, at most three days
    before and three days after 1 January. *)
Lemma isoweek1monday_spec y :
  (Cal.isoweek1monday y + 6) mod 7 = 0 ∧
  Cal.ymd2ord y 1 1 - 3 ≤ Cal.isoweek1monday y ≤ Cal.ymd2ord y 1 1 + 3.
Proof.
  unfold Cal.isoweek1monday.
  destruct (Z.ltb_spec 3 ((Cal.ymd2ord y 1 1 + 6) mod 7)); zlia.
Qed.

(** A valid date lies within its calendar year. *)
Lemma toordinal_in_year d :
  valid_date d →
  Cal.ymd2ord (year d) 1 1 ≤ Cal.toordinal d < Cal.ymd2ord (year d + 1) 1 1.
Proof.
  destruct d as [y m dd]. unfold valid_date, Cal.toordinal. simpl.
  intros (_ & Hm & Hd).
  unfold Cal.ymd2ord. rewrite days_before_next_year.
  unfold Zoom.days_in_month, Cal.days_before_month in *.
  assert (m = 1 ∨ m = 2 ∨ m = 3 ∨ m = 4 ∨ m = 5 ∨ m = 6 ∨ m = 7 ∨ m = 8 ∨
          m = 9 ∨ m = 10 ∨ m = 11 ∨ m = 12) as Hcases by lia.
  destruct (Cal.is_leap y);
    repeat (destruct Hcases as [->|Hcases]); try subst m; simpl in *; lia.
Qed.

(** The three numbers of [isocalendar] locate the date: day [weekday] of
    week [week] counted from the first Monday of the ISO year. *)
Lemma isocalendar_locates d :
  valid_date d →
  Cal.isoweek1monday (Cal.iso_year d) + 7 * (Cal.iso_week d - 1)
    + ((Cal.isocalendar d).2 - 1) = Cal.toordinal d ∧
  (Cal.isocalendar d).2 = Cal.isoweekday d.
Proof.
  intros Hd. pose proof (toordinal_in_year d Hd) as Hin.
  pose proof (isoweek1monday_spec (year d)) as [Hm0 Hb0].
  pose proof (isoweek1monday_spec (year d - 1)) as [Hm1 Hb1].
  pose proof (isoweek1monday_spec (year d + 1)) as [Hm2 Hb2].
  unfold Cal.iso_year, Cal.iso_week, Cal.isocalendar, Cal.isoweekday.
  set (t := Cal.toordinal d) in *.
  set (a := Cal.isoweek1monday (year d)) in *.
  set (b := Cal.isoweek1monday (year d - 1)) in *.
  set (c := Cal.isoweek1monday (year d + 1)) in *.
  destruct (Z.ltb_spec ((t - a) / 7) 0); simpl; [zlia|].
  destruct (Z.leb_spec 52 ((t - a) / 7)); simpl; [|zlia].
  destruct (Z.leb_spec c t); simpl; zlia.
Qed.

Lemma date_from_isoweek_ordinal y w wd :
  date_from_isoweek y w wd
    = Cal.ord2ymd (Cal.isoweek1monday y + 7 * (w - 1) + (wd - 1)).
Proof.
  unfold date_from_isoweek. f_equal.
  unfold Cal.isoweek1monday, Cal.isoweekday, Cal.toordinal. simpl.
  assert (Cal.ymd2ord y 1 4 = Cal.ymd2ord y 1 1 + 3) as ->
    by (unfold Cal.ymd2ord; lia).
  destruct (Z.ltb_spec 3 ((Cal.ymd2ord y 1 1 + 6) mod 7)); zlia.
Qed.

Lemma year_digits y :
  1 ≤ y →
  ∃ a b c e,
    y - 1 = 400 * a + 100 * b + 4 * c + e ∧
    0 ≤ a ∧ 0 ≤ b < 4 ∧ 0 ≤ c < 25 ∧ 0 ≤ e < 4 ∧
    Cal.days_before_year y = 146097 * a + 36524 * b + 1461 * c + 365 * e ∧
    Cal.is_leap y = (e =? 3) && (negb (c =? 24) || (b =? 3)).
Proof.
  intros Hy.
  exists ((y - 1) / 400), ((y - 1) mod 400 / 100), ((y - 1) mod 400 mod 100 / 4),
    ((y - 1) mod 400 mod 100 mod 4).
  unfold Cal.days_before_year, Cal.is_leap.
  split_and!; try zlia.
Qed.

Lemma div_digit n q r b : 0 ≤ r < b → n = b * q + r → n / b = q ∧ n mod b = r.
Proof.
  intros Hr ->. split.
  - symmetry. by apply (Z.div_unique_pos _ _ _ r).
  - symmetry. by apply (Z.mod_unique_pos _ _ q r).
Qed.


Lemma month_day yr L (t m dd : Z) :
  1 ≤ m ≤ 12 →
  1 ≤ dd ≤ (if (m =? 2) && L then 29 else nth (Z.to_nat m) Cal.DAYS_IN_MONTH 0) →
  t = nth (Z.to_nat m) Cal.DAYS_BEFORE_MONTH 0 + (if (2 <? m) && L then 1 else 0) + dd - 1 →
  t < 365 →
  (let m0 := Z.shiftr (t + 50) 5 in
   let preceding :=
     nth (Z.to_nat m0) Cal.DAYS_BEFORE_MONTH 0 + (if (2 <? m0) && L then 1 else 0) in
   if t <? preceding then
     let m1 := m0 - 1 in
     let preceding :=
       preceding - (nth (Z.to_nat m1) Cal.DAYS_IN_MONTH 0
                    + (if (m1 =? 2) && L then 1 else 0)) in
     Date yr m1 (t - preceding + 1)
   else Date yr m0 (t - preceding + 1)) = Date yr m dd.
Proof.
  intros Hm Hd Ht Hlt.
  assert (m = 1 ∨ m = 2 ∨ m = 3 ∨ m = 4 ∨ m = 5 ∨ m = 6 ∨ m = 7 ∨ m = 8 ∨
          m = 9 ∨ m = 10 ∨ m = 11 ∨ m = 12) as Hcases by lia.
  rewrite Z.shiftr_div_pow2 by lia. change (2 ^ 5) with 32.
  destruct L; repeat (destruct Hcases as [->|Hcases]); try subst m; simpl in Hd, Ht;
    (assert ((t + 50) / 32 = 0 ∨ (t + 50) / 32 = 1 ∨ (t + 50) / 32 = 2 ∨ (t + 50) / 32 = 3 ∨ (t + 50) / 32 = 4 ∨ (t + 50) / 32 = 5 ∨ (t + 50) / 32 = 6 ∨ (t + 50) / 32 = 7 ∨ (t + 50) / 32 = 8 ∨ (t + 50) / 32 = 9 ∨ (t + 50) / 32 = 10 ∨ (t + 50) / 32 = 11 ∨ (t + 50) / 32 = 12) as Hq by zlia;
     repeat (destruct Hq as [Hq|Hq]); rewrite Hq; simpl;
     match goal with |- context [?a <? ?b] => destruct (Z.ltb_spec a b) end;
     simpl; first [ f_equal; zlia | exfalso; zlia ]).
Qed.

Lemma ord2ymd_digits n a b c e t :
  n - 1 = 146097 * a + 36524 * b + 1461 * c + 365 * e + t →
  0 ≤ b < 4 → 0 ≤ c < 25 → 0 ≤ e < 4 → 0 ≤ t < 365 →
  Cal.ord2ymd n =
    let yr := 400 * a + 100 * b + 4 * c + e + 1 in
    let L := (e =? 3) && (negb (c =? 24) || (b =? 3)) in
    let m0 := Z.shiftr (t + 50) 5 in
    let preceding :=
      nth (Z.to_nat m0) Cal.DAYS_BEFORE_MONTH 0 + (if (2 <? m0) && L then 1 else 0) in
    if t <? preceding then
      let m1 := m0 - 1 in
      let preceding :=
        preceding - (nth (Z.to_nat m1) Cal.DAYS_IN_MONTH 0
                     + (if (m1 =? 2) && L then 1 else 0)) in
      Date yr m1 (t - preceding + 1)
    else Date yr m0 (t - preceding + 1).
Proof.
  intros Hn Hb Hc He Ht. unfold Cal.ord2ymd. rewrite Hn. cbv zeta.
  destruct (div_digit (146097 * a + 36524 * b + 1461 * c + 365 * e + t) a
              (36524 * b + 1461 * c + 365 * e + t) 146097) as [-> ->]; [lia..|].
  destruct (div_digit (36524 * b + 1461 * c + 365 * e + t) b
              (1461 * c + 365 * e + t) 36524) as [-> ->]; [lia..|].
  destruct (div_digit (1461 * c + 365 * e + t) c (365 * e + t) 1461) as [-> ->];
    [lia..|].
  destruct (div_digit (365 * e + t) e t 365) as [-> ->]; [lia..|].
  assert ((e =? 4) || (b =? 4) = false) as -> by lia.
  replace (a * 400 + 1 + b * 100 + c * 4 + e) with (400 * a + 100 * b + 4 * c + e + 1)
    by lia.
  done.
Qed.

Lemma ord2ymd_last_day n a b c :
  n - 1 = 146097 * a + 36524 * b + 1461 * c + 1460 →
  0 ≤ b < 4 → 0 ≤ c < 25 → (c = 24 → b = 3) →
  Cal.ord2ymd n = Date (400 * a + 100 * b + 4 * c + 4) 12 31.
Proof.
  intros Hn Hb Hc Hleap. unfold Cal.ord2ymd. rewrite Hn. cbv zeta.
  destruct (decide (c = 24)) as [->|Hc24].
  - rewrite (Hleap eq_refl).
    destruct (div_digit (146097 * a + 36524 * 3 + 1461 * 24 + 1460) a 146096 146097)
      as [-> ->]; [lia..|].
    change (146096 / 36524) with 4. change (146096 mod 36524) with 0.
    change (4 =? 4) with true. rewrite orb_true_r. f_equal. zlia.
  - destruct (div_digit (146097 * a + 36524 * b + 1461 * c + 1460) a
                (36524 * b + 1461 * c + 1460) 146097) as [-> ->]; [lia..|].
    destruct (div_digit (36524 * b + 1461 * c + 1460) b (1461 * c + 1460) 36524)
      as [-> ->]; [lia..|].
    destruct (div_digit (1461 * c + 1460) c 1460 1461) as [-> ->]; [lia..|].
    change (1460 / 365) with 4. change (4 =? 4) with true. cbn [orb].
    f_equal. lia.
Qed.

Lemma ord2ymd_toordinal d : valid_date d → Cal.ord2ymd (Cal.toordinal d) = d.
Proof.
  intros Hd. pose proof (toordinal_in_year d Hd) as Hin.
  destruct d as [y m dd]. destruct Hd as (Hy & Hm & Hdd).
  unfold Cal.toordinal, Cal.ymd2ord in *. cbn [year month day] in *.
  rewrite days_before_next_year in Hin.
  destruct (year_digits y) as (a & b & c & e & HY & Ha & Hb & Hc & He & Hdby & Hleap);
    [lia|].
  unfold Cal.days_before_month in *. unfold Zoom.days_in_month in Hdd.
  rewrite Hleap in *. rewrite Hdby in *.
  set (L := (e =? 3) && (negb (c =? 24) || (b =? 3))) in *.
  change (nth (Z.to_nat 1) Cal.DAYS_BEFORE_MONTH 0) with 0 in Hin.
  change (2 <? 1) with false in Hin. cbn [andb] in Hin.
  set (t := nth (Z.to_nat m) Cal.DAYS_BEFORE_MONTH 0
            + (if (2 <? m) && L then 1 else 0) + dd - 1).
  assert (0 ≤ t < 365 + (if L then 1 else 0)) as Ht by (subst t; lia).
  destruct (decide (t = 365)) as [Ht365|Ht365].
  - assert (L = true) as HL by (destruct L; [done | lia]).
    assert (e = 3 ∧ (c = 24 → b = 3)) as [-> Hcb] by (subst L; lia).
    assert (m = 12 ∧ dd = 31) as [-> ->].
    { assert (m = 1 ∨ m = 2 ∨ m = 3 ∨ m = 4 ∨ m = 5 ∨ m = 6 ∨ m = 7 ∨ m = 8 ∨
              m = 9 ∨ m = 10 ∨ m = 11 ∨ m = 12) as Hcases by lia.
      subst t. rewrite HL in *.
      repeat (destruct Hcases as [->|Hcases]); try subst m; simpl in *; lia. }
    rewrite (ord2ymd_last_day _ a b c); [f_equal; lia | | done..].
    clear Ht365 Ht. clearbody L. subst L. simpl. lia.
  - assert (0 ≤ t < 365) as Hlt by (clearbody t L; destruct L; lia).
    rewrite (ord2ymd_digits _ a b c e t); [| subst t; lia | done..].
    cbv zeta. fold L.
    replace (400 * a + 100 * b + 4 * c + e + 1) with y by lia.
    apply month_day; [done | done | done | lia].
Qed.

End IsoFacts.

(** X13: [date_from_isoweek] inverts [isocalendar]: for a date of the
    calendar, the date made from its ISO year, ISO week number and ISO
    weekday is the date itself. *)
Theorem date_from_isoweek_inverts d :
  valid_date d →
  date_from_isoweek (Cal.iso_year d) (Cal.iso_week d) (Cal.isocalendar d).2 = d.
Proof.
  intros Hd. destruct (IsoFacts.isocalendar_locates d Hd) as [Hloc _].
  rewrite IsoFacts.date_from_isoweek_ordinal, Hloc.
  by apply IsoFacts.ord2ymd_toordinal.
Qed.

(** X14: the date that heads a week column is the Monday of that week:
    for dates of the calendar, [date_from_isoweek] of the ISO year and
    week of a date and of weekday 1 is the date that lies
    [isoweekday - 1] days before it. *)
Theorem date_from_isoweek_monday d monday :
  valid_date d → valid_date monday →
  Cal.toordinal monday = Cal.toordinal d - (Cal.isoweekday d - 1) →
  date_from_isoweek (Cal.iso_year d) (Cal.iso_week d) 1 = monday ∧
  Cal.isoweekday monday = 1.
Proof.
  intros Hd Hm Hord.
  destruct (IsoFacts.isocalendar_locates d Hd) as [Hloc Hwd]. split.
  - rewrite IsoFacts.date_from_isoweek_ordinal.
    rewrite <- (IsoFacts.ord2ymd_toordinal monday Hm). f_equal. lia.
  - unfold Cal.isoweekday in *. IsoFacts.zlia.
Qed.

Section WeekColumns.
Variable emailMapping : gmap string string.
Variable warningThreshold : Z.
Variable py_int : string → option Z.
Variable strptime : string → option datetime.

Local Abbreviation load := (load_directory emailMapping py_int strptime).
Local Abbreviation process :=
  (process_directory emailMapping warningThreshold py_int strptime).

(** X15: the week-pivot report has one column per distinct ISO week
    number among the dates of all participants, staff included, in
    strictly ascending order of the week number (not of the date); the
    column is headed by [date_from_isoweek] of the ISO year and week of
    one of the dates with that week number. *)
Theorem week_pivot_columns files emails out :
  load files = Ok emails → process files = Ok out →
  ∃ weeks : dict Z date,
    meeting_report_by_week out !! 0%nat
      = Some ([CStr "Name"; CStr "Email"] ++ (CDate <$> values weeks)) ∧
    StronglySorted Z.lt (keys weeks) ∧
    (∀ w, w ∈ keys weeks ↔
          ∃ k studentRecord d,
            dict_get emails k = Some studentRecord ∧ d ∈ keys studentRecord ∧
            Cal.iso_week d = w) ∧
    (∀ w monday, (w, monday) ∈ weeks →
          ∃ k studentRecord d,
            dict_get emails k = Some studentRecord ∧ d ∈ keys studentRecord ∧
            Cal.iso_week d = w ∧
            monday = date_from_isoweek (Cal.iso_year d) (Cal.iso_week d) 1).
Proof.
  intros Hl (emails' & Hl' & ->)%process_directory_Ok.
  assert (emails' = emails) as -> by congruence.
  destruct (weekCatalogue_spec emails) as (Hnd & Hin & Hval).
  exists (items_sorted Z.leb (weekCatalogue emails)). split_and!; [done| | |].
  - rewrite keys_items_sorted.
    apply (sorted_strictly Z.leb Z.lt); [lia | lia | lia | done].
  - intros w. by rewrite keys_items_sorted, elem_of_sorted.
  - intros w monday Hw%elem_of_items_sorted. by apply Hval.
Qed.
End WeekColumns.

(** ** The hints about unmatched addresses *)

Lemma hints_loop (emails items : emails_t) (out : list Hints.message) :
  Forall (λ p, p.2 ≠ []) items →
  foldM (fun out '(email, entry) =>
           if negb (StaffEmail email) && negb (UniversityStudentEmail email) then
             firstEntry ← first_value entry;
             Ok (out ++ Hints.NotMatched (e_name firstEntry) (e_email firstEntry)
                          :: Hints.candidates emails firstEntry)
           else Ok out)
        out items
  = Ok (out ++ concat (hint_block emails
                         <$> filter (λ p, StaffEmail p.1 = false
                                          ∧ UniversityStudentEmail p.1 = false) items)).
Proof.
  intros Hne. revert out.
  induction Hne as [|[k rec] items Hrec _ IH]; intros out.
  - simpl. by rewrite app_nil_r.
  - rewrite foldM_cons, filter_cons. cbn [fst snd] in *.
    destruct rec as [|[d e] rec]; [done|].
    destruct (StaffEmail k) eqn:Hk, (UniversityStudentEmail k) eqn:Hu;
      cbn [negb andb mbind result_bind first_value values fmap list_fmap snd];
      try (rewrite decide_False by (intros [? ?]; congruence); apply IH).
    rewrite decide_True by done. rewrite IH. f_equal.
    rewrite fmap_cons. cbn [concat]. unfold hint_block at 2. cbn [snd].
    by rewrite <- !(assoc app).
Qed.

Lemma elem_of_unmatched (emails : emails_t) k studentRecord :
  (k, studentRecord) ∈ unmatched emails ↔
  (StaffEmail k = false ∧ UniversityStudentEmail k = false) ∧
  dict_get emails k = Some studentRecord.
Proof. unfold unmatched. by rewrite list_elem_of_filter, elem_of_items_sorted. Qed.

Lemma elem_of_matches firstEntry (studentRecord : dict date DailyAttendance) m :
  m ∈ Hints.matches firstEntry studentRecord →
  ∃ d thisEntry,
    (d, thisEntry) ∈ studentRecord ∧
    (m = Hints.MightMatch (e_name thisEntry) (e_email thisEntry) ∨
     m = Hints.AddTableRow (e_email firstEntry) (e_email thisEntry)).
Proof.
  unfold Hints.matches.
  destruct (find _ studentRecord) as [[d e]|] eqn:Hfind; [|by intros ?%elem_of_nil].
  apply find_some in Hfind as [Hin Hc]. apply list_elem_of_In in Hin.
  intros [->|[->|?%elem_of_nil]%elem_of_cons]%elem_of_cons; [| |done];
    exists d, e; eauto.
Qed.

Lemma elem_of_candidates (emails : emails_t) firstEntry m :
  m ∈ Hints.candidates emails firstEntry →
  ∃ email2 studentRecord d thisEntry,
    UniversityStudentEmail email2 = true ∧
    dict_get emails email2 = Some studentRecord ∧
    (d, thisEntry) ∈ studentRecord ∧
    (m = Hints.MightMatch (e_name thisEntry) (e_email thisEntry) ∨
     m = Hints.AddTableRow (e_email firstEntry) (e_email thisEntry)).
Proof.
  unfold Hints.candidates. intros (ms & Hm & Hms)%elem_of_concat.
  apply list_elem_of_fmap in Hms as ([email2 rec] & -> & Hp).
  apply elem_of_items_sorted in Hp.
  destruct (UniversityStudentEmail email2) eqn:Hu; [|by apply elem_of_nil in Hm].
  apply elem_of_matches in Hm as (d & e & ? & ?). by exists email2, rec, d, e.
Qed.

Lemma contains_empty s : Str.contains "" s = true.
Proof. by destruct s. Qed.

Lemma matches_blank firstEntry (studentRecord : dict date DailyAttendance) e2 :
  Hints.possibleSurname (e_name firstEntry) = "" →
  first_value studentRecord = Ok e2 →
  Hints.matches firstEntry studentRecord
    = [Hints.MightMatch (e_name e2) (e_email e2);
       Hints.AddTableRow (e_email firstEntry) (e_email e2)].
Proof.
  unfold Hints.matches. intros ->.
  destruct studentRecord as [|[d e] rec]; [done|]. intros [= ->]. simpl.
  by rewrite contains_empty.
Qed.

Lemma split_trailing sep s :
  ∃ part parts,
    Hints.split sep (s +:+ String sep "") = part :: (parts ++ [""]).
Proof.
  induction s as [|c s (part & parts & IH)]; simpl.
  - rewrite Ascii.eqb_refl. by exists "", [].
  - rewrite IH. destruct (Ascii.eqb c sep).
    + by exists "", (part :: parts).
    + by exists (String c part), parts.
Qed.

Lemma possibleSurname_blank name :
  name = "" ∨ (∃ s, name = s +:+ " ") → Hints.possibleSurname name = "".
Proof.
  intros [->|[s ->]]; [done|]. unfold Hints.possibleSurname.
  destruct (split_trailing " "%char s) as (part & parts & ->).
  change (part :: parts ++ [""]) with ((part :: parts) ++ [""]).
  by rewrite last_snoc.
Qed.

Section HintsFacts.
Variable emailMapping : gmap string string.
Variable py_int : string → option Z.
Variable strptime : string → option datetime.

Local Abbreviation load := (load_directory emailMapping py_int strptime).
Local Abbreviation emailKey_of := (emailKey_of emailMapping).

Lemma hints_eq emails :
  wf_emails emailMapping emails →
  Hints.hints emails = Ok (concat (hint_block emails <$> unmatched emails)).
Proof.
  intros Hwf. unfold Hints.hints. rewrite hints_loop; [done|].
  by eapply wf_items_nonempty.
Qed.

Lemma wf_entry_key emails k studentRecord d e :
  wf_emails emailMapping emails → dict_get emails k = Some studentRecord →
  (d, e) ∈ studentRecord → emailKey_of (e_email e) = k.
Proof.
  intros Hwf Hrec Hin.
  destruct (wf_lookup _ _ _ _ Hwf Hrec) as (_ & _ & Hkeys).
  by apply (proj1 (Forall_forall _ _) Hkeys (d, e)).
Qed.

(** X16: on a loaded directory the pass that prints the hints cannot
    raise.  It prints a note exactly for the participants whose key is
    neither a staff nor a university student address, with the name and
    email of the first entry of their record; and every table row it
    suggests pairs the email of such a participant with an email whose
    key is a university student address present in [emails]. *)
Theorem hints_about_unmatched files emails :
  load files = Ok emails →
  ∃ msgs,
    Hints.hints emails = Ok msgs ∧
    (∀ name email,
        Hints.NotMatched name email ∈ msgs ↔
        ∃ k studentRecord e,
          dict_get emails k = Some studentRecord ∧
          StaffEmail k = false ∧ UniversityStudentEmail k = false ∧
          first_value studentRecord = Ok e ∧ name = e_name e ∧ email = e_email e) ∧
    (∀ alternate canonical,
        Hints.AddTableRow alternate canonical ∈ msgs →
        emailKey_of alternate ∈ keys emails ∧
        StaffEmail (emailKey_of alternate) = false ∧
        UniversityStudentEmail (emailKey_of alternate) = false ∧
        emailKey_of canonical ∈ keys emails ∧
        UniversityStudentEmail (emailKey_of canonical) = true).
Proof.
  intros Hl. pose proof (wf_load_directory _ _ _ _ _ Hl) as Hwf.
  eexists. split; [by apply hints_eq|]. split.
  - intros name email. rewrite elem_of_concat. split.
    + intros (ms & Hm & Hms).
      apply list_elem_of_fmap in Hms as ([k rec] & -> & Hp).
      apply elem_of_unmatched in Hp as [[Hk Hu] Hrec].
      unfold hint_block in Hm. simpl in Hm.
      destruct rec as [|[d e] rec]; [by apply elem_of_nil in Hm|].
      apply elem_of_cons in Hm as [[= -> ->]|Hm].
      * by exists k, ((d, e) :: rec), e.
      * apply elem_of_candidates in Hm as (? & ? & ? & ? & _ & _ & _ & [?|?]); done.
    + intros (k & rec & e & Hrec & Hk & Hu & He & -> & ->).
      exists (hint_block emails (k, rec)). split.
      * unfold hint_block. simpl. destruct rec as [|[d e'] rec]; [done|].
        injection He as ->. apply list_elem_of_here.
      * apply list_elem_of_fmap. exists (k, rec). split; [done|].
        by apply elem_of_unmatched.
  - intros alternate canonical (ms & Hm & Hms)%elem_of_concat.
    apply list_elem_of_fmap in Hms as ([k rec] & -> & Hp).
    apply elem_of_unmatched in Hp as [[Hk Hu] Hrec].
    unfold hint_block in Hm. simpl in Hm.
    destruct rec as [|[d fe] rec]; [by apply elem_of_nil in Hm|].
    apply elem_of_cons in Hm as [?|Hm]; [done|].
    apply elem_of_candidates in Hm
      as (k2 & rec2 & d2 & e2 & Hu2 & Hrec2 & Hin2 & [?|[= -> ->]]); [done|].
    rewrite (wf_entry_key emails k _ d fe Hwf Hrec) by apply list_elem_of_here.
    rewrite (wf_entry_key emails k2 _ d2 e2 Hwf Hrec2 Hin2).
    split_and!; [|done|done| |done]; apply dict_get_is_Some; eauto.
Qed.

(** X17: a display name that is empty or ends with a space has the empty
    string as its surname, and the empty string is found in every name:
    for an unmatched participant with such a first name, the pass
    suggests the first entry of every university student record. *)
Theorem blank_surname_matches_all files emails msgs k studentRecord firstEntry :
  load files = Ok emails → Hints.hints emails = Ok msgs →
  dict_get emails k = Some studentRecord →
  StaffEmail k = false → UniversityStudentEmail k = false →
  first_value studentRecord = Ok firstEntry →
  (e_name firstEntry = "" ∨ ∃ s, e_name firstEntry = s +:+ " ") →
  ∀ k2 record2 e2,
    dict_get emails k2 = Some record2 → UniversityStudentEmail k2 = true →
    first_value record2 = Ok e2 →
    Hints.MightMatch (e_name e2) (e_email e2) ∈ msgs ∧
    Hints.AddTableRow (e_email firstEntry) (e_email e2) ∈ msgs.
Proof.
  intros Hl Hh Hrec Hk Hu Hfe Hname k2 rec2 e2 Hrec2 Hu2 He2.
  pose proof (wf_load_directory _ _ _ _ _ Hl) as Hwf.
  rewrite (hints_eq emails Hwf) in Hh. injection Hh as <-.
  assert (∀ m, m ∈ Hints.matches firstEntry rec2 →
               m ∈ concat (hint_block emails <$> unmatched emails)) as Hin.
  { intros m Hm. apply elem_of_concat.
    exists (hint_block emails (k, studentRecord)). split.
    - unfold hint_block. simpl.
      destruct studentRecord as [|[d e] rec]; [done|]. injection Hfe as ->.
      apply list_elem_of_further. unfold Hints.candidates.
      apply elem_of_concat. exists (Hints.matches firstEntry rec2). split; [done|].
      apply list_elem_of_fmap. exists (k2, rec2). rewrite Hu2. split; [done|].
      by apply elem_of_items_sorted.
    - apply list_elem_of_fmap. exists (k, studentRecord). split; [done|].
      by apply elem_of_unmatched. }
  rewrite (matches_blank firstEntry rec2 e2) in Hin
    by (done || by apply possibleSurname_blank).
  split; apply Hin.
  - apply list_elem_of_here.
  - apply list_elem_of_further, list_elem_of_here.
Qed.
End HintsFacts.

(** ** Staff and student addresses *)

Lemma prefix_append sub rest : String.prefix sub (sub +:+ rest) = true.
Proof.
  induction sub as [|c sub IH]; simpl; [by destruct rest|].
  by destruct (ascii_dec c c).
Qed.

Lemma contains_eq sub s :
  Str.contains sub s =
    if String.prefix sub s then true
    else match s with
         | EmptyString => false
         | String _ s' => Str.contains sub s'
         end.
Proof. by destruct s. Qed.

Lemma contains_append sub before after :
  Str.contains sub (before +:+ sub +:+ after) = true.
Proof.
  induction before as [|c before IH].
  - change ("" +:+ sub +:+ after) with (sub +:+ after).
    by rewrite contains_eq, prefix_append.
  - change (String c before +:+ sub +:+ after)
      with (String c (before +:+ sub +:+ after)).
    rewrite contains_eq, IH. by destruct (String.prefix sub _).
Qed.

Lemma contains_skip_local sub local rest :
  Str.contains "@" local = false →
  Str.contains (String "@" sub) (local +:+ rest) = Str.contains (String "@" sub) rest.
Proof.
  induction local as [|c local IH]; intros Hlocal.
  - by change ("" +:+ rest) with rest.
  - change (String c local +:+ rest) with (String c (local +:+ rest)).
    rewrite contains_eq in Hlocal. rewrite contains_eq.
    cbn [String.prefix] in *.
    destruct (ascii_dec "@" c) as [<-|Hc].
    + by destruct local.
    + by apply IH.
Qed.

(** X18: an address made of a local part without "@" followed by
    "@student.gla.ac.uk" is a university student address and is not
    staff: it is never left out of the reports. *)
Theorem student_address_not_staff local :
  Str.contains "@" local = false →
  UniversityStudentEmail (local +:+ "@student.gla.ac.uk") = true ∧
  StaffEmail (local +:+ "@student.gla.ac.uk") = false.
Proof.
  intros Hlocal. unfold UniversityStudentEmail, StaffEmail.
  by rewrite !contains_skip_local.
Qed.

(** X19: an address that holds one of the four staff domains is staff
    wherever the domain stands in it, not only at its end. *)
Theorem staff_domain_anywhere before after :
  StaffEmail (before +:+ "@glasgow.ac.uk" +:+ after) = true ∧
  StaffEmail (before +:+ "@research.glasgow.ac.uk" +:+ after) = true ∧
  StaffEmail (before +:+ "@gla.ac.uk" +:+ after) = true ∧
  StaffEmail (before +:+ "@research.gla.ac.uk" +:+ after) = true.
Proof.
  unfold StaffEmail. split_and!.
  - by rewrite contains_append.
  - rewrite (contains_append "@research.glasgow.ac.uk"). by rewrite !orb_true_r.
  - rewrite (contains_append "@gla.ac.uk"). by rewrite !orb_true_r.
  - rewrite (contains_append "@research.gla.ac.uk"). by rewrite !orb_true_r.
Qed.

(** ** The further properties on the sample directories *)

Lemma pivot_rows_by_key_witness :
  ∃ ks,
    (λ row, row !! 1%nat) <$> tail (meeting_report_by_date Out.reports_sessions)
      = (λ k, Some (CStr k)) <$> ks ∧
    (λ row, row !! 1%nat) <$> tail (meeting_report_by_week Out.reports_sessions)
      = (λ k, Some (CStr k)) <$> ks ∧
    StronglySorted (λ a b, String.ltb a b = true) ks ∧
    ∀ k, k ∈ ks ↔ k ∈ keys Ex2.emails_sessions ∧ StaffEmail k = false.
Proof.
  apply (pivot_rows_by_key ∅ 2 Zoom.int Zoom.strptime [Ex.file_sessions]);
    vm_compute; reflexivity.
Defined.

Lemma chronological_order_witness :
  ∃ plan : list (string * list date),
    meeting_report Out.reports_sessions
      = concat ((λ p : string * list date,
                   omap (λ d, entry_row <$> lookup2 Ex2.emails_sessions p.1 d) p.2)
                  <$> plan) ∧
    StronglySorted (λ a b, String.ltb a b = true) plan.*1 ∧
    (∀ k, k ∈ plan.*1 ↔ k ∈ keys Ex2.emails_sessions ∧ StaffEmail k = false) ∧
    ∀ k ds, (k, ds) ∈ plan →
      StronglySorted Cal.lt ds ∧
      ∀ d, d ∈ ds ↔ is_Some (lookup2 Ex2.emails_sessions k d).
Proof.
  apply (chronological_order ∅ 2 Zoom.int Zoom.strptime [Ex.file_sessions]);
    vm_compute; reflexivity.
Defined.

Lemma tables_rectangular_witness :
  Forall (λ row, length row = 4%nat) (meeting_report Out.reports_sessions) ∧
  (∃ header, meeting_report_by_date Out.reports_sessions !! 0%nat = Some header ∧
     Forall (λ row, length row = length header)
            (meeting_report_by_date Out.reports_sessions)) ∧
  (∃ header, meeting_report_by_week Out.reports_sessions !! 0%nat = Some header ∧
     Forall (λ row, length row = length header)
            (meeting_report_by_week Out.reports_sessions)).
Proof.
  apply (tables_rectangular ∅ 2 Zoom.int Zoom.strptime [Ex.file_sessions]).
  vm_compute; reflexivity.
Defined.

Lemma date_pivot_cells_witness :
  ∃ cols,
    meeting_report_by_date Out.reports_sessions !! 0%nat
      = Some ([CStr "Name"; CStr "Email"] ++ (CDate <$> cols)) ∧
    ∀ k studentRecord,
      dict_get Ex2.emails_sessions k = Some studentRecord → StaffEmail k = false →
      [CStr (name_of studentRecord); CStr k]
        ++ ((λ d, match dict_get studentRecord d with
                  | Some e => CInt (e_mins e)
                  | None => CStr ""
                  end) <$> cols)
        ∈ meeting_report_by_date Out.reports_sessions ∧
      ∀ d, d ∈ keys studentRecord → d ∈ cols.
Proof.
  apply (date_pivot_cells ∅ 2 Zoom.int Zoom.strptime [Ex.file_sessions]);
    vm_compute; reflexivity.
Defined.

Lemma date_from_isoweek_inverts_witness :
  date_from_isoweek (Cal.iso_year (Date 2021 1 3)) (Cal.iso_week (Date 2021 1 3))
                    (Cal.isocalendar (Date 2021 1 3)).2
  = Date 2021 1 3.
Proof.
  apply (date_from_isoweek_inverts (Date 2021 1 3)).
  unfold valid_date. vm_compute. intuition discriminate.
Defined.

Lemma date_from_isoweek_monday_witness :
  date_from_isoweek (Cal.iso_year (Date 2021 1 3)) (Cal.iso_week (Date 2021 1 3)) 1
    = Date 2020 12 28 ∧
  Cal.isoweekday (Date 2020 12 28) = 1.
Proof.
  apply (date_from_isoweek_monday (Date 2021 1 3) (Date 2020 12 28)).
  - unfold valid_date. vm_compute. intuition discriminate.
  - unfold valid_date. vm_compute. intuition discriminate.
  - vm_compute; reflexivity.
Defined.

Example iso_calendar_at_year_end :
  Cal.isocalendar (Date 2021 1 3) = (2020, 53, 7) ∧
  Cal.isocalendar (Date 2020 12 28) = (2020, 53, 1) ∧
  Cal.isocalendar (Date 2024 12 30) = (2025, 1, 1) ∧
  date_from_isoweek 2025 1 1 = Date 2024 12 30.
Proof. split_and!; vm_compute; reflexivity. Qed.

Lemma week_pivot_columns_witness :
  ∃ weeks : dict Z date,
    meeting_report_by_week Out.reports_sessions !! 0%nat
      = Some ([CStr "Name"; CStr "Email"] ++ (CDate <$> values weeks)) ∧
    StronglySorted Z.lt (keys weeks) ∧
    (∀ w, w ∈ keys weeks ↔
          ∃ k studentRecord d,
            dict_get Ex2.emails_sessions k = Some studentRecord ∧
            d ∈ keys studentRecord ∧ Cal.iso_week d = w) ∧
    (∀ w monday, (w, monday) ∈ weeks →
          ∃ k studentRecord d,
            dict_get Ex2.emails_sessions k = Some studentRecord ∧
            d ∈ keys studentRecord ∧ Cal.iso_week d = w ∧
            monday = date_from_isoweek (Cal.iso_year d) (Cal.iso_week d) 1).
Proof.
  apply (week_pivot_columns ∅ 2 Zoom.int Zoom.strptime [Ex.file_sessions]);
    vm_compute; reflexivity.
Defined.

(** Week columns follow the week number, not the date: the column of
    week 1 of January 2021 stands before the column of week 40 of October
    2020. *)
Example week_columns_by_number :
  match process_directory ∅ 0 Zoom.int Zoom.strptime
          [[Ex.header;
            ["A Student"; "x@student.gla.ac.uk"; "01/10/2020 09:00:00 AM";
             "01/10/2020 09:30:00 AM"; "30"];
            ["A Student"; "x@student.gla.ac.uk"; "04/01/2021 09:00:00 AM";
             "04/01/2021 09:45:00 AM"; "45"]]] with
  | Ok out =>
      meeting_report_by_week out
      = [[CStr "Name"; CStr "Email"; CDate (Date 2021 1 4); CDate (Date 2020 9 28)];
         [CStr "A Student"; CStr "x@student.gla.ac.uk"; CInt 45; CInt 30]]
  | Raise _ => False
  end.
Proof. vm_compute; reflexivity. Qed.

Lemma hints_about_unmatched_witness :
  ∃ msgs,
    Hints.hints Ex2.emails_hints = Ok msgs ∧
    (∀ name email,
        Hints.NotMatched name email ∈ msgs ↔
        ∃ k studentRecord e,
          dict_get Ex2.emails_hints k = Some studentRecord ∧
          StaffEmail k = false ∧ UniversityStudentEmail k = false ∧
          first_value studentRecord = Ok e ∧ name = e_name e ∧ email = e_email e) ∧
    (∀ alternate canonical,
        Hints.AddTableRow alternate canonical ∈ msgs →
        emailKey_of ∅ alternate ∈ keys Ex2.emails_hints ∧
        StaffEmail (emailKey_of ∅ alternate) = false ∧
        UniversityStudentEmail (emailKey_of ∅ alternate) = false ∧
        emailKey_of ∅ canonical ∈ keys Ex2.emails_hints ∧
        UniversityStudentEmail (emailKey_of ∅ canonical) = true).
Proof.
  apply (hints_about_unmatched ∅ Zoom.int Zoom.strptime [Ex2.file_hints]).
  vm_compute; reflexivity.
Defined.

Lemma blank_surname_matches_all_witness :
  Hints.MightMatch (e_name Ex2.entry_2b) (e_email Ex2.entry_2b) ∈ Ex2.messages ∧
  Hints.AddTableRow (e_email Ex2.entry_ann) (e_email Ex2.entry_2b) ∈ Ex2.messages.
Proof.
  assert (load_directory ∅ Zoom.int Zoom.strptime [Ex2.file_hints]
          = Ok Ex2.emails_hints) as Hload by (vm_compute; reflexivity).
  assert (Hints.hints Ex2.emails_hints = Ok Ex2.messages) as Hhints
    by (vm_compute; reflexivity).
  assert (e_name Ex2.entry_ann = "" ∨ ∃ s, e_name Ex2.entry_ann = s +:+ " ")
    as Hname by (right; exists "Ann Lee"; vm_compute; reflexivity).
  exact (blank_surname_matches_all ∅ Zoom.int Zoom.strptime [Ex2.file_hints]
           Ex2.emails_hints Ex2.messages "ann@hotmail.com"
           [(Date 2020 10 1, Ex2.entry_ann)] Ex2.entry_ann
           Hload Hhints eq_refl eq_refl eq_refl eq_refl Hname
           "2b@student.gla.ac.uk" [(Date 2020 10 8, Ex2.entry_2b)] Ex2.entry_2b
           eq_refl eq_refl eq_refl).
Defined.

Lemma student_address_not_staff_witness :
  UniversityStudentEmail ("1234567a" +:+ "@student.gla.ac.uk") = true ∧
  StaffEmail ("1234567a" +:+ "@student.gla.ac.uk") = false.
Proof.
  apply (student_address_not_staff "1234567a"). vm_compute; reflexivity.
Defined.


(** ** Participants, from the raw rows *)

Lemma lower_get s i :
  String.get i (Str.lower s) = Str.lower_ascii <$> String.get i s.
Proof.
  revert i. induction s as [|c s IH]; intros i; [done|].
  destruct i as [|i]; simpl; [done | apply IH].
Qed.

Lemma lower_length s : String.length (Str.lower s) = String.length s.
Proof. induction s as [|c s IH]; simpl; [done | by rewrite IH]. Qed.

Lemma lower_ascii_spec c :
  ((65 ≤ Ascii.N_of_ascii c ≤ 90)%N
   ∧ Ascii.N_of_ascii (Str.lower_ascii c) = (Ascii.N_of_ascii c + 32)%N)
  ∨ (¬ (65 ≤ Ascii.N_of_ascii c ≤ 90)%N ∧ Str.lower_ascii c = c).
Proof.
  unfold Str.lower_ascii. cbv zeta.
  destruct (N.leb_spec 65 (Ascii.N_of_ascii c)), (N.leb_spec (Ascii.N_of_ascii c) 90);
    simpl; [left | right; split; [lia | done]..].
  split; [lia|]. apply Ascii.N_ascii_embedding. lia.
Qed.

Section RawRows.
Variable emailMapping : gmap string string.
Variable py_int : string → option Z.
Variable strptime : string → option datetime.

Local Abbreviation parse_row := (parse_row emailMapping py_int strptime).
Local Abbreviation load_directory := (load_directory emailMapping py_int strptime).
Local Abbreviation data_rows := (data_rows emailMapping py_int strptime).
Local Abbreviation emailKey_of := (emailKey_of emailMapping).
Local Abbreviation folded_in := (folded_in py_int strptime).

(** The data rows are the parsed forms of the raw rows that are folded
    in. *)
Lemma data_rows_raw files k d :
  (∃ r, r ∈ data_rows files ∧ p_emailKey r = k ∧ p_date r = d) ↔
  ∃ file row c1 c2 dt,
    file ∈ files ∧ row ∈ file ∧ folded_in row = true ∧
    row !! 1%nat = Some c1 ∧ row !! 2%nat = Some c2 ∧ strptime c2 = Some dt ∧
    emailKey_of (Str.lower c1) = k ∧ dt_date dt = d.
Proof.
  split.
  - intros (r & Hr & Hk & Hd). unfold data_rows in Hr.
    apply list_elem_of_omap in Hr as (row & Hrow & Hp).
    apply elem_of_concat in Hrow as (file & Hrow & Hfile).
    apply data_row_Some, parse_row_Some in Hp.
    destruct Hp as (c0 & c1 & c2 & c4 & dt & H0 & H1 & H2 & H4 & Hh & Hm & Hdt & Hr).
    rewrite Hr in Hk, Hd. simpl in Hk, Hd.
    exists file, row, c1, c2, dt. split_and!; try done.
    unfold folded_in, is_header, parses. by rewrite H0, H2, H4, Hh, Hm, Hdt.
  - intros (file & row & c1 & c2 & dt & Hfile & Hrow & Hf & H1 & H2 & Hdt & Hk & Hd).
    unfold folded_in in Hf. apply andb_true_iff in Hf as [Hh Hp].
    apply negb_true_iff in Hh.
    assert (5 ≤ length row)%nat as Hlen.
    { unfold parses in Hp. destruct (row !! 2%nat); [|done].
      destruct (row !! 4%nat) eqn:H4; [|done]. apply lookup_lt_Some in H4. lia. }
    destruct (parse_row_long emailMapping py_int strptime row Hh Hlen)
      as (c0 & c1' & c2' & c4 & H0 & H1' & H2' & H4 & Hparse).
    assert (c1' = c1) as -> by congruence.
    assert (c2' = c2) as -> by congruence.
    unfold parses in Hp. rewrite H2, H4 in Hp.
    apply andb_true_iff in Hp as [[mins Hm]%bool_decide_eq_true _].
    rewrite Hm, Hdt in Hparse.
    exists (Parsed c0 (Str.lower c1) (emailKey_of (Str.lower c1)) c2 mins (dt_date dt)).
    split_and!; [|done..].
    unfold data_rows. apply list_elem_of_omap. exists row. split.
    + apply elem_of_concat. by exists file.
    + by apply data_row_Some.
Qed.

Lemma data_rows_raw_key files k :
  (∃ r, r ∈ data_rows files ∧ p_emailKey r = k) ↔
  ∃ file row c1,
    file ∈ files ∧ row ∈ file ∧ folded_in row = true ∧
    row !! 1%nat = Some c1 ∧ emailKey_of (Str.lower c1) = k.
Proof.
  split.
  - intros (r & Hr & Hk).
    destruct (proj1 (data_rows_raw files k (p_date r)))
      as (file & row & c1 & c2 & dt & ? & ? & ? & ? & ? & ? & ? & ?); [by eauto|].
    by exists file, row, c1.
  - intros (file & row & c1 & Hfile & Hrow & Hf & H1 & Hk).
    assert (∃ c2 dt, row !! 2%nat = Some c2 ∧ strptime c2 = Some dt)
      as (c2 & dt & H2 & Hdt).
    { unfold folded_in in Hf. apply andb_true_iff in Hf as [_ Hp].
      unfold parses in Hp. destruct (row !! 2%nat) as [c2|]; [|done].
      destruct (row !! 4%nat); [|done].
      apply andb_true_iff in Hp as [_ [dt Hdt]%bool_decide_eq_true]. eauto. }
    destruct (proj2 (data_rows_raw files k (dt_date dt))) as (r & ? & ? & ?);
      [by exists file, row, c1, c2, dt | by eauto].
Qed.

End RawRows.


(** Two rows under two addresses typed with capitals, two names and two
    dates: one participant, keyed by the canonical address. *)
Example capitals_and_alias_one_participant :
  load_directory Ex.aliases Zoom.int Zoom.strptime [Ex3.file_caps]
    = Ok Ex3.emails_caps ∧
  keys Ex3.emails_caps = ["1a@student.gla.ac.uk"] ∧
  Str.lower "A@Personal.com" = "a@personal.com" ∧
  emailKey_of Ex.aliases "a@personal.com" = "1a@student.gla.ac.uk".
Proof. split_and!; vm_compute; reflexivity. Qed.

(** ** The cells of the week-pivot report *)

Section WeekPivotClaims.
Variable emailMapping : gmap string string.
Variable warningThreshold : Z.
Variable py_int : string → option Z.
Variable strptime : string → option datetime.

Local Abbreviation load_directory := (load_directory emailMapping py_int strptime).
Local Abbreviation process_directory :=
  (process_directory emailMapping warningThreshold py_int strptime).

(** C5, as the script has it: the week columns are keyed by ISO week
    number alone.  The report has one column per ISO week number found
    among the dates of [emails], in strictly ascending order of the
    number, headed by [date_from_isoweek] of the ISO year and week of one
    of the dates with that number.  Its rows after the header are the
    rows of the participants that are not skipped, and in such a row the
    cell under a column is the sum of the minutes of all dates of the
    participant's record whose ISO week number is that of the column,
    whatever their ISO year; minutes being non-negative, the cell is
    empty exactly when that sum is zero. *)
Theorem week_pivot_cells files emails out :
  load_directory files = Ok emails → process_directory files = Ok out →
  ∃ (weeks : dict Z date) (rows : list (list cell)),
    StronglySorted Z.lt (keys weeks) ∧
    (∀ week, week ∈ keys weeks ↔
          ∃ k studentRecord d,
            dict_get emails k = Some studentRecord ∧ d ∈ keys studentRecord ∧
            Cal.iso_week d = week) ∧
    (∀ week weekStart, (week, weekStart) ∈ weeks →
          ∃ k studentRecord d,
            dict_get emails k = Some studentRecord ∧ d ∈ keys studentRecord ∧
            Cal.iso_week d = week ∧
            weekStart = date_from_isoweek (Cal.iso_year d) week 1) ∧
    meeting_report_by_week out
      = ([CStr "Name"; CStr "Email"] ++ (CDate <$> values weeks)) :: rows ∧
    (∀ row, row ∈ rows ↔
          ∃ k studentRecord,
            dict_get emails k = Some studentRecord ∧ StaffEmail k = false ∧
            row = [CStr (name_of studentRecord); CStr k]
                    ++ ((λ week, minutes_cell (week_minutes studentRecord week))
                          <$> keys weeks)) ∧
    (∀ k studentRecord,
        dict_get emails k = Some studentRecord →
        (∀ d e, dict_get studentRecord d = Some e → 0 ≤ e_mins e) →
        ∀ week, minutes_cell (week_minutes studentRecord week) = CStr ""
                ↔ week_minutes studentRecord week = 0).
Proof.
  intros Hl (emails' & Hl' & ->)%process_directory_Ok.
  assert (emails' = emails) as -> by congruence.
  pose proof (wf_load_directory _ _ _ _ _ Hl) as Hwf.
  destruct (weekCatalogue_spec emails) as (Hnd & Hin & Hval).
  exists (items_sorted Z.leb (weekCatalogue emails)),
         (pivot_row (week_cells emails) <$> included emails).
  split_and!.
  - rewrite keys_items_sorted.
    apply (sorted_strictly Z.leb Z.lt); [lia | lia | lia | done].
  - intros week. by rewrite keys_items_sorted, elem_of_sorted.
  - intros week weekStart Hw%elem_of_items_sorted.
    destruct (Hval _ _ Hw) as (k & rec & d & ? & ? & <- & ?). by exists k, rec, d.
  - done.
  - intros row. rewrite elem_of_pivot_rows.
    assert (∀ rec : dict date DailyAttendance,
              week_cells emails rec
              = (λ week, minutes_cell (week_minutes rec week))
                  <$> keys (items_sorted Z.leb (weekCatalogue emails))) as Hcells.
    { intros rec. unfold week_cells. rewrite keys_items_sorted.
      apply list_fmap_ext. intros _ week _. by rewrite week_cell_minutes. }
    split.
    + intros (k & rec & Hk & Hrec & ->). exists k, rec. split_and!; [done..|].
      unfold pivot_row. simpl. by rewrite Hcells.
    + intros (k & rec & Hrec & Hk & ->). exists k, rec. split_and!; [done..|].
      unfold pivot_row. simpl. by rewrite Hcells.
  - intros k rec Hrec Hpos week.
    destruct (wf_lookup _ _ _ _ Hwf Hrec) as (Hnd' & _ & _).
    pose proof (week_minutes_nonneg rec week Hnd' Hpos) as Hge.
    unfold minutes_cell. destruct (Z.ltb_spec 0 (week_minutes rec week)).
    + split; [done | lia].
    + split; [lia | done].
Qed.
End WeekPivotClaims.

Lemma week_pivot_cells_witness :
  ∃ (weeks : dict Z date) (rows : list (list cell)),
    StronglySorted Z.lt (keys weeks) ∧
    (∀ week, week ∈ keys weeks ↔
          ∃ k studentRecord d,
            dict_get Ex2.emails_sessions k = Some studentRecord ∧
            d ∈ keys studentRecord ∧ Cal.iso_week d = week) ∧
    (∀ week weekStart, (week, weekStart) ∈ weeks →
          ∃ k studentRecord d,
            dict_get Ex2.emails_sessions k = Some studentRecord ∧
            d ∈ keys studentRecord ∧ Cal.iso_week d = week ∧
            weekStart = date_from_isoweek (Cal.iso_year d) week 1) ∧
    meeting_report_by_week Out.reports_sessions
      = ([CStr "Name"; CStr "Email"] ++ (CDate <$> values weeks)) :: rows ∧
    (∀ row, row ∈ rows ↔
          ∃ k studentRecord,
            dict_get Ex2.emails_sessions k = Some studentRecord ∧
            StaffEmail k = false ∧
            row = [CStr (name_of studentRecord); CStr k]
                    ++ ((λ week, minutes_cell (week_minutes studentRecord week))
                          <$> keys weeks)) ∧
    (∀ k studentRecord,
        dict_get Ex2.emails_sessions k = Some studentRecord →
        (∀ d e, dict_get studentRecord d = Some e → 0 ≤ e_mins e) →
        ∀ week, minutes_cell (week_minutes studentRecord week) = CStr ""
                ↔ week_minutes studentRecord week = 0).
Proof.
  apply (week_pivot_cells ∅ 2 Zoom.int Zoom.strptime [Ex.file_sessions]);
    vm_compute; reflexivity.
Defined.
